(** * Parcoursup formation monitor: change detection and filtering

    A shallow embedding of the data-processing core of [src/monitor.py]
    ([get_unique_id], [detect_new_formations], [calculate_distance],
    [apply_filters] and the notification decision of [main]) together with
    the properties the specification states about it, of the fetching of
    the catalogue ([fetch_page], [fetch_all_formations]) with the properties
    of its retries and of its pagination, and of the card that shows a
    formation in the report ([format_formation_html]).

    The program is dynamically typed and works on values decoded from JSON,
    so the embedding keeps the Python value universe, Python truthiness and
    the exceptions the interpreter raises on ill-typed operands.  Records are
    dictionaries that [apply_filters] mutates in place, hence they live in a
    store and the record lists hold references. *)

From Stdlib Require Import ZArith List String Ascii Bool Floats Lia.
From stdpp Require Import base decidable option list strings pretty gmap functions.
From Equations Require Import Equations.

Set Warnings "-register-all,-inexact-float".

Local Open Scope string_scope.
Local Open Scope Z_scope.

(** ** Exceptions and the error monad *)

Inductive exn : Type :=
| TypeError
| AttributeError
| KeyError
| ValueError
| OverflowError.

Inductive result (A : Type) : Type :=
| Ok (a : A)
| Raise (e : exn).

Arguments Ok {A} a.
Arguments Raise {A} e.

Definition rbind {A B} (m : result A) (k : A -> result B) : result B :=
  match m with
  | Ok a => k a
  | Raise e => Raise e
  end.

Declare Scope result_scope.
Delimit Scope result_scope with result.
Notation "x <-? m ; k" := (rbind m (fun x => k))
  (at level 100, m at next level, right associativity) : result_scope.

Definition is_ok {A} (m : result A) : bool :=
  match m with Ok _ => true | Raise _ => false end.

(** ** Python values

    The values [json.load] produces.  A string is a sequence of code points
    of the Latin-1 range (one [ascii] per code point); a dictionary keeps
    its insertion order, which [json.dumps] shows. *)

Inductive value : Type :=
| VNone
| VBool (b : bool)
| VInt (z : Z)
| VFloat (x : float)
| VStr (s : string)
| VList (l : list value)
| VDict (d : list (string * value)).

Abbreviation dict := (list (string * value)) (only parsing).

(** A reference to a dictionary object, and the store that gives each
    reference its dictionary. *)
Abbreviation ref := nat (only parsing).
Abbreviation store := (nat -> list (string * value)) (only parsing).

(** [bool(v)] *)
Definition truthy (v : value) : bool :=
  match v with
  | VNone => false
  | VBool b => b
  | VInt z => negb (z =? 0)
  | VFloat x => negb (PrimFloat.eqb x 0%float)
  | VStr s => negb (String.eqb s "")
  | VList l => match l with [] => false | _ => true end
  | VDict d => match d with [] => false | _ => true end
  end.

(** [a or b] and [a and b] return one of their operands. *)
Definition py_or (a b : value) : value := if truthy a then a else b.
Definition py_and (a b : value) : value := if truthy a then b else a.

(** *** Dictionaries *)

Fixpoint dict_lookup (d : dict) (k : string) : option value :=
  match d with
  | [] => None
  | (k', v) :: rest => if String.eqb k' k then Some v else dict_lookup rest k
  end.

(** [k in d] *)
Definition dict_contains (d : dict) (k : string) : bool :=
  match dict_lookup d k with Some _ => true | None => false end.

(** [d[k]] *)
Definition dict_getitem (d : dict) (k : string) : result value :=
  match dict_lookup d k with Some v => Ok v | None => Raise KeyError end.

(** [d.get(k, default)] and [d.get(k)] *)
Definition dict_get (d : dict) (k : string) (default : value) : value :=
  match dict_lookup d k with Some v => v | None => default end.

Definition dict_get_none (d : dict) (k : string) : value := dict_get d k VNone.

(** [d[k] = v]: an existing key keeps its position, a new key goes last. *)
Fixpoint dict_setitem (d : dict) (k : string) (v : value) : dict :=
  match d with
  | [] => [(k, v)]
  | (k', v') :: rest =>
      if String.eqb k' k then (k', v) :: rest
      else (k', v') :: dict_setitem rest k v
  end.

(** [x.get] where [x] is any value: only dictionaries have the method. *)
Definition as_dict (v : value) : result dict :=
  match v with
  | VDict d => Ok d
  | _ => Raise AttributeError
  end.

(** *** Strings *)

(** [str.lower] on the Latin-1 range: A-Z and the accented capitals
    U+00C0-U+00DE (except the multiplication sign U+00D7) move by 32. *)
Definition lower_char (c : ascii) : ascii :=
  let n := N_of_ascii c in
  if ((65 <=? n) && (n <=? 90))%N then ascii_of_N (n + 32)
  else if ((192 <=? n) && (n <=? 222) && negb (n =? 215))%N then ascii_of_N (n + 32)
  else c.

Fixpoint string_map (f : ascii -> ascii) (s : string) : string :=
  match s with
  | EmptyString => EmptyString
  | String c rest => String (f c) (string_map f rest)
  end.

Definition str_lower (s : string) : string := string_map lower_char s.

(** [s.replace(old, new)] for one-character [old] and [new]. *)
Definition str_replace_char (old new : ascii) (s : string) : string :=
  string_map (fun c => if Ascii.eqb c old then new else c) s.

(** [needle in hay] *)
Fixpoint str_contains (needle hay : string) : bool :=
  String.prefix needle hay ||
  match hay with
  | EmptyString => false
  | String _ rest => str_contains needle rest
  end.

(** The characters of a string, as [for c in s] yields them. *)
Fixpoint str_chars (s : string) : list string :=
  match s with
  | EmptyString => []
  | String c rest => String c EmptyString :: str_chars rest
  end.

Definition str_join (sep : string) (parts : list string) : string :=
  match parts with
  | [] => ""
  | p :: ps => fold_left (fun acc q => acc ++ sep ++ q) ps p
  end.

(** *** Numbers

    Python's [int] is unbounded, its [float] is IEEE-754 binary64 and
    [bool] is a subtype of [int]. *)

Definition Z_of_bool (b : bool) : Z := if b then 1 else 0.

(** [float(z)]: round to nearest even, [OverflowError] beyond the range. *)
Definition float_of_Z (z : Z) : result float :=
  match binary_normalize prec emax z 0 false with
  | S754_infinity _ => Raise OverflowError
  | sf => Ok (SF2Prim sf)
  end.

(** The conversion [math.radians] and mixed arithmetic apply to an operand. *)
Definition as_float (v : value) : result float :=
  match v with
  | VBool b => float_of_Z (Z_of_bool b)
  | VInt z => float_of_Z z
  | VFloat x => Ok x
  | _ => Raise TypeError
  end.

(** [a - b] *)
Definition py_sub (a b : value) : result value :=
  match a, b with
  | (VBool _ | VInt _ | VFloat _), (VBool _ | VInt _ | VFloat _) =>
      match a, b with
      | VFloat _, _ | _, VFloat _ =>
          (x <-? as_float a; y <-? as_float b; Ok (VFloat (x - y)%float))%result
      | _, _ =>
          let int_of v := match v with VBool c => Z_of_bool c | VInt z => z | _ => 0 end in
          Ok (VInt (int_of a - int_of b))
      end
  | _, _ => Raise TypeError
  end.

(** Exact comparison of a float with an integer, as [float.__le__] does. *)
Definition float_le_Z (x : float) (z : Z) : bool :=
  match Prim2SF x with
  | S754_nan => false
  | S754_infinity s => s
  | S754_zero _ => 0 <=? z
  | S754_finite s m e =>
      let m' := if s then Z.neg m else Z.pos m in
      if 0 <=? e then m' * 2 ^ e <=? z else m' <=? z * 2 ^ (- e)
  end.

(** [x <= v] for a float [x] *)
Definition float_le (x : float) (v : value) : result bool :=
  match v with
  | VBool b => Ok (float_le_Z x (Z_of_bool b))
  | VInt z => Ok (float_le_Z x z)
  | VFloat y => Ok (PrimFloat.leb x y)
  | _ => Raise TypeError
  end.

(** Equality of a float and an integer is exact as well. *)
Definition float_eq_Z (x : float) (z : Z) : bool :=
  float_le_Z x z && float_le_Z (- x)%float (- z).

(** [a == b] on hashable values. *)
Definition py_eq (a b : value) : bool :=
  match a, b with
  | VNone, VNone => true
  | VStr s, VStr t => String.eqb s t
  | VFloat x, VFloat y => PrimFloat.eqb x y
  | VFloat x, VInt z | VInt z, VFloat x => float_eq_Z x z
  | VFloat x, VBool c | VBool c, VFloat x => float_eq_Z x (Z_of_bool c)
  | VInt z, VInt w => z =? w
  | VInt z, VBool c | VBool c, VInt z => z =? Z_of_bool c
  | VBool c, VBool d => Bool.eqb c d
  | _, _ => false
  end.

Definition hashable (v : value) : bool :=
  match v with
  | VList _ | VDict _ => false
  | _ => true
  end.

(** [for x in v] *)
Definition py_iter (v : value) : result (list value) :=
  match v with
  | VList l => Ok l
  | VStr s => Ok (map VStr (str_chars s))
  | VDict d => Ok (map (fun kv => VStr (fst kv)) d)
  | _ => Raise TypeError
  end.

(** [v.lower()]: only strings have the method. *)
Definition lower_of (v : value) : result string :=
  match v with
  | VStr s => Ok (str_lower s)
  | _ => Raise AttributeError
  end.

(** ** The runtime library

    The interpreter's functions that work on the digits of a float are
    taken as they come: the [math] module, [**] on floats, [round], the
    shortest [repr] of a float and the quoting [repr] of a string.  Each
    [math] function may raise [ValueError] (a domain error). *)

Class Runtime : Type := {
  math_sin : float -> result float;
  math_cos : float -> result float;
  math_sqrt : float -> result float;
  math_atan2 : float -> float -> result float;
  float_pow : float -> float -> result float;
  float_round : float -> Z -> float;
  float_repr : float -> string;
  str_repr : string -> string
}.

(** ** Comprehensions

    A list comprehension evaluates its condition on the elements in order
    and stops at the first exception. *)

Fixpoint filterM {A} (p : A -> result bool) (l : list A) : result (list A) :=
  match l with
  | [] => Ok []
  | x :: rest =>
      (b <-? p x;
       kept <-? filterM p rest;
       Ok (if b then x :: kept else kept))%result
  end.

Fixpoint mapM {A B} (f : A -> result B) (l : list A) : result (list B) :=
  match l with
  | [] => Ok []
  | x :: rest => (y <-? f x; ys <-? mapM f rest; Ok (y :: ys))%result
  end.

(** [any(p(x) for x in l)] stops at the first true element. *)
Fixpoint py_any {A} (p : A -> result bool) (l : list A) : result bool :=
  match l with
  | [] => Ok false
  | x :: rest => (b <-? p x; if b then Ok true else py_any p rest)%result
  end.

Section Program.

Context {RT : Runtime}.

(** *** Text of a value *)

(** [repr(v)] *)
Fixpoint py_repr (v : value) : string :=
  match v with
  | VNone => "None"
  | VBool b => if b then "True" else "False"
  | VInt z => pretty z
  | VFloat x => float_repr x
  | VStr s => str_repr s
  | VList l => "[" ++ str_join ", " (map py_repr l) ++ "]"
  | VDict d =>
      "{" ++ str_join ", "
               (map (fun kv => let '(k, w) := kv in str_repr k ++ ": " ++ py_repr w) d)
          ++ "}"
  end.

(** [str(v)], which is what an f-string field [{v}] inserts. *)
Definition py_str (v : value) : string :=
  match v with
  | VStr s => s
  | _ => py_repr v
  end.

Definition dquote : ascii := ascii_of_N 34.

Definition hex_digit (n : N) : ascii :=
  match n with
  | 10 => "a" | 11 => "b" | 12 => "c" | 13 => "d" | 14 => "e" | 15 => "f"
  | _ => pretty_N_char n
  end%char%N.

(** The escapes of [json.dumps(..., ensure_ascii=False)]. *)
Definition json_escape_char (c : ascii) : string :=
  let n := N_of_ascii c in
  if (n =? 34)%N then String "\" (String dquote "")
  else if (n =? 92)%N then "\\"
  else if (n =? 10)%N then "\n"
  else if (n =? 13)%N then "\r"
  else if (n =? 9)%N then "\t"
  else if (n =? 8)%N then "\b"
  else if (n =? 12)%N then "\f"
  else if (n <? 32)%N then
    "\u00" ++ String (hex_digit (n / 16)) (String (hex_digit (n mod 16)) "")
  else String c "".

Fixpoint json_escape (s : string) : string :=
  match s with
  | EmptyString => ""
  | String c rest => json_escape_char c ++ json_escape rest
  end.

Definition json_string (s : string) : string :=
  String dquote (json_escape s) ++ String dquote "".

Definition json_float (x : float) : string :=
  if PrimFloat.is_nan x then "NaN"
  else if PrimFloat.eqb x PrimFloat.infinity then "Infinity"
  else if PrimFloat.eqb x PrimFloat.neg_infinity then "-Infinity"
  else float_repr x.

Fixpoint json_dumps_value (v : value) : string :=
  match v with
  | VNone => "null"
  | VBool b => if b then "true" else "false"
  | VInt z => pretty z
  | VFloat x => json_float x
  | VStr s => json_string s
  | VList l => "[" ++ str_join ", " (map json_dumps_value l) ++ "]"
  | VDict d =>
      "{" ++ str_join ", "
               (map (fun kv => let '(k, w) := kv in
                               json_string k ++ ": " ++ json_dumps_value w) d)
          ++ "}"
  end.

(** [json.dumps(f, ensure_ascii=False)] for a record [f] *)
Definition json_dumps (f : dict) : string := json_dumps_value (VDict f).

(** ** Identity of a formation ([get_unique_id]) *)

Definition get_unique_id (formation : dict) : result string :=
  if dict_contains formation "code_uai" then
    (code_uai <-? dict_getitem formation "code_uai";
     Ok ("uai_" ++ py_str code_uai))%result
  else
    let name := dict_get formation "libelle_formation" (VStr "unknown") in
    let etabl := dict_get formation "libelle_etablissement" (VStr "unknown") in
    let ville := dict_get formation "ville" (VStr "unknown") in
    let session := dict_get formation "session" (VStr "unknown") in
    Ok (str_replace_char " " "_"
          (str_lower ("composite_" ++ py_str session ++ "_" ++ py_str name
                        ++ "_" ++ py_str etabl ++ "_" ++ py_str ville))).

(** ** Snapshot difference ([detect_new_formations])

    [previous_ids] is a set of strings; the comprehension over [current]
    keeps the records whose identifier is not in it. *)

Definition detect_new_formations (current previous : list dict)
  : result (list dict) :=
  match previous with
  | [] => Ok []
  | _ =>
      (ids <-? mapM get_unique_id previous;
       let previous_ids : gset string := list_to_set ids in
       filterM (fun f => id <-? get_unique_id f;
                         Ok (bool_decide (id ∉ previous_ids))) current)%result
  end.

(** ** Great-circle distance ([calculate_distance]) *)

(** [math.pi / 180], the factor of [math.radians] *)
Definition deg_to_rad : float := (0x1.921fb54442d18p+1 / 180)%float.

Definition math_radians (v : value) : result float :=
  (x <-? as_float v; Ok (x * deg_to_rad)%float)%result.

Definition calculate_distance (lat1 lon1 lat2 lon2 : value) : result float :=
  let R := 6371%float in
  (lat1_rad <-? math_radians lat1;
   lat2_rad <-? math_radians lat2;
   dlat <-? py_sub lat2 lat1;
   delta_lat <-? math_radians dlat;
   dlon <-? py_sub lon2 lon1;
   delta_lon <-? math_radians dlon;
   sin_lat <-? math_sin (delta_lat / 2)%float;
   sin_lat2 <-? float_pow sin_lat 2%float;
   cos1 <-? math_cos lat1_rad;
   cos2 <-? math_cos lat2_rad;
   sin_lon <-? math_sin (delta_lon / 2)%float;
   sin_lon2 <-? float_pow sin_lon 2%float;
   let a := (sin_lat2 + cos1 * cos2 * sin_lon2)%float in
   sqrt_a <-? math_sqrt a;
   sqrt_1a <-? math_sqrt (1 - a)%float;
   angle <-? math_atan2 sqrt_a sqrt_1a;
   let c := (2 * angle)%float in
   Ok (R * c)%float)%result.

(** ** The record store

    [apply_filters] receives a list of dictionary objects and writes
    [_distance_km] into some of them: the list holds references and the
    store gives each reference its dictionary. *)



(** Computations that may write to the store and may raise; an exception
    leaves the writes made so far in place. *)
Definition M (A : Type) : Type := store -> result A * store.

Definition mret {A} (a : A) : M A := fun st => (Ok a, st).

Definition mbind {A B} (m : M A) (k : A -> M B) : M B :=
  fun st =>
    match m st with
    | (Ok a, st') => k a st'
    | (Raise e, st') => (Raise e, st')
    end.

Definition lift {A} (r : result A) : M A := fun st => (r, st).

(** A computation that only reads the store. *)
Definition reading {A} (f : store -> result A) : M A := fun st => (f st, st).

(** [f[k] = v] on the object behind [f] *)
Definition setitem (f : ref) (k : string) (v : value) : M unit :=
  fun st => (Ok tt, <[f := dict_setitem (st f) k v]> st).

Declare Scope store_scope.
Delimit Scope store_scope with store.
Notation "x <- m ;; k" := (mbind m (fun x => k))
  (at level 100, m at next level, right associativity) : store_scope.

(** ** The filter chain ([apply_filters]) *)

(** [set(v)] and [x in s] for a set [s]: both hash their elements. *)
Definition py_set (v : value) : result (list value) :=
  (l <-? py_iter v;
   if forallb hashable l then Ok l else Raise TypeError)%result.

Definition set_contains (s : list value) (x : value) : result bool :=
  if hashable x then Ok (existsb (py_eq x) s) else Raise TypeError.

(** [[t.lower() for t in v]] *)
Definition lowered (v : value) : result (list string) :=
  (l <-? py_iter v; mapM lower_of l)%result.

Definition departement_filter (filters : dict) (st : store) (filtered : list ref)
  : result (list ref) :=
  if truthy (dict_get_none filters "departements") then
    (departements <-? dict_getitem filters "departements";
     depts <-? py_set departements;
     filterM (fun f =>
                b <-? set_contains depts (dict_get_none (st f) "departement");
                if b then Ok true
                else set_contains depts (dict_get_none (st f) "code_departement"))
             filtered)%result
  else Ok filtered.

Definition type_filter (filters : dict) (st : store) (filtered : list ref)
  : result (list ref) :=
  if truthy (dict_get_none filters "types_formation") then
    (types_formation <-? dict_getitem filters "types_formation";
     types <-? lowered types_formation;
     filterM (fun f =>
                b <-? py_any (fun t =>
                                s <-? lower_of (dict_get (st f) "type_formation" (VStr ""));
                                Ok (str_contains t s)) types;
                if b then Ok true
                else py_any (fun t =>
                               s <-? lower_of (dict_get (st f) "filiere" (VStr ""));
                               Ok (str_contains t s)) types)
             filtered)%result
  else Ok filtered.

Definition statut_filter (filters : dict) (st : store) (filtered : list ref)
  : result (list ref) :=
  if truthy (dict_get_none filters "statut") then
    (statut <-? dict_getitem filters "statut";
     statuts <-? lowered statut;
     filterM (fun f =>
                s <-? lower_of (dict_get (st f) "statut_etablissement" (VStr ""));
                Ok (existsb (String.eqb s) statuts))
             filtered)%result
  else Ok filtered.

(** [any(kw in json.dumps(f, ensure_ascii=False).lower() for kw in keywords)] *)
Definition any_keyword (keywords : list string) (f : dict) : result bool :=
  py_any (fun kw => Ok (str_contains kw (str_lower (json_dumps f)))) keywords.

Definition include_filter (filters : dict) (st : store) (filtered : list ref)
  : result (list ref) :=
  if truthy (dict_get_none filters "keywords_include") then
    (keywords_include <-? dict_getitem filters "keywords_include";
     keywords_inc <-? lowered keywords_include;
     filterM (fun f => any_keyword keywords_inc (st f)) filtered)%result
  else Ok filtered.

Definition exclude_filter (filters : dict) (st : store) (filtered : list ref)
  : result (list ref) :=
  if truthy (dict_get_none filters "keywords_exclude") then
    (keywords_exclude <-? dict_getitem filters "keywords_exclude";
     keywords_exc <-? lowered keywords_exclude;
     filterM (fun f => b <-? any_keyword keywords_exc (st f); Ok (negb b))
             filtered)%result
  else Ok filtered.

(** The body of the distance loop for one record. *)
Definition distance_step (home_lat home_lon max_distance : value) (f : ref)
  : M bool :=
  fun st =>
    let coords :=
      py_or (py_or (dict_get_none (st f) "coordonnees")
                   (dict_get_none (st f) "coordinates")) (VDict []) in
    match coords with
    | VDict coords =>
        let lat := py_or (dict_get_none coords "lat") (dict_get_none coords "latitude") in
        let lon := py_or (dict_get_none coords "lon") (dict_get_none coords "longitude") in
        if truthy (py_and lat lon) then
          (distance <- lift (calculate_distance home_lat home_lon lat lon);;
           within <- lift (float_le distance max_distance);;
           if (within : bool) then
             (_ <- setitem f "_distance_km" (VFloat (float_round distance 1));;
              mret true)
           else mret false)%store st
        else (Ok false, st)
    | _ => (Ok false, st)
    end.

(** [for f in filtered: ...] collecting the records the body appends. *)
Fixpoint distance_loop (home_lat home_lon max_distance : value)
    (filtered : list ref) : M (list ref) :=
  match filtered with
  | [] => mret []
  | f :: rest =>
      (appended <- distance_step home_lat home_lon max_distance f;;
       distance_filtered <- distance_loop home_lat home_lon max_distance rest;;
       mret (if (appended : bool) then f :: distance_filtered
             else distance_filtered))%store
  end.

(** [max_distance and home_coords.get("lat") and home_coords.get("lon")] *)
Definition distance_condition (filters : dict) : result value :=
  let max_distance := dict_get_none filters "max_distance_km" in
  let home_coords := dict_get filters "home_coordinates" (VDict []) in
  if truthy max_distance then
    (hc <-? as_dict home_coords;
     Ok (py_and (dict_get_none hc "lat") (dict_get_none hc "lon")))%result
  else Ok max_distance.

Definition distance_filter (filters : dict) (filtered : list ref) : M (list ref) :=
  let max_distance := dict_get_none filters "max_distance_km" in
  let home_coords := dict_get filters "home_coordinates" (VDict []) in
  (condition <- lift (distance_condition filters);;
   if truthy condition then
     (hc <- lift (as_dict home_coords);;
      home_lat <- lift (dict_getitem hc "lat");;
      home_lon <- lift (dict_getitem hc "lon");;
      distance_loop home_lat home_lon max_distance filtered)
   else mret filtered)%store.

Definition apply_filters (formations : list ref) (config : dict) : M (list ref) :=
  match formations with
  | [] => mret []
  | _ =>
      (filters <- lift (as_dict (dict_get config "filters" (VDict [])));;
       filtered <- reading (fun st => departement_filter filters st formations);;
       filtered <- reading (fun st => type_filter filters st filtered);;
       filtered <- reading (fun st => statut_filter filters st filtered);;
       filtered <- reading (fun st => include_filter filters st filtered);;
       filtered <- reading (fun st => exclude_filter filters st filtered);;
       distance_filter filters filtered)%store
  end.

(** ** The notification decision (in [main])

    [should_send = filtered_new or email_config.get("send_if_no_new", True)
    or is_first_run]; the mail is sent when the value is truthy. *)

Definition should_send (filtered_new : list dict) (config : dict)
    (is_first_run : bool) : result value :=
  let email_config := dict_get config "email" (VDict []) in
  let filtered_new := VList (map VDict filtered_new) in
  if truthy filtered_new then Ok filtered_new
  else
    (ec <-? as_dict email_config;
     Ok (py_or (dict_get ec "send_if_no_new" (VBool true))
               (VBool is_first_run)))%result.

End Program.

(** ** The default configuration *)

(** [create_default_config()] *)
Definition create_default_config : list (string * value) :=
  [("filters",
    VDict [("session", VList [VStr "2025"; VStr "2026"]);
           ("departements", VList [VStr "75"; VStr "77"; VStr "93"; VStr "94"]);
           ("types_formation", VList []);
           ("keywords_include", VList []);
           ("keywords_exclude", VList []);
           ("statut", VList []);
           ("max_distance_km", VNone);
           ("home_coordinates",
            VDict [("lat", VFloat 48.8534); ("lon", VFloat 2.6381)])]);
   ("email",
    VDict [("recipient", VStr "your-email@example.com");
           ("subject_prefix", VStr "[Parcoursup Monitor]");
           ("send_if_no_new", VBool true)])].

(** ** The report *)

Section Report.

Context {RT : Runtime}.

(** A line feed, and [name="value"] in a tag. *)
Definition nl : string := String (ascii_of_N 10) "".

Definition attr (name value : string) : string :=
  name ++ "=" ++ String dquote value ++ String dquote "".

(** [format_formation_html(formation)].  The capital E of the second
    heading carries an acute accent, U+00C9. *)
Definition format_formation_html (formation : dict) : string :=
  let name := dict_get formation "libelle_formation" (VStr "N/A") in
  let etabl := dict_get formation "libelle_etablissement" (VStr "N/A") in
  let ville := dict_get formation "ville" (VStr "N/A") in
  let dept := dict_get formation "departement" (VStr "N/A") in
  let type_form := dict_get formation "type_formation" (VStr "N/A") in
  let statut := dict_get formation "statut_etablissement" (VStr "N/A") in
  let distance := dict_get_none formation "_distance_km" in
  let html :=
    nl ++ "    <div "
       ++ attr "style" "border: 1px solid #ddd; padding: 15px; margin: 10px 0; border-radius: 5px; background-color: #f9f9f9;"
       ++ ">" ++ nl
       ++ "        <h3 " ++ attr "style" "margin: 0 0 10px 0; color: #2c3e50;"
       ++ ">" ++ py_str name ++ "</h3>" ++ nl
       ++ "        <p " ++ attr "style" "margin: 5px 0;" ++ "><strong>"
       ++ String (ascii_of_N 201) "tablissement:</strong> " ++ py_str etabl
       ++ "</p>" ++ nl
       ++ "        <p " ++ attr "style" "margin: 5px 0;"
       ++ "><strong>Localisation:</strong> " ++ py_str ville
       ++ " (" ++ py_str dept ++ ")</p>" ++ nl
       ++ "        <p " ++ attr "style" "margin: 5px 0;"
       ++ "><strong>Type:</strong> " ++ py_str type_form ++ "</p>" ++ nl
       ++ "        <p " ++ attr "style" "margin: 5px 0;"
       ++ "><strong>Statut:</strong> " ++ py_str statut ++ "</p>" ++ nl
       ++ "    " in
  let html :=
    match distance with
    | VNone => html
    | _ =>
        html ++ ("<p " ++ attr "style" "margin: 5px 0;"
                   ++ "><strong>Distance:</strong> " ++ py_str distance
                   ++ " km</p>")
    end in
  html ++ "</div>".

End Report.

(** ** Fetching the catalogue

    The HTTP requests and the pauses are effects on a world: the world
    holds the outcome of each request to come, the requests made so far and
    the pauses taken so far.  Log lines are not modelled. *)

(** How one pass through the [try] block of [fetch_page] can fail: a
    timeout, another [RequestException], or an exception that is neither
    and that no [except] clause catches. *)
Inductive failure : Type :=
| Timeout
| RequestError
| Unexpected (e : exn).

(** The outcome of one pass: the decoded body (which is [VNone] when the
    server sends the JSON text null), or a failure; a failure is [late] when
    it comes from [response.json()], after the pause that follows a
    successful request. *)
Inductive attempt : Type :=
| Answer (body : value)
| Fails (late : bool) (why : failure).

Record world : Type := {
  responses : nat -> attempt;
  requests : list (value * Z * Z);
  pauses : list value
}.

Definition IO (A : Type) : Type := world -> result A * world.

Definition io_ret {A} (a : A) : IO A := fun w => (Ok a, w).

Definition io_raise {A} (e : exn) : IO A := fun w => (Raise e, w).

Definition io_bind {A B} (m : IO A) (k : A -> IO B) : IO B :=
  fun w =>
    match m w with
    | (Ok a, w') => k a w'
    | (Raise e, w') => (Raise e, w')
    end.

Declare Scope io_scope.
Delimit Scope io_scope with io.
Notation "x <~ m ;; k" := (io_bind m (fun x => k))
  (at level 100, m at next level, right associativity) : io_scope.

Definition add_request (w : world) (request : value * Z * Z) : world :=
  {| responses := responses w;
     requests := requests w ++ [request];
     pauses := pauses w |}.

Definition add_pause (w : world) (seconds : value) : world :=
  {| responses := responses w;
     requests := requests w;
     pauses := pauses w ++ [seconds] |}.

(** [requests.get(BASE_URL, params=..., ...)] followed by
    [raise_for_status()] and [json()]: the world tells how the pass ends. *)
Definition http_get (session_year : value) (offset limit : Z) : IO attempt :=
  fun w =>
    (Ok (responses w (length (requests w))),
     add_request w (session_year, offset, limit)).

(** [time.sleep(seconds)] *)
Definition sleep (seconds : value) : IO unit :=
  fun w => (Ok tt, add_pause w seconds).

Definition REQUEST_DELAY : float := 0.5%float.
Definition MAX_RETRIES : Z := 3.
Definition RECORDS_PER_PAGE : Z := 100.

(** [range(n)] *)
Definition py_range (n : Z) : list Z := map Z.of_nat (seq 0 (Z.to_nat n)).

(** [for attempt in attempts: try: ... except ...] of [fetch_page], and the
    [return None] after the loop. *)
Fixpoint fetch_attempts (attempts : list Z) (offset limit : Z)
    (session_year : value) : IO value :=
  match attempts with
  | [] => io_ret VNone
  | attempt :: rest =>
      (outcome <~ http_get session_year offset limit;;
       match outcome with
       | Answer body =>
           (_ <~ sleep (VFloat REQUEST_DELAY);; io_ret body)
       | Fails late why =>
           (_ <~ (if late then sleep (VFloat REQUEST_DELAY) else io_ret tt);;
            match why with
            | Timeout | RequestError =>
                if attempt <? MAX_RETRIES - 1
                then (_ <~ sleep (VInt (2 ^ attempt));;
                      fetch_attempts rest offset limit session_year)
                else io_ret VNone
            | Unexpected e => io_raise e
            end)
       end)%io
  end.

Definition fetch_page (offset limit : Z) (session_year : value) : IO value :=
  fetch_attempts (py_range MAX_RETRIES) offset limit session_year.

(** What the body of the [while] loop of [fetch_all_formations] does with
    a response: leave the loop, or go on with more records. *)
Inductive page : Type :=
| Break
| Extend (records : list value).

Definition read_page (response : value) : result page :=
  match response with
  | VNone => Ok Break
  | _ =>
      (response <-? as_dict response;
       let records := dict_get response "results" (VList []) in
       if truthy records
       then (records <-? py_iter records; Ok (Extend records))
       else Ok Break)%result
  end.

(** The [while True] loop for one year, from [offset] on. *)
Equations? fetch_year (year : value) (offset : Z) (all_formations : list value)
    (w : world) : result (list value) * world
    by wf (Z.to_nat (100100 - offset)) lt :=
  fetch_year year offset all_formations w
    with fetch_page offset RECORDS_PER_PAGE year w := {
    | (Raise e, w') => (Raise e, w')
    | (Ok response, w') with read_page response := {
      | Raise e => (Raise e, w')
      | Ok Break => (Ok all_formations, w')
      | Ok (Extend records) with Z_gt_dec (offset + RECORDS_PER_PAGE) 100000 := {
        | left _ => (Ok (all_formations ++ records)%list, w')
        | right _ =>
            fetch_year year (offset + RECORDS_PER_PAGE)
              (all_formations ++ records)%list w' } } }.
Proof. unfold RECORDS_PER_PAGE in *. lia. Qed.

(** [for year in session_years: offset = 0; while True: ...] *)
Fixpoint fetch_years (years : list value) (all_formations : list value)
  : IO (list value) :=
  match years with
  | [] => io_ret all_formations
  | year :: rest =>
      (all_formations <~ fetch_year year 0 all_formations;;
       fetch_years rest all_formations)%io
  end.

Definition fetch_all_formations (session_years : value) : IO (list value) :=
  (years <~ (fun w => (py_iter session_years, w));;
   fetch_years years [])%io.

(** ** A runtime for evaluating examples

    Truncated power series stand in for the C library: accurate near 0, which
    is where the arguments of the examples lie.  [round] and [repr] work to
    one and to four decimals. *)

Module Approx.

Definition sin (x : float) : float :=
  let x2 := (x * x)%float in
  (x * (1 - x2 / 6 * (1 - x2 / 20 * (1 - x2 / 42 * (1 - x2 / 72)))))%float.

Definition cos (x : float) : float :=
  let x2 := (x * x)%float in
  (1 - x2 / 2 * (1 - x2 / 12 * (1 - x2 / 30 * (1 - x2 / 56 * (1 - x2 / 90)))))%float.

Definition atan (t : float) : float :=
  let t2 := (t * t)%float in
  (t * (1 - t2 * (1 / 3 - t2 * (1 / 5 - t2 * (1 / 7 - t2 / 9)))))%float.

Definition sqrt (x : float) : result float :=
  if PrimFloat.ltb x 0%float then Raise ValueError else Ok (PrimFloat.sqrt x).

(** The integer nearest to [x * 10 ^ digits], for a finite [x]. *)
Definition scaled (digits : Z) (x : float) : Z :=
  match Prim2SF x with
  | S754_finite s m e =>
      let n := 10 ^ digits * Z.pos m in
      let q := if 0 <=? e then n * 2 ^ e else (n + 2 ^ (- e - 1)) / 2 ^ (- e) in
      if s then - q else q
  | _ => 0
  end.

Definition round (x : float) (ndigits : Z) : float :=
  match Prim2SF x, float_of_Z (scaled ndigits x), float_of_Z (10 ^ ndigits) with
  | S754_finite _ _ _, Ok q, Ok p => (q / p)%float
  | _, _, _ => x
  end.

Definition repr (x : float) : string :=
  let q := scaled 4 x in
  let frac := pretty (Z.abs q mod 10000 + 10000) in
  (if q <? 0 then "-" else "") ++ pretty (Z.abs q / 10000) ++ "."
    ++ String.substring 1 4 frac.

End Approx.

Definition test_runtime : Runtime := {|
  math_sin x := Ok (Approx.sin x);
  math_cos x := Ok (Approx.cos x);
  math_sqrt := Approx.sqrt;
  math_atan2 y x := Ok (Approx.atan (y / x)%float);
  float_pow x y := if PrimFloat.eqb y 2%float then Ok (x * x)%float else Raise ValueError;
  float_round := Approx.round;
  float_repr := Approx.repr;
  str_repr s := "'" ++ s ++ "'"
|}.

Example approx_paris_lyon :
  match calculate_distance (RT := test_runtime)
          (VFloat 48.8566%float) (VFloat 2.3522%float)
          (VFloat 45.7640%float) (VFloat 4.8357%float) with
  | Ok d => PrimFloat.ltb 387%float d && PrimFloat.ltb d 397%float
  | Raise _ => false
  end = true.
Proof. vm_compute. reflexivity. Qed.

(** * Properties *)

(** ** The error monad and comprehensions *)

Lemma rbind_Ok {A B} (m : result A) (k : A -> result B) (b : B) :
  rbind m k = Ok b <-> exists a, m = Ok a /\ k a = Ok b.
Proof.
  destruct m as [a|e]; simpl; split.
  - intros Hk. exists a. auto.
  - intros (a' & Ha & Hk). congruence.
  - discriminate.
  - intros (a' & Ha & _). discriminate.
Qed.

Ltac rbind_inv H :=
  let a := fresh "a" in
  let Ha := fresh "Ha" in
  apply rbind_Ok in H; destruct H as (a & Ha & H).

Global Instance exn_eq_dec : EqDecision exn.
Proof. solve_decision. Defined.

Global Instance result_eq_dec {A} `{EqDecision A} : EqDecision (result A).
Proof. solve_decision. Defined.

Lemma filterM_sublist {A} (p : A -> result bool) (l out : list A) :
  filterM p l = Ok out -> out `sublist_of` l.
Proof.
  revert out. induction l as [|x l IH]; simpl; intros out H.
  - inversion H. constructor.
  - rbind_inv H. rbind_inv H. inversion H; subst.
    destruct a; [apply sublist_skip|apply sublist_cons]; auto.
Qed.

Lemma filterM_decide {A} (P : A -> Prop) `{HP : !forall x, Decision (P x)}
    (p : A -> result bool) (l : list A) :
  (forall x, x ∈ l -> p x = Ok (bool_decide (P x))) ->
  filterM p l = Ok (filter P l).
Proof.
  induction l as [|x l IH]; intros Hp; simpl; [reflexivity|].
  rewrite Hp by left. simpl.
  rewrite IH by (intros y Hy; apply Hp; right; exact Hy). simpl.
  rewrite filter_cons. destruct (decide (P x)) as [Hx|Hx].
  - rewrite bool_decide_eq_true_2 by exact Hx. reflexivity.
  - rewrite bool_decide_eq_false_2 by exact Hx. reflexivity.
Qed.

Lemma filterM_inv {A} (P : A -> Prop) `{HP : !forall x, Decision (P x)}
    (p : A -> result bool) (l out : list A) :
  (forall x b, x ∈ l -> p x = Ok b -> b = bool_decide (P x)) ->
  filterM p l = Ok out -> out = filter P l.
Proof.
  revert out. induction l as [|x l IH]; simpl; intros out Hp Hf.
  - inversion Hf. reflexivity.
  - rbind_inv Hf. rbind_inv Hf. inversion Hf; subst.
    rewrite (Hp x a ltac:(left) Ha), filter_cons.
    rewrite <- (IH a0) by (try assumption; intros y b Hy; apply Hp; right; exact Hy).
    destruct (decide (P x)) as [Hx|Hx].
    + rewrite bool_decide_eq_true_2 by exact Hx. reflexivity.
    + rewrite bool_decide_eq_false_2 by exact Hx. reflexivity.
Qed.

Lemma mapM_total {A B} (f : A -> result B) (g : A -> B) (l : list A) :
  (forall x, x ∈ l -> f x = Ok (g x)) -> mapM f l = Ok (map g l).
Proof.
  induction l as [|x l IH]; intros Hf; simpl; [reflexivity|].
  rewrite Hf by left. simpl.
  rewrite IH by (intros y Hy; apply Hf; right; exact Hy). reflexivity.
Qed.

Section Properties.

Context {RT : Runtime}.

(** ** Identity *)

(** The identifier as a plain function: [get_unique_id] never raises. *)
Definition unique_id (formation : dict) : string :=
  match get_unique_id formation with
  | Ok id => id
  | Raise _ => ""
  end.

Lemma get_unique_id_total (formation : dict) :
  get_unique_id formation = Ok (unique_id formation).
Proof.
  unfold unique_id, get_unique_id, dict_contains, dict_getitem.
  destruct (dict_lookup formation "code_uai"); reflexivity.
Qed.

Lemma get_unique_id_inj_unique_id (f g : dict) :
  get_unique_id f = get_unique_id g <-> unique_id f = unique_id g.
Proof. rewrite !get_unique_id_total. split; congruence. Qed.

(** ** Snapshot difference *)

Lemma previous_ids_spec (previous : list dict) (f : dict) :
  unique_id f ∈ (list_to_set (map unique_id previous) : gset string) <->
  get_unique_id f ∈ get_unique_id <$> previous.
Proof.
  rewrite elem_of_list_to_set, !list_elem_of_fmap.
  split; intros (p & Hp & Hin); exists p; split; try assumption;
    apply get_unique_id_inj_unique_id in Hp || apply get_unique_id_inj_unique_id;
    assumption.
Qed.

Lemma detect_new_formations_filter (current previous : list dict) :
  previous <> [] ->
  detect_new_formations current previous =
    Ok (filter (fun f => get_unique_id f ∉ get_unique_id <$> previous) current).
Proof.
  intros Hne. unfold detect_new_formations.
  destruct previous as [|p0 previous]; [congruence|].
  rewrite (mapM_total get_unique_id unique_id)
    by (intros; apply get_unique_id_total).
  cbn [rbind].
  rewrite (filterM_decide
             (fun f => unique_id f ∉
                (list_to_set (map unique_id (p0 :: previous)) : gset string))).
  - f_equal. apply list_filter_iff. intros f.
    rewrite previous_ids_spec. reflexivity.
  - intros f _. rewrite get_unique_id_total. reflexivity.
Qed.

(** C8: with an empty previous snapshot the difference is empty, whatever
    the current snapshot holds, and the call returns normally (no
    exception).  The answer is not the current snapshot, which is what the
    comparison against an empty set of identifiers would have kept: the
    empty answer comes from the guard on [previous]. *)
Theorem detect_new_formations_first_run (current : list dict) :
  detect_new_formations current [] = Ok [] /\
  (forall f, detect_new_formations (f :: current) [] <> Ok (f :: current)) /\
  filter (fun f => get_unique_id f ∉ get_unique_id <$> []) current = current.
Proof.
  split; [reflexivity|]. split; [discriminate|].
  induction current as [|f current IH]; [reflexivity|].
  rewrite filter_cons_True by apply not_elem_of_nil.
  rewrite IH. reflexivity.
Qed.

(** C1: with a non-empty previous snapshot, the difference is the current
    snapshot filtered, in its order, by "the identifier is not the
    identifier of any previous record"; two current records that share an
    identifier no previous record has are both kept. *)
Theorem detect_new_formations_spec (current previous : list dict) :
  previous <> [] ->
  detect_new_formations current previous =
    Ok (filter (fun f => get_unique_id f ∉ get_unique_id <$> previous) current) /\
  (forall f g : dict,
      get_unique_id f = get_unique_id g ->
      get_unique_id f ∉ get_unique_id <$> previous ->
      detect_new_formations [f; g] previous = Ok [f; g]).
Proof.
  intros Hne. split; [apply detect_new_formations_filter; exact Hne|].
  intros f g Hfg Hf.
  rewrite detect_new_formations_filter by exact Hne.
  rewrite filter_cons_True by exact Hf.
  rewrite filter_cons_True by (rewrite <- Hfg; exact Hf).
  reflexivity.
Qed.

(** ** Identity: the two policies *)

(** C5: when the record has a [code_uai] entry the identifier is the
    prefixed text of that entry and nothing else of the record matters: two
    records with the same entry have the same identifier. *)
Theorem get_unique_id_code_only (f g : dict) (code : value) :
  dict_lookup f "code_uai" = Some code ->
  dict_lookup g "code_uai" = Some code ->
  get_unique_id f = get_unique_id g /\
  get_unique_id f = Ok ("uai_" ++ py_str code).
Proof.
  intros Hf Hg. unfold get_unique_id, dict_contains, dict_getitem.
  rewrite Hf, Hg. split; reflexivity.
Qed.

(** The text an entry contributes to the composite key. *)
Definition field_text (formation : dict) (k : string) : string :=
  match dict_lookup formation k with
  | Some v => py_str v
  | None => "unknown"
  end.

Definition composite_text (formation : dict) : string :=
  "composite_" ++ field_text formation "session"
    ++ "_" ++ field_text formation "libelle_formation"
    ++ "_" ++ field_text formation "libelle_etablissement"
    ++ "_" ++ field_text formation "ville".

(** What [.lower().replace(" ", "_")] does to one character. *)
Definition normalize_char (c : ascii) : ascii :=
  if Ascii.eqb c " " then "_"%char else lower_char c.

(** [str.isspace] on the Latin-1 range. *)
Definition is_whitespace (c : ascii) : bool :=
  let n := N_of_ascii c in
  ((9 <=? n) && (n <=? 13) || (28 <=? n) && (n <=? 32) || (n =? 133) || (n =? 160))%N.

(** The claim's reading of a normalized key: no whitespace is left in it. *)
Definition whitespace_normalized (s : string) : Prop :=
  forall c, In c (list_ascii_of_string s) -> is_whitespace c = false.

Lemma string_map_compose (f g : ascii -> ascii) (s : string) :
  string_map f (string_map g s) = string_map (fun c => f (g c)) s.
Proof. induction s as [|c s IH]; simpl; [reflexivity|]. rewrite IH. reflexivity. Qed.

Lemma string_map_ext (f g : ascii -> ascii) (s : string) :
  (forall c, f c = g c) -> string_map f s = string_map g s.
Proof.
  intros Hfg. induction s as [|c s IH]; simpl; [reflexivity|].
  rewrite Hfg, IH. reflexivity.
Qed.

Lemma string_map_In (f : ascii -> ascii) (s : string) (c : ascii) :
  In c (list_ascii_of_string (string_map f s)) ->
  exists c0, In c0 (list_ascii_of_string s) /\ c = f c0.
Proof.
  induction s as [|c1 s IH]; simpl; [tauto|].
  intros [<-|Hin].
  - exists c1. auto.
  - destruct (IH Hin) as (c0 & Hc0 & ->). exists c0. auto.
Qed.

Ltac each_ascii c :=
  destruct c as [[] [] [] [] [] [] [] []].

Lemma lower_then_replace (c : ascii) :
  (if Ascii.eqb (lower_char c) " " then "_"%char else lower_char c)
  = normalize_char c.
Proof. each_ascii c; reflexivity. Qed.

Lemma normalize_char_not_space (c : ascii) : normalize_char c <> " "%char.
Proof. each_ascii c; discriminate. Qed.

Lemma normalize_char_tab : normalize_char (ascii_of_N 9) = ascii_of_N 9.
Proof. reflexivity. Qed.

(** C6, as the code has it: a record without [code_uai] gets, without any
    exception, the composite of session, formation name, establishment name
    and city, an absent entry reading "unknown"; the text is lower-cased and
    each space character (U+0020) becomes an underscore, so that no space is
    left in the key.  Other whitespace is not touched. *)
Theorem get_unique_id_composite (formation : dict) :
  dict_contains formation "code_uai" = false ->
  get_unique_id formation
    = Ok (string_map normalize_char (composite_text formation)) /\
  (forall c, In c (list_ascii_of_string (unique_id formation)) -> c <> " "%char).
Proof.
  intros Hcode.
  assert (Hid : get_unique_id formation
                = Ok (string_map normalize_char (composite_text formation))).
  { unfold get_unique_id. rewrite Hcode.
    unfold str_replace_char, str_lower. rewrite string_map_compose.
    f_equal. unfold composite_text, field_text, dict_get.
    rewrite (string_map_ext _ normalize_char) by apply lower_then_replace.
    repeat match goal with
           | |- context [dict_lookup formation ?k] =>
               destruct (dict_lookup formation k)
           end; reflexivity. }
  split; [exact Hid|].
  intros c Hin. unfold unique_id in Hin. rewrite Hid in Hin.
  apply string_map_In in Hin. destruct Hin as (c0 & _ & ->).
  apply normalize_char_not_space.
Qed.

(** ** The notification decision *)

(** C4: the mail is sent exactly when some record passed the filters, or
    the [send_if_no_new] entry of the mail configuration (read as [True]
    when absent) is truthy, or the run is a first run; with no record and
    a falsy entry the decision is the first-run flag itself. *)
Theorem should_send_spec (filtered_new : list dict) (config ec : dict)
    (is_first_run : bool) :
  dict_get config "email" (VDict []) = VDict ec ->
  exists v,
    should_send filtered_new config is_first_run = Ok v /\
    (truthy v = true <->
       filtered_new <> [] \/
       truthy (dict_get ec "send_if_no_new" (VBool true)) = true \/
       is_first_run = true) /\
    (filtered_new = [] ->
     truthy (dict_get ec "send_if_no_new" (VBool true)) = false ->
     truthy v = is_first_run).
Proof.
  intros Hec. unfold should_send. rewrite Hec.
  destruct filtered_new as [|f fs]; simpl.
  - unfold py_or.
    destruct (truthy (dict_get ec "send_if_no_new" (VBool true))) eqn:Hflag.
    + eexists; split; [reflexivity|]. split; [|discriminate].
      rewrite Hflag. split; auto.
    + eexists; split; [reflexivity|]. simpl. split; [|reflexivity].
      split; [auto|]. intros [H|[H|H]]; congruence.
  - eexists; split; [reflexivity|]. simpl. split; [|discriminate].
    split; [left; discriminate|reflexivity].
Qed.

(** ** Dictionaries under assignment *)

Lemma dict_lookup_setitem_ne (d : dict) (k k' : string) (v : value) :
  k <> k' -> dict_lookup (dict_setitem d k v) k' = dict_lookup d k'.
Proof.
  intros Hne. induction d as [|[k0 v0] d IH]; simpl.
  - destruct (String.eqb_spec k k'); [contradiction|reflexivity].
  - destruct (String.eqb_spec k0 k) as [->|Hk0]; simpl.
    + destruct (String.eqb_spec k k'); [contradiction|reflexivity].
    + destruct (String.eqb_spec k0 k'); [reflexivity|exact IH].
Qed.

Lemma dict_lookup_setitem_eq (d : dict) (k : string) (v : value) :
  dict_lookup (dict_setitem d k v) k = Some v.
Proof.
  induction d as [|[k0 v0] d IH]; simpl.
  - rewrite String.eqb_refl. reflexivity.
  - destruct (String.eqb_spec k0 k) as [->|Hk0]; simpl.
    + rewrite String.eqb_refl. reflexivity.
    + destruct (String.eqb_spec k0 k); [contradiction|exact IH].
Qed.

Lemma dict_setitem_setitem (d : dict) (k : string) (v w : value) :
  dict_setitem (dict_setitem d k v) k w = dict_setitem d k w.
Proof.
  induction d as [|[k0 v0] d IH]; simpl.
  - rewrite String.eqb_refl. reflexivity.
  - destruct (String.eqb_spec k0 k) as [->|Hk0]; simpl.
    + rewrite String.eqb_refl. reflexivity.
    + destruct (String.eqb_spec k0 k); [contradiction|]. rewrite IH. reflexivity.
Qed.

Lemma dict_get_setitem_ne (d : dict) (k k' : string) (v default : value) :
  k <> k' -> dict_get (dict_setitem d k v) k' default = dict_get d k' default.
Proof. intros Hne. unfold dict_get. rewrite dict_lookup_setitem_ne by exact Hne. reflexivity. Qed.

(** The other entries keep their values and their order. *)
Lemma dict_setitem_others (d : dict) (k : string) (v : value) :
  filter (fun kv => fst kv <> k) (dict_setitem d k v)
  = filter (fun kv => fst kv <> k) d.
Proof.
  induction d as [|[k0 v0] d IH]; cbn [dict_setitem].
  - rewrite filter_cons_False by (simpl; tauto). reflexivity.
  - destruct (String.eqb_spec k0 k) as [->|Hk0].
    + rewrite !filter_cons_False by (simpl; tauto). reflexivity.
    + rewrite !filter_cons_True by (simpl; assumption). rewrite IH. reflexivity.
Qed.

(** ** The distance stage, record by record *)

(** [f.get("coordonnees") or f.get("coordinates") or {}] *)
Definition coords_field (f : dict) : value :=
  py_or (py_or (dict_get_none f "coordonnees") (dict_get_none f "coordinates"))
        (VDict []).

Definition resolved_lat (coords : dict) : value :=
  py_or (dict_get_none coords "lat") (dict_get_none coords "latitude").

Definition resolved_lon (coords : dict) : value :=
  py_or (dict_get_none coords "lon") (dict_get_none coords "longitude").

(** The coordinate pair the loop hands to [calculate_distance], if any. *)
Definition resolved_coordinates (f : dict) : option (value * value) :=
  match coords_field f with
  | VDict coords =>
      if truthy (resolved_lat coords) && truthy (resolved_lon coords)
      then Some (resolved_lat coords, resolved_lon coords)
      else None
  | _ => None
  end.

(** What the loop body decides for a record: the rounded distance to
    attach when the record is kept, nothing when it is dropped, or the
    exception of the distance computation or of the comparison. *)
Definition distance_verdict (home_lat home_lon max_distance : value) (f : dict)
  : result (option float) :=
  match resolved_coordinates f with
  | None => Ok None
  | Some (lat, lon) =>
      (distance <-? calculate_distance home_lat home_lon lat lon;
       within <-? float_le distance max_distance;
       Ok (if (within : bool) then Some (float_round distance 1) else None))%result
  end.

(** The record after the loop body has run on it. *)
Definition annotated (home_lat home_lon max_distance : value) (f : dict) : dict :=
  match distance_verdict home_lat home_lon max_distance f with
  | Ok (Some km) => dict_setitem f "_distance_km" (VFloat km)
  | _ => f
  end.

Lemma distance_key_ne (k : string) :
  In k ["coordonnees"; "coordinates"] -> "_distance_km" <> k.
Proof. simpl. intros [<-|[<-|[]]]; discriminate. Qed.

Lemma coords_field_setitem (f : dict) (v : value) :
  coords_field (dict_setitem f "_distance_km" v) = coords_field f.
Proof.
  unfold coords_field, dict_get_none.
  rewrite !dict_get_setitem_ne by discriminate. reflexivity.
Qed.

Lemma resolved_coordinates_setitem (f : dict) (v : value) :
  resolved_coordinates (dict_setitem f "_distance_km" v) = resolved_coordinates f.
Proof. unfold resolved_coordinates. rewrite coords_field_setitem. reflexivity. Qed.

Lemma distance_verdict_setitem (home_lat home_lon max_distance v : value) (f : dict) :
  distance_verdict home_lat home_lon max_distance (dict_setitem f "_distance_km" v)
  = distance_verdict home_lat home_lon max_distance f.
Proof. unfold distance_verdict. rewrite resolved_coordinates_setitem. reflexivity. Qed.

Lemma distance_verdict_annotated (home_lat home_lon max_distance : value) (f : dict) :
  distance_verdict home_lat home_lon max_distance
    (annotated home_lat home_lon max_distance f)
  = distance_verdict home_lat home_lon max_distance f.
Proof.
  unfold annotated.
  destruct (distance_verdict home_lat home_lon max_distance f) as [[km|]|e] eqn:Hv;
    try exact Hv.
  rewrite distance_verdict_setitem. exact Hv.
Qed.

Lemma annotated_idempotent (home_lat home_lon max_distance : value) (f : dict) :
  annotated home_lat home_lon max_distance
    (annotated home_lat home_lon max_distance f)
  = annotated home_lat home_lon max_distance f.
Proof.
  unfold annotated at 1. rewrite distance_verdict_annotated.
  unfold annotated.
  destruct (distance_verdict home_lat home_lon max_distance f) as [[km|]|e];
    try reflexivity.
  apply dict_setitem_setitem.
Qed.

Lemma unresolved_verdict (home_lat home_lon max_distance : value) (f : dict) :
  resolved_coordinates f = None ->
  distance_verdict home_lat home_lon max_distance f = Ok None.
Proof. intros Hnone. unfold distance_verdict. rewrite Hnone. reflexivity. Qed.

(** The loop body in terms of the verdict. *)
Lemma distance_step_verdict (home_lat home_lon max_distance : value) (f : ref)
    (st : store) :
  distance_step home_lat home_lon max_distance f st =
  match distance_verdict home_lat home_lon max_distance (st f) with
  | Ok (Some km) => (Ok true, <[f := dict_setitem (st f) "_distance_km" (VFloat km)]> st)
  | Ok None => (Ok false, st)
  | Raise e => (Raise e, st)
  end.
Proof.
  unfold distance_step, distance_verdict, resolved_coordinates.
  fold (coords_field (st f)).
  destruct (coords_field (st f)) as [| | | | | |coords]; try reflexivity.
  fold (resolved_lat coords). fold (resolved_lon coords).
  unfold py_and.
  destruct (truthy (resolved_lat coords)) eqn:Hlat; simpl.
  - destruct (truthy (resolved_lon coords)) eqn:Hlon; simpl; [|reflexivity].
    unfold mbind, lift.
    destruct (calculate_distance home_lat home_lon (resolved_lat coords)
                (resolved_lon coords)) as [d|e]; simpl; [|reflexivity].
    destruct (float_le d max_distance) as [[|]|e]; reflexivity.
  - rewrite Hlat. reflexivity.
Qed.

(** ** The distance loop *)

Section DistanceLoop.

Variables home_lat home_lon max_distance : value.

Let verdict := distance_verdict home_lat home_lon max_distance.
Let note := annotated home_lat home_lon max_distance.
Let step := distance_step home_lat home_lon max_distance.
Let loop := distance_loop home_lat home_lon max_distance.

(** A record is kept when its verdict carries a distance. *)
Definition is_kept (f : dict) : bool :=
  match distance_verdict home_lat home_lon max_distance f with
  | Ok (Some _) => true
  | _ => false
  end.

Lemma step_store (f : ref) (st : store) (r : ref) :
  snd (step f st) r = st r \/ snd (step f st) r = note (st r).
Proof.
  subst step note. rewrite distance_step_verdict. unfold annotated.
  destruct (distance_verdict home_lat home_lon max_distance (st f))
    as [[km|]|e] eqn:Hv; simpl; auto.
  destruct (decide (f = r)) as [<-|Hne].
  - right. rewrite fn_lookup_insert, Hv. reflexivity.
  - left. apply fn_lookup_insert_ne. exact Hne.
Qed.

Lemma step_verdict (f : ref) (st : store) (r : ref) :
  verdict (snd (step f st) r) = verdict (st r).
Proof.
  destruct (step_store f st r) as [->| ->]; [reflexivity|].
  apply distance_verdict_annotated.
Qed.

Lemma step_note (f : ref) (st : store) (r : ref) :
  note (snd (step f st) r) = note (st r).
Proof.
  destruct (step_store f st r) as [->| ->]; [reflexivity|].
  apply annotated_idempotent.
Qed.

Lemma loop_cons (f : ref) (fs : list ref) (st : store) :
  loop (f :: fs) st =
  match step f st with
  | (Ok b, st1) =>
      match loop fs st1 with
      | (Ok out, st2) => (Ok (if b then f :: out else out), st2)
      | (Raise e, st2) => (Raise e, st2)
      end
  | (Raise e, st1) => (Raise e, st1)
  end.
Proof.
  subst loop step. cbn [distance_loop]. unfold mbind, mret.
  destruct (distance_step home_lat home_lon max_distance f st) as [[b|e] st1];
    [|reflexivity].
  destruct (distance_loop home_lat home_lon max_distance fs st1) as [[out|e] st2];
    reflexivity.
Qed.

(** Whatever the outcome, each record is as before or annotated. *)
Lemma loop_store (fs : list ref) (st : store) (r : ref) :
  snd (loop fs st) r = st r \/ snd (loop fs st) r = note (st r).
Proof.
  revert st. induction fs as [|f fs IH]; intros st; [left; reflexivity|].
  rewrite loop_cons. pose proof (step_store f st r) as Hstep.
  destruct (step f st) as [[b|e] st1]; cbn [snd] in *; [|exact Hstep].
  specialize (IH st1).
  assert (Hgoal : snd (loop fs st1) r = st r \/ snd (loop fs st1) r = note (st r)).
  { destruct Hstep as [H1|H1], IH as [H2|H2]; rewrite H2, H1; auto.
    right. apply annotated_idempotent. }
  destruct (loop fs st1) as [[out|e] st2]; exact Hgoal.
Qed.

(** When the loop completes it has kept, in order, the records whose
    verdict carries a distance, and annotated exactly those. *)
Lemma loop_Ok (fs : list ref) (st st' : store) (out : list ref) :
  loop fs st = (Ok out, st') ->
  out = filter (fun f => is_kept (st f)) fs /\
  forall r, st' r = if decide (r ∈ out) then note (st r) else st r.
Proof.
  revert st st' out. induction fs as [|f fs IH]; intros st st' out.
  - subst loop. cbn. intros [= <- <-]. split; [reflexivity|].
    intros r. rewrite decide_False by apply not_elem_of_nil. reflexivity.
  - rewrite loop_cons.
    pose proof (fun r => step_verdict f st r) as Hverdict.
    pose proof (fun r => step_note f st r) as Hnote.
    pose proof (distance_step_verdict home_lat home_lon max_distance f st) as Hstep.
    fold (step f st) in Hstep.
    destruct (step f st) as [[b|e] st1]; cbn [snd] in *; [|discriminate].
    destruct (loop fs st1) as [[out1|e] st2] eqn:Hloop; [|discriminate].
    intros [= <- <-].
    destruct (IH _ _ _ Hloop) as [Hout Hst].
    assert (Hkept : forall r, is_kept (st1 r) = is_kept (st r)).
    { intros r. unfold is_kept. fold (verdict (st1 r)). fold (verdict (st r)).
      rewrite Hverdict. reflexivity. }
    assert (Hout' : out1 = filter (fun f => is_kept (st f)) fs).
    { rewrite Hout. apply list_filter_iff. intros r. rewrite Hkept. reflexivity. }
    destruct (distance_verdict home_lat home_lon max_distance (st f))
      as [[km|]|e] eqn:Hv; inversion Hstep; subst b st1; clear Hstep.
    + assert (Hf : is_kept (st f) = true) by (unfold is_kept; rewrite Hv; reflexivity).
      rewrite filter_cons_True by (rewrite Hf; exact I).
      split; [f_equal; exact Hout'|].
      intros r. rewrite Hst.
      destruct (decide (r = f)) as [->|Hne].
      * rewrite (decide_True (P := f ∈ f :: out1)) by left.
        rewrite Hnote, fn_lookup_insert.
        destruct (decide (f ∈ out1)); [reflexivity|].
        subst note. unfold annotated. rewrite Hv. reflexivity.
      * rewrite fn_lookup_insert_ne by congruence.
        destruct (decide (r ∈ out1)) as [Hin|Hin].
        -- rewrite decide_True by (right; exact Hin). reflexivity.
        -- rewrite decide_False; [reflexivity|].
           intros Hin'. apply elem_of_cons in Hin'. tauto.
    + assert (Hf : is_kept (st f) = false) by (unfold is_kept; rewrite Hv; reflexivity).
      rewrite filter_cons_False by (rewrite Hf; simpl; tauto).
      split; [exact Hout'|exact Hst].
Qed.

(** The loop completes when no record's verdict is an exception. *)
Lemma loop_total (fs : list ref) (st : store) :
  Forall (fun f => is_ok (verdict (st f)) = true) fs ->
  exists out st', loop fs st = (Ok out, st').
Proof.
  revert st. induction fs as [|f fs IH]; intros st Hall.
  - exists [], st. reflexivity.
  - inversion Hall as [|f' fs' Hf Hall']; subst f' fs'. clear Hall.
    rename Hall' into Hall. rewrite loop_cons.
    pose proof (fun r => step_verdict f st r) as Hverdict.
    pose proof (distance_step_verdict home_lat home_lon max_distance f st) as Hstep.
    fold (step f st) in Hstep.
    assert (Hrest : Forall (fun r => is_ok (verdict (snd (step f st) r)) = true) fs).
    { eapply List.Forall_impl; [|exact Hall]. intros r Hr. cbv beta in *.
      rewrite Hverdict. exact Hr. }
    subst verdict. cbv beta in *.
    destruct (distance_verdict home_lat home_lon max_distance (st f))
      as [[km|]|e] eqn:Hv; [| |discriminate]; rewrite Hstep in *; cbn [snd] in *;
      destruct (IH _ Hrest) as (out & st' & ->); eauto.
Qed.

End DistanceLoop.

(** ** The distance stage *)

Lemma truthy_getitem (d : dict) (k : string) :
  truthy (dict_get_none d k) = true -> dict_getitem d k = Ok (dict_get_none d k).
Proof.
  unfold dict_get_none, dict_get, dict_getitem.
  destruct (dict_lookup d k); [reflexivity|discriminate].
Qed.

Lemma distance_condition_spec (filters hc : dict) :
  dict_get filters "home_coordinates" (VDict []) = VDict hc ->
  exists c,
    distance_condition filters = Ok c /\
    truthy c = truthy (dict_get_none filters "max_distance_km")
               && truthy (dict_get_none hc "lat")
               && truthy (dict_get_none hc "lon").
Proof.
  intros Hhc. unfold distance_condition. rewrite Hhc.
  destruct (truthy (dict_get_none filters "max_distance_km")) eqn:Hmax.
  - eexists. split; [reflexivity|]. unfold py_and. simpl.
    destruct (truthy (dict_get_none hc "lat")) eqn:Hlat; [reflexivity|exact Hlat].
  - eexists. split; [reflexivity|]. exact Hmax.
Qed.

(** A falsy maximum switches the stage off before the home coordinates
    are looked at. *)
Lemma distance_filter_no_max (filters : dict) (fs : list ref) (st : store) :
  truthy (dict_get_none filters "max_distance_km") = false ->
  distance_filter filters fs st = (Ok fs, st).
Proof.
  intros Hmax. unfold distance_filter, distance_condition, mbind, lift.
  rewrite Hmax. cbn. rewrite Hmax. reflexivity.
Qed.

Lemma distance_filter_inactive (filters hc : dict) (fs : list ref) (st : store) :
  dict_get filters "home_coordinates" (VDict []) = VDict hc ->
  truthy (dict_get_none filters "max_distance_km")
    && truthy (dict_get_none hc "lat") && truthy (dict_get_none hc "lon") = false ->
  distance_filter filters fs st = (Ok fs, st).
Proof.
  intros Hhc Hoff. destruct (distance_condition_spec filters hc Hhc) as (c & Hc & Ht).
  unfold distance_filter, mbind, lift. rewrite Hc, Ht, Hoff. reflexivity.
Qed.

Lemma distance_filter_active (filters hc : dict) (fs : list ref) (st : store) :
  dict_get filters "home_coordinates" (VDict []) = VDict hc ->
  truthy (dict_get_none filters "max_distance_km")
    && truthy (dict_get_none hc "lat") && truthy (dict_get_none hc "lon") = true ->
  distance_filter filters fs st =
  distance_loop (dict_get_none hc "lat") (dict_get_none hc "lon")
    (dict_get_none filters "max_distance_km") fs st.
Proof.
  intros Hhc Hon. destruct (distance_condition_spec filters hc Hhc) as (c & Hc & Ht).
  apply andb_prop in Hon as [Hon Hlon]. apply andb_prop in Hon as [Hmax Hlat].
  unfold distance_filter, mbind, lift. rewrite Hc, Ht, Hmax, Hlat, Hlon, Hhc.
  cbn. rewrite (truthy_getitem hc "lat" Hlat), (truthy_getitem hc "lon" Hlon).
  reflexivity.
Qed.

(** In every outcome the stage leaves a record as it was or annotates it:
    it can only write the entry [_distance_km]. *)
Lemma distance_filter_store (filters : dict) (fs : list ref) (st : store) (r : ref) :
  snd (distance_filter filters fs st) r = st r \/
  exists km, snd (distance_filter filters fs st) r
             = dict_setitem (st r) "_distance_km" (VFloat km).
Proof.
  unfold distance_filter, mbind, lift.
  destruct (distance_condition filters) as [c|e]; [|left; reflexivity].
  destruct (truthy c); [|left; reflexivity].
  destruct (as_dict _) as [hc|e]; [|left; reflexivity].
  destruct (dict_getitem hc "lat") as [home_lat|e]; [|left; reflexivity].
  destruct (dict_getitem hc "lon") as [home_lon|e]; [|left; reflexivity].
  destruct (loop_store home_lat home_lon (dict_get_none filters "max_distance_km")
              fs st r) as [H|H]; [left; exact H|].
  rewrite H. unfold annotated.
  destruct (distance_verdict _ _ _ (st r)) as [[km|]|e]; eauto.
Qed.

Lemma distance_filter_sublist (filters : dict) (fs out : list ref) (st st' : store) :
  distance_filter filters fs st = (Ok out, st') -> out `sublist_of` fs.
Proof.
  unfold distance_filter, mbind, lift.
  destruct (distance_condition filters) as [c|e]; [|discriminate].
  destruct (truthy c); [|intros [= <- <-]; reflexivity].
  destruct (as_dict _) as [hc|e]; [|discriminate].
  destruct (dict_getitem hc "lat") as [home_lat|e]; [|discriminate].
  destruct (dict_getitem hc "lon") as [home_lon|e]; [|discriminate].
  intros Hloop. apply loop_Ok in Hloop as [-> _]. apply sublist_filter.
Qed.

(** C2, as the code has it.  With a mapping for the home coordinates, the
    stage is active exactly when the maximum distance and both home
    components are truthy.  Inactive, it returns its input and writes
    nothing.  Active, it resolves each record's pair as [lat]/[latitude] and
    [lon]/[longitude] under [coordonnees] or [coordinates]; a record with no
    resolved pair is dropped; a record with a resolved pair is kept, with
    the distance rounded to one decimal attached, exactly when the distance
    computation succeeds on the pair and the distance is at most the
    maximum; the records that are not kept are left as they were.  The
    stage returns whenever no record makes the distance computation or the
    comparison raise (truthy coordinates that are not numbers do). *)
Theorem distance_filter_spec (filters hc : dict) (fs : list ref) (st : store) :
  dict_get filters "home_coordinates" (VDict []) = VDict hc ->
  let max_distance := dict_get_none filters "max_distance_km" in
  let home_lat := dict_get_none hc "lat" in
  let home_lon := dict_get_none hc "lon" in
  let active := truthy max_distance && truthy home_lat && truthy home_lon in
  let verdict := distance_verdict home_lat home_lon max_distance in
  (exists c, distance_condition filters = Ok c /\ truthy c = active) /\
  (active = false -> distance_filter filters fs st = (Ok fs, st)) /\
  (active = true ->
   (forall f, resolved_coordinates (st f) = None -> verdict (st f) = Ok None) /\
   (forall f lat lon km,
       resolved_coordinates (st f) = Some (lat, lon) ->
       verdict (st f) = Ok (Some km) <->
       exists d, calculate_distance home_lat home_lon lat lon = Ok d /\
                 float_le d max_distance = Ok true /\
                 km = float_round d 1) /\
   (forall out st',
       distance_filter filters fs st = (Ok out, st') ->
       out = filter (fun f => is_kept home_lat home_lon max_distance (st f)) fs /\
       (forall f, f ∈ out <-> f ∈ fs /\ exists km, verdict (st f) = Ok (Some km)) /\
       (forall f km, f ∈ out -> verdict (st f) = Ok (Some km) ->
                     st' f = dict_setitem (st f) "_distance_km" (VFloat km)) /\
       (forall f, f ∉ out -> st' f = st f)) /\
   (Forall (fun f => is_ok (verdict (st f)) = true) fs ->
    exists out st', distance_filter filters fs st = (Ok out, st'))).
Proof.
  intros Hhc max_distance home_lat home_lon active verdict.
  split; [exact (distance_condition_spec filters hc Hhc)|].
  split; [exact (distance_filter_inactive filters hc fs st Hhc)|].
  intros Hon. rewrite (distance_filter_active filters hc fs st Hhc Hon).
  fold max_distance home_lat home_lon.
  split; [|split; [|split]].
  - intros f Hnone. apply unresolved_verdict. exact Hnone.
  - intros f lat lon km Hsome. subst verdict. unfold distance_verdict.
    rewrite Hsome. split.
    + intros H. rbind_inv H. rbind_inv H. exists a.
      destruct a0; inversion H. auto.
    + intros (d & -> & Hle & ->). cbn. rewrite Hle. reflexivity.
  - intros out st' Hloop. apply loop_Ok in Hloop as [Hout Hst].
    split; [exact Hout|split; [|split]].
    + intros f. rewrite Hout, list_elem_of_filter. unfold is_kept.
      fold (verdict (st f)).
      destruct (verdict (st f)) as [[km|]|e]; simpl.
      * split; [intros [? ?]; eauto|tauto].
      * split; [tauto|]. intros [_ [km [=]]].
      * split; [tauto|]. intros [_ [km [=]]].
    + intros f km Hin Hv. rewrite Hst, decide_True by exact Hin.
      unfold annotated. fold (verdict (st f)). rewrite Hv. reflexivity.
    + intros f Hin. rewrite Hst, decide_False by exact Hin. reflexivity.
  - apply loop_total.
Qed.

(** ** Coordinates equal to zero *)

(** [v == 0] *)
Definition equals_zero (v : value) : bool := py_eq v (VInt 0).

Lemma float_eq_Z_zero (x : float) :
  float_eq_Z x 0 = true -> PrimFloat.eqb x 0 = true.
Proof.
  unfold float_eq_Z, float_le_Z. rewrite FloatAxioms.opp_spec, FloatAxioms.eqb_spec.
  change (Prim2SF 0) with (S754_zero false).
  destruct (Prim2SF x) as [s|s| |s m e]; cbn [SFopp].
  - intros _. destruct s; reflexivity.
  - destruct s; discriminate.
  - discriminate.
  - intros H. exfalso. apply andb_prop in H as [H1 H2].
    destruct (0 <=? e) eqn:He.
    + apply Z.leb_le in He, H1, H2.
      pose proof (Z.pow_pos_nonneg 2 e ltac:(lia) He) as Hpow.
      destruct s; cbn [negb] in *; nia.
    + apply Z.leb_le in H1, H2. destruct s; cbn [negb] in *; lia.
Qed.

(** A value equal to zero is falsy. *)
Lemma equals_zero_falsy (v : value) : equals_zero v = true -> truthy v = false.
Proof.
  unfold equals_zero. destruct v as [|b|z|x|s|l|d]; simpl; try discriminate.
  - destruct b; [discriminate|reflexivity].
  - intros ->. reflexivity.
  - intros H. rewrite (float_eq_Z_zero x H). reflexivity.
Qed.

Lemma absent_entry_falsy (f : dict) (k : string) :
  dict_lookup f k = None -> truthy (dict_get_none f k) = false.
Proof. unfold dict_get_none, dict_get. intros ->. reflexivity. Qed.

(** A component of the pair is zero: one of its two entries equals zero
    and the other gives no truthy value either. *)
Definition reads_zero (coords : dict) (k1 k2 : string) : Prop :=
  (equals_zero (dict_get_none coords k1) = true /\
   truthy (dict_get_none coords k2) = false) \/
  (truthy (dict_get_none coords k1) = false /\
   equals_zero (dict_get_none coords k2) = true).

Lemma reads_zero_falsy (coords : dict) (k1 k2 : string) :
  reads_zero coords k1 k2 ->
  truthy (py_or (dict_get_none coords k1) (dict_get_none coords k2)) = false.
Proof.
  unfold py_or. intros [[H1 H2]|[H1 H2]].
  - rewrite (equals_zero_falsy _ H1). exact H2.
  - rewrite H1. apply equals_zero_falsy. exact H2.
Qed.

(** The records C10 speaks of: neither coordinate entry yields anything (an
    absent entry reads as [None]), or what the lookup yields is not a
    mapping, or the latitude or the longitude is zero. *)
Definition without_usable_coordinates (f : dict) : Prop :=
  (truthy (dict_get_none f "coordonnees") = false /\
   truthy (dict_get_none f "coordinates") = false) \/
  (forall coords, coords_field f <> VDict coords) \/
  (exists coords,
      coords_field f = VDict coords /\
      (reads_zero coords "lat" "latitude" \/
       reads_zero coords "lon" "longitude")).

Lemma without_usable_coordinates_unresolved (f : dict) :
  without_usable_coordinates f -> resolved_coordinates f = None.
Proof.
  unfold resolved_coordinates.
  intros [[H1 H2]|[H|(coords & Hc & Hz)]].
  - unfold coords_field, py_or. rewrite H1, H2. reflexivity.
  - destruct (coords_field f) as [| | | | | |coords]; try reflexivity.
    destruct (H coords); reflexivity.
  - rewrite Hc. unfold resolved_lat, resolved_lon.
    destruct Hz as [Hz|Hz]; apply reads_zero_falsy in Hz; rewrite Hz.
    + reflexivity.
    + rewrite andb_false_r. reflexivity.
Qed.

(** C10: with the stage active, a record whose coordinate entry is absent
    or not a mapping, or whose resolved latitude or longitude equals zero,
    has no resolved pair (a zero is falsy); it is in no result of the
    stage, the stage never writes to it, and on its own it is dropped
    without any exception. *)
Theorem zero_coordinates_dropped (filters hc : dict) (fs : list ref) (st : store)
    (f : ref) :
  dict_get filters "home_coordinates" (VDict []) = VDict hc ->
  truthy (dict_get_none filters "max_distance_km")
    && truthy (dict_get_none hc "lat") && truthy (dict_get_none hc "lon") = true ->
  without_usable_coordinates (st f) ->
  resolved_coordinates (st f) = None /\
  (forall out st', distance_filter filters fs st = (Ok out, st') -> f ∉ out) /\
  snd (distance_filter filters fs st) f = st f /\
  distance_filter filters [f] st = (Ok [], st).
Proof.
  intros Hhc Hon Hf.
  pose proof (without_usable_coordinates_unresolved _ Hf) as Hnone.
  pose proof (unresolved_verdict (dict_get_none hc "lat") (dict_get_none hc "lon")
                (dict_get_none filters "max_distance_km") _ Hnone) as Hv.
  split; [exact Hnone|]. split; [|split].
  - intros out st'. rewrite (distance_filter_active filters hc fs st Hhc Hon).
    intros Hrun. apply loop_Ok in Hrun as [-> _].
    rewrite list_elem_of_filter. unfold is_kept. rewrite Hv.
    intros [Hkept _]. exact Hkept.
  - rewrite (distance_filter_active filters hc fs st Hhc Hon).
    destruct (loop_store (dict_get_none hc "lat") (dict_get_none hc "lon")
                (dict_get_none filters "max_distance_km") fs st f) as [H|H];
      [exact H|].
    rewrite H. unfold annotated. rewrite Hv. reflexivity.
  - rewrite (distance_filter_active filters hc [f] st Hhc Hon).
    cbn [distance_loop]. unfold mbind, mret.
    rewrite distance_step_verdict, Hv. reflexivity.
Qed.

(** ** The five reading stages *)

(** A stage never adds or reorders records. *)
Definition narrowing (stage : store -> list ref -> result (list ref)) : Prop :=
  forall st fs out,
    stage st fs = Ok out -> out `sublist_of` fs /\ (length out <= length fs)%nat.

(** A stage whose parameter is falsy (absent, [None], an empty list, ...)
    hands its input on. *)
Definition inactive_when_falsy (key : string)
    (stage : dict -> store -> list ref -> result (list ref)) : Prop :=
  forall filters st fs,
    truthy (dict_get_none filters key) = false -> stage filters st fs = Ok fs.

Lemma sublist_narrow (out fs : list ref) :
  out `sublist_of` fs -> out `sublist_of` fs /\ (length out <= length fs)%nat.
Proof. intros H. split; [exact H|]. apply sublist_length. exact H. Qed.

Ltac stage_narrowing :=
  intros st fs out H;
  match type of H with
  | (if ?c then _ else _) = _ => destruct c
  end;
  [ repeat rbind_inv H; apply sublist_narrow; eapply filterM_sublist; exact H
  | inversion H; subst; apply sublist_narrow; reflexivity ].

Lemma departement_filter_narrowing (filters : dict) :
  narrowing (departement_filter filters).
Proof. unfold departement_filter. stage_narrowing. Qed.

Lemma type_filter_narrowing (filters : dict) : narrowing (type_filter filters).
Proof. unfold type_filter. stage_narrowing. Qed.

Lemma statut_filter_narrowing (filters : dict) : narrowing (statut_filter filters).
Proof. unfold statut_filter. stage_narrowing. Qed.

Lemma include_filter_narrowing (filters : dict) : narrowing (include_filter filters).
Proof. unfold include_filter. stage_narrowing. Qed.

Lemma exclude_filter_narrowing (filters : dict) : narrowing (exclude_filter filters).
Proof. unfold exclude_filter. stage_narrowing. Qed.

Ltac stage_inactive := intros Hoff; rewrite Hoff; reflexivity.

Lemma departement_filter_inactive : inactive_when_falsy "departements" departement_filter.
Proof. intros filters st fs. unfold departement_filter. stage_inactive. Qed.

Lemma type_filter_inactive : inactive_when_falsy "types_formation" type_filter.
Proof. intros filters st fs. unfold type_filter. stage_inactive. Qed.

Lemma statut_filter_inactive : inactive_when_falsy "statut" statut_filter.
Proof. intros filters st fs. unfold statut_filter. stage_inactive. Qed.

Lemma include_filter_inactive : inactive_when_falsy "keywords_include" include_filter.
Proof. intros filters st fs. unfold include_filter. stage_inactive. Qed.

Lemma exclude_filter_inactive : inactive_when_falsy "keywords_exclude" exclude_filter.
Proof. intros filters st fs. unfold exclude_filter. stage_inactive. Qed.

(** The five reading stages in sequence. *)
Definition reading_stages (filters : dict) (st : store) (formations : list ref)
  : result (list ref) :=
  (f1 <-? departement_filter filters st formations;
   f2 <-? type_filter filters st f1;
   f3 <-? statut_filter filters st f2;
   f4 <-? include_filter filters st f3;
   exclude_filter filters st f4)%result.

Lemma apply_filters_stages (formations : list ref) (config : dict) (st : store) :
  formations <> [] ->
  apply_filters formations config st =
  match as_dict (dict_get config "filters" (VDict [])) with
  | Raise e => (Raise e, st)
  | Ok filters =>
      match reading_stages filters st formations with
      | Raise e => (Raise e, st)
      | Ok filtered => distance_filter filters filtered st
      end
  end.
Proof.
  intros Hne. unfold apply_filters, reading_stages.
  destruct formations as [|f fs]; [congruence|].
  unfold mbind, lift, reading.
  destruct (as_dict _) as [filters|e]; [|reflexivity].
  destruct (departement_filter filters st (f :: fs)) as [f1|e]; [|reflexivity].
  cbn [rbind].
  destruct (type_filter filters st f1) as [f2|e]; [|reflexivity]. cbn [rbind].
  destruct (statut_filter filters st f2) as [f3|e]; [|reflexivity]. cbn [rbind].
  destruct (include_filter filters st f3) as [f4|e]; [|reflexivity]. cbn [rbind].
  destruct (exclude_filter filters st f4) as [f5|e]; reflexivity.
Qed.

Lemma reading_stages_narrowing (filters : dict) :
  narrowing (reading_stages filters).
Proof.
  intros st fs out H. unfold reading_stages in H. repeat rbind_inv H.
  apply departement_filter_narrowing in Ha as [Ha _].
  apply type_filter_narrowing in Ha0 as [Ha0 _].
  apply statut_filter_narrowing in Ha1 as [Ha1 _].
  apply include_filter_narrowing in Ha2 as [Ha2 _].
  apply exclude_filter_narrowing in H as [H _].
  apply sublist_narrow.
  repeat (etransitivity; [eassumption|]). reflexivity.
Qed.

Lemma apply_filters_sublist (formations out : list ref) (config : dict)
    (st st' : store) :
  apply_filters formations config st = (Ok out, st') ->
  out `sublist_of` formations.
Proof.
  destruct formations as [|f fs].
  - cbn. intros [= <- <-]. reflexivity.
  - rewrite apply_filters_stages by discriminate.
    destruct (as_dict _) as [filters|e]; [|discriminate].
    destruct (reading_stages filters st (f :: fs)) as [filtered|e] eqn:Hread;
      [|discriminate].
    intros Hdist. apply distance_filter_sublist in Hdist.
    apply reading_stages_narrowing in Hread as [Hread _].
    etransitivity; eassumption.
Qed.

(** In every outcome [apply_filters] leaves a record as it was or with the
    entry [_distance_km] assigned. *)
Lemma apply_filters_store (formations : list ref) (config : dict) (st : store)
    (r : ref) :
  snd (apply_filters formations config st) r = st r \/
  exists km, snd (apply_filters formations config st) r
             = dict_setitem (st r) "_distance_km" (VFloat km).
Proof.
  destruct formations as [|f fs]; [left; reflexivity|].
  rewrite apply_filters_stages by discriminate.
  destruct (as_dict _) as [filters|e]; [|left; reflexivity].
  destruct (reading_stages filters st (f :: fs)) as [filtered|e];
    [|left; reflexivity].
  apply distance_filter_store.
Qed.

Lemma bool_decide_bool (b : bool) : bool_decide (Is_true b) = b.
Proof. destruct b; reflexivity. Qed.

Lemma filterM_inv_bool {A} (q : A -> bool) (p : A -> result bool) (l out : list A) :
  (forall x b, x ∈ l -> p x = Ok b -> b = q x) ->
  filterM p l = Ok out -> out = filter (fun x => q x) l.
Proof.
  intros Hp. apply filterM_inv. intros x b Hx Hb.
  rewrite bool_decide_bool. eapply Hp; eassumption.
Qed.

Lemma filterM_bool {A} (q : A -> bool) (p : A -> result bool) (l : list A) :
  (forall x, x ∈ l -> p x = Ok (q x)) ->
  filterM p l = Ok (filter (fun x => q x) l).
Proof.
  intros Hp. apply filterM_decide. intros x Hx.
  rewrite bool_decide_bool. apply Hp. exact Hx.
Qed.

(** ** The department stage *)

(** [x in depts] on hashable values *)
Definition member (depts : list value) (x : value) : bool :=
  existsb (py_eq x) depts.

(** The stage's condition: the value under [departement] is in the set or,
    failing that, the value under [code_departement] is. *)
Definition in_departements (depts : list value) (f : dict) : bool :=
  member depts (dict_get_none f "departement")
  || member depts (dict_get_none f "code_departement").

(** The entries the condition hashes: the first always, the second only
    when the first is not in the set. *)
Definition departement_readable (depts : list value) (f : dict) : Prop :=
  hashable (dict_get_none f "departement") = true /\
  (member depts (dict_get_none f "departement") = true \/
   hashable (dict_get_none f "code_departement") = true).

Lemma departement_condition_inv (depts : list value) (f : dict) (b : bool) :
  (b1 <-? set_contains depts (dict_get_none f "departement");
   if b1 then Ok true
   else set_contains depts (dict_get_none f "code_departement"))%result = Ok b ->
  b = in_departements depts f.
Proof.
  unfold in_departements, set_contains, member. intros H. rbind_inv H.
  destruct (hashable (dict_get_none f "departement")); [|discriminate].
  inversion Ha; subst a. clear Ha.
  destruct (existsb _ depts); cbn [orb]; [congruence|].
  destruct (hashable (dict_get_none f "code_departement")); [|discriminate].
  congruence.
Qed.

Lemma departement_condition_total (depts : list value) (f : dict) :
  departement_readable depts f ->
  (b1 <-? set_contains depts (dict_get_none f "departement");
   if b1 then Ok true
   else set_contains depts (dict_get_none f "code_departement"))%result
  = Ok (in_departements depts f).
Proof.
  unfold departement_readable, in_departements, set_contains, member.
  intros [-> H]. cbn [rbind].
  destruct (existsb _ depts) eqn:Hin; [reflexivity|].
  destruct H as [H| ->]; [discriminate|reflexivity].
Qed.

(** The department code as the specification words it: read under two
    entry names, the first one present giving the code. *)
Definition first_department_code (f : dict) : value :=
  match dict_lookup f "departement" with
  | Some code => code
  | None => dict_get_none f "code_departement"
  end.

(** When a record has one of the two entries only, the code's condition is
    the membership of that department code. *)
Lemma in_departements_single_entry (depts : list value) (f : dict) :
  member depts VNone = false ->
  dict_lookup f "departement" = None \/ dict_lookup f "code_departement" = None ->
  in_departements depts f = member depts (first_department_code f).
Proof.
  intros Hnone. unfold in_departements, first_department_code, dict_get_none, dict_get.
  intros [-> | ->].
  - rewrite Hnone. reflexivity.
  - destruct (dict_lookup f "departement"); rewrite Hnone;
      [apply orb_false_r|reflexivity].
Qed.

(** C7, as the code has it: with a falsy [departements] parameter the stage
    returns its input.  With a non-empty list of (hashable) codes, whenever
    the stage returns it has kept exactly the records whose [departement]
    value or whose [code_departement] value is in the set (an absent entry
    reads as [None]), in their order; and it does return when the entries it
    hashes are hashable.  The entries are tested in that order: when the
    first is in the set the second is not looked at, when it is not the
    second can still admit the record. *)
Theorem departement_filter_spec :
  inactive_when_falsy "departements" departement_filter /\
  forall (filters : dict) (depts : list value) (st : store) (fs : list ref),
    dict_lookup filters "departements" = Some (VList depts) ->
    depts <> [] ->
    forallb hashable depts = true ->
    (forall out, departement_filter filters st fs = Ok out ->
                 out = filter (fun f => in_departements depts (st f)) fs) /\
    (Forall (fun f => departement_readable depts (st f)) fs ->
     departement_filter filters st fs
     = Ok (filter (fun f => in_departements depts (st f)) fs)).
Proof.
  split; [exact departement_filter_inactive|].
  intros filters depts st fs Hcfg Hne Hhash.
  unfold departement_filter, dict_get_none, dict_get, dict_getitem, py_set.
  rewrite Hcfg. destruct depts as [|d0 depts]; [congruence|].
  cbn [truthy py_iter rbind]. rewrite Hhash. cbn [rbind].
  split.
  - intros out. apply filterM_inv_bool.
    intros f b _. apply departement_condition_inv.
  - intros Hall. apply filterM_bool. intros f Hf.
    apply departement_condition_total.
    rewrite List.Forall_forall in Hall. apply Hall.
    apply list_elem_of_In. exact Hf.
Qed.

(** ** Well-typed input

    The stages read a few entries and call string methods on them.  On a
    configuration whose parameters are lists of strings and on records
    whose entries have the types the catalogue gives them, no stage
    raises. *)

(** The entry is absent or a string. *)
Definition text_entry (f : dict) (k : string) : Prop :=
  exists s, dict_get f k (VStr "") = VStr s.

Definition well_typed_record (f : dict) : Prop :=
  hashable (dict_get_none f "departement") = true /\
  hashable (dict_get_none f "code_departement") = true /\
  text_entry f "type_formation" /\
  text_entry f "filiere" /\
  text_entry f "statut_etablissement".

(** The parameter is falsy or a list of strings. *)
Definition string_list_entry (filters : dict) (k : string) : Prop :=
  truthy (dict_get_none filters k) = false \/
  exists l, dict_lookup filters k = Some (VList (map VStr l)).

Definition well_typed_filters (filters : dict) : Prop :=
  string_list_entry filters "departements" /\
  string_list_entry filters "types_formation" /\
  string_list_entry filters "statut" /\
  string_list_entry filters "keywords_include" /\
  string_list_entry filters "keywords_exclude".

Lemma filterM_returns {A} (p : A -> result bool) (l : list A) :
  (forall x, x ∈ l -> exists b, p x = Ok b) -> exists out, filterM p l = Ok out.
Proof.
  induction l as [|x l IH]; intros Hp; [exists []; reflexivity|].
  destruct (Hp x ltac:(left)) as [b Hb].
  destruct IH as [out Hout]; [intros y Hy; apply Hp; right; exact Hy|].
  cbn [filterM]. rewrite Hb. cbn [rbind]. rewrite Hout. cbn [rbind]. eauto.
Qed.

Lemma py_any_returns {A} (p : A -> result bool) (l : list A) :
  (forall x, exists b, p x = Ok b) -> exists b, py_any p l = Ok b.
Proof.
  intros Hp. induction l as [|x l IH]; [exists false; reflexivity|].
  destruct (Hp x) as [b Hb]. cbn [py_any]. rewrite Hb. cbn [rbind].
  destruct b; [exists true; reflexivity|exact IH].
Qed.

Lemma lowered_strings (l : list string) :
  lowered (VList (map VStr l)) = Ok (map str_lower l).
Proof.
  unfold lowered. cbn [py_iter rbind].
  induction l as [|s l IH]; [reflexivity|].
  cbn [map mapM lower_of rbind]. rewrite IH. reflexivity.
Qed.

Lemma hashable_strings (l : list string) : forallb hashable (map VStr l) = true.
Proof. induction l as [|s l IH]; [reflexivity|exact IH]. Qed.

Lemma sublist_Forall {A} (P : A -> Prop) (l k : list A) :
  l `sublist_of` k -> Forall P k -> Forall P l.
Proof.
  intros Hsub Hall. rewrite List.Forall_forall in *. intros x Hx.
  apply Hall. apply list_elem_of_In. eapply sublist_subseteq; [exact Hsub|].
  apply list_elem_of_In. exact Hx.
Qed.

Lemma lookup_get_none (d : dict) (k : string) (v : value) :
  dict_lookup d k = Some v -> dict_get_none d k = v.
Proof. unfold dict_get_none, dict_get. intros ->. reflexivity. Qed.

Lemma lookup_getitem (d : dict) (k : string) (v : value) :
  dict_lookup d k = Some v -> dict_getitem d k = Ok v.
Proof. unfold dict_getitem. intros ->. reflexivity. Qed.

Section WellTyped.

Variables (filters : dict) (st : store).
Hypothesis Hfilters : well_typed_filters filters.

Ltac active_parameter H key l :=
  destruct H as [H|[l H]];
  [ rewrite H; eauto
  | rewrite (lookup_get_none _ _ _ H), (lookup_getitem _ _ _ H);
    destruct (truthy (VList (map VStr l))); [|eauto];
    cbn [rbind] ].

Lemma departement_filter_returns (fs : list ref) :
  Forall (fun f => well_typed_record (st f)) fs ->
  exists out, departement_filter filters st fs = Ok out.
Proof.
  intros Hall. destruct Hfilters as (H & _). unfold departement_filter.
  active_parameter H "departements" l.
  unfold py_set. cbn [py_iter rbind]. rewrite hashable_strings. cbn [rbind].
  apply filterM_returns. intros f Hf.
  rewrite List.Forall_forall in Hall.
  destruct (Hall f ltac:(apply list_elem_of_In; exact Hf)) as (H1 & H2 & _).
  unfold set_contains. rewrite H1, H2. cbn [rbind].
  destruct (existsb _ _); eauto.
Qed.

Lemma type_filter_returns (fs : list ref) :
  Forall (fun f => well_typed_record (st f)) fs ->
  exists out, type_filter filters st fs = Ok out.
Proof.
  intros Hall. destruct Hfilters as (_ & H & _). unfold type_filter.
  active_parameter H "types_formation" l.
  rewrite lowered_strings. cbn [rbind].
  apply filterM_returns. intros f Hf.
  rewrite List.Forall_forall in Hall.
  destruct (Hall f ltac:(apply list_elem_of_In; exact Hf))
    as (_ & _ & [s1 H1] & [s2 H2] & _).
  rewrite H1, H2.
  destruct (py_any_returns
              (fun t => (s <-? lower_of (VStr s1); Ok (str_contains t s))%result)
              (map str_lower l)) as [b1 Hb1]; [intros t; cbn; eauto|].
  destruct (py_any_returns
              (fun t => (s <-? lower_of (VStr s2); Ok (str_contains t s))%result)
              (map str_lower l)) as [b2 Hb2]; [intros t; cbn; eauto|].
  rewrite Hb1. cbn [rbind]. destruct b1; [eauto|]. rewrite Hb2. eauto.
Qed.

Lemma statut_filter_returns (fs : list ref) :
  Forall (fun f => well_typed_record (st f)) fs ->
  exists out, statut_filter filters st fs = Ok out.
Proof.
  intros Hall. destruct Hfilters as (_ & _ & H & _). unfold statut_filter.
  active_parameter H "statut" l.
  rewrite lowered_strings. cbn [rbind].
  apply filterM_returns. intros f Hf.
  rewrite List.Forall_forall in Hall.
  destruct (Hall f ltac:(apply list_elem_of_In; exact Hf))
    as (_ & _ & _ & _ & [s H1]).
  rewrite H1. cbn. eauto.
Qed.

Lemma any_keyword_returns (keywords : list string) (f : dict) :
  exists b, any_keyword keywords f = Ok b.
Proof. apply py_any_returns. intros kw. eauto. Qed.

Lemma include_filter_returns (fs : list ref) :
  exists out, include_filter filters st fs = Ok out.
Proof.
  destruct Hfilters as (_ & _ & _ & H & _). unfold include_filter.
  active_parameter H "keywords_include" l.
  rewrite lowered_strings. cbn [rbind].
  apply filterM_returns. intros f _. apply any_keyword_returns.
Qed.

Lemma exclude_filter_returns (fs : list ref) :
  exists out, exclude_filter filters st fs = Ok out.
Proof.
  destruct Hfilters as (_ & _ & _ & _ & H). unfold exclude_filter.
  active_parameter H "keywords_exclude" l.
  rewrite lowered_strings. cbn [rbind].
  apply filterM_returns. intros f _.
  destruct (any_keyword_returns (map str_lower l) (st f)) as [b Hb].
  rewrite Hb. cbn. eauto.
Qed.

(** The five reading stages return on well-typed input. *)
Lemma reading_stages_return (fs : list ref) :
  Forall (fun f => well_typed_record (st f)) fs ->
  exists f1 f2 f3 f4 f5,
    departement_filter filters st fs = Ok f1 /\
    type_filter filters st f1 = Ok f2 /\
    statut_filter filters st f2 = Ok f3 /\
    include_filter filters st f3 = Ok f4 /\
    exclude_filter filters st f4 = Ok f5.
Proof.
  intros Hall.
  destruct (departement_filter_returns fs Hall) as [f1 H1].
  assert (Hall1 : Forall (fun f => well_typed_record (st f)) f1).
  { eapply sublist_Forall; [|exact Hall].
    apply (departement_filter_narrowing filters st fs f1 H1). }
  destruct (type_filter_returns f1 Hall1) as [f2 H2].
  assert (Hall2 : Forall (fun f => well_typed_record (st f)) f2).
  { eapply sublist_Forall; [|exact Hall1].
    apply (type_filter_narrowing filters st f1 f2 H2). }
  destruct (statut_filter_returns f2 Hall2) as [f3 H3].
  destruct (include_filter_returns f3) as [f4 H4].
  destruct (exclude_filter_returns f4) as [f5 H5].
  exists f1, f2, f3, f4, f5. auto.
Qed.

End WellTyped.

(** ** The chain as a whole *)

(** The distance stage when it is off, and when its home coordinates
    cannot be read. *)

(** Without a [home_coordinates] entry the default [{}] is read: the stage
    is off whatever the maximum. *)
Lemma distance_filter_no_home (filters : dict) (fs : list ref) (st : store) :
  dict_lookup filters "home_coordinates" = None ->
  distance_filter filters fs st = (Ok fs, st).
Proof.
  intros Hnone. apply (distance_filter_inactive filters []).
  - unfold dict_get. rewrite Hnone. reflexivity.
  - cbn. apply andb_false_r.
Qed.

(** With a truthy maximum, [home_coords.get("lat")] is evaluated: home
    coordinates that are not a mapping ([None] for a null) raise
    [AttributeError] before any record is looked at. *)
Lemma distance_filter_not_mapping (filters : dict) (fs : list ref) (st : store) :
  truthy (dict_get_none filters "max_distance_km") = true ->
  (forall hc, dict_get filters "home_coordinates" (VDict []) <> VDict hc) ->
  distance_filter filters fs st = (Raise AttributeError, st).
Proof.
  intros Hmax Hhc. unfold distance_filter, distance_condition, mbind, lift.
  rewrite Hmax.
  destruct (dict_get filters "home_coordinates" (VDict [])) as [| | | | | |hc];
    try reflexivity.
  destruct (Hhc hc). reflexivity.
Qed.

(** The loop writes to the records of its list only. *)
Lemma loop_outside (home_lat home_lon max_distance : value) (fs : list ref)
    (r : ref) :
  r ∉ fs ->
  forall st, snd (distance_loop home_lat home_lon max_distance fs st) r = st r.
Proof.
  induction fs as [|f fs IH]; intros Hr st; [reflexivity|].
  apply not_elem_of_cons in Hr as [Hne Hr].
  rewrite loop_cons, distance_step_verdict.
  destruct (distance_verdict home_lat home_lon max_distance (st f)) as [[km|]|e].
  - specialize (IH Hr (<[f:=dict_setitem (st f) "_distance_km" (VFloat km)]> st)).
    rewrite fn_lookup_insert_ne in IH by congruence.
    destruct (distance_loop home_lat home_lon max_distance fs _) as [[out|e] st2];
      exact IH.
  - specialize (IH Hr st).
    destruct (distance_loop home_lat home_lon max_distance fs st) as [[out|e] st2];
      exact IH.
  - reflexivity.
Qed.

(** In every outcome of the loop a record is as it was, or it is a record
    of the list and carries the distance of its own verdict. *)
Lemma loop_touched (home_lat home_lon max_distance : value) (fs : list ref)
    (st : store) (r : ref) :
  snd (distance_loop home_lat home_lon max_distance fs st) r = st r \/
  (r ∈ fs /\
   exists km,
     distance_verdict home_lat home_lon max_distance (st r) = Ok (Some km) /\
     snd (distance_loop home_lat home_lon max_distance fs st) r
     = dict_setitem (st r) "_distance_km" (VFloat km)).
Proof.
  destruct (decide (r ∈ fs)) as [Hin|Hout];
    [|left; apply loop_outside; exact Hout].
  destruct (loop_store home_lat home_lon max_distance fs st r) as [H|H];
    [left; exact H|].
  unfold annotated in H.
  destruct (distance_verdict home_lat home_lon max_distance (st r))
    as [[km|]|e] eqn:Hv; [|left; exact H|left; exact H].
  right. split; [exact Hin|]. exists km. split; [reflexivity|exact H].
Qed.

(** In every outcome [apply_filters] leaves a record as it was, unless the
    distance stage is active and the record is one of those handed in: then
    it may carry the distance the stage computed for it. *)
Lemma apply_filters_writes (formations : list ref) (config : dict) (st : store)
    (r : ref) :
  snd (apply_filters formations config st) r = st r \/
  exists filters hc km,
    dict_get config "filters" (VDict []) = VDict filters /\
    dict_get filters "home_coordinates" (VDict []) = VDict hc /\
    truthy (dict_get_none filters "max_distance_km")
      && truthy (dict_get_none hc "lat") && truthy (dict_get_none hc "lon") = true /\
    r ∈ formations /\
    distance_verdict (dict_get_none hc "lat") (dict_get_none hc "lon")
      (dict_get_none filters "max_distance_km") (st r) = Ok (Some km) /\
    snd (apply_filters formations config st) r
    = dict_setitem (st r) "_distance_km" (VFloat km).
Proof.
  destruct formations as [|f fs]; [left; reflexivity|].
  rewrite apply_filters_stages by discriminate.
  destruct (dict_get config "filters" (VDict [])) as [| | | | | |filters] eqn:Hcfg;
    try (left; reflexivity).
  cbn [as_dict].
  destruct (reading_stages filters st (f :: fs)) as [filtered|e] eqn:Hread;
    [|left; reflexivity].
  destruct (truthy (dict_get_none filters "max_distance_km")) eqn:Hmax.
  2: { left. rewrite distance_filter_no_max by exact Hmax. reflexivity. }
  destruct (dict_get filters "home_coordinates" (VDict [])) as [| | | | | |hc] eqn:Hhc.
  1-6: left; rewrite distance_filter_not_mapping;
       [reflexivity|exact Hmax|rewrite Hhc; discriminate].
  destruct (truthy (dict_get_none filters "max_distance_km")
            && truthy (dict_get_none hc "lat") && truthy (dict_get_none hc "lon"))
    eqn:Hon.
  2: { left. rewrite (distance_filter_inactive filters hc) by assumption.
       reflexivity. }
  rewrite (distance_filter_active filters hc filtered st Hhc Hon).
  destruct (loop_touched (dict_get_none hc "lat") (dict_get_none hc "lon")
              (dict_get_none filters "max_distance_km") filtered st r)
    as [H|(Hin & km & Hv & H)]; [left; exact H|].
  right. exists filters, hc, km.
  split; [reflexivity|]. split; [exact Hhc|]. split; [exact Hon|].
  split; [|split; [exact Hv|exact H]].
  apply reading_stages_narrowing in Hread as [Hsub _].
  eapply elem_of_sublist; eassumption.
Qed.


(** C9: whatever the outcome of [apply_filters] (a result or an
    exception), every record of the store, kept or dropped, is either
    untouched or has had [_distance_km] assigned, and the latter only when
    the distance stage is active (a truthy maximum and a mapping of home
    coordinates with truthy [lat] and [lon]), on a record of the list handed
    in, with the rounded distance the stage computes for that record; each
    other entry keeps its value, and the other entries keep their order.
    With the distance stage off (a falsy maximum, or a falsy home
    coordinate), and when the home coordinates cannot be read, nothing at
    all is written. *)
Theorem apply_filters_frame (formations : list ref) (config : dict) (st : store)
    (r : ref) :
  let st' := snd (apply_filters formations config st) in
  (st' r = st r \/
   exists filters hc km,
     dict_get config "filters" (VDict []) = VDict filters /\
     dict_get filters "home_coordinates" (VDict []) = VDict hc /\
     truthy (dict_get_none filters "max_distance_km")
       && truthy (dict_get_none hc "lat") && truthy (dict_get_none hc "lon") = true /\
     r ∈ formations /\
     distance_verdict (dict_get_none hc "lat") (dict_get_none hc "lon")
       (dict_get_none filters "max_distance_km") (st r) = Ok (Some km) /\
     st' r = dict_setitem (st r) "_distance_km" (VFloat km)) /\
  (forall k, k <> "_distance_km" -> dict_lookup (st' r) k = dict_lookup (st r) k) /\
  filter (fun kv => fst kv <> "_distance_km") (st' r)
  = filter (fun kv => fst kv <> "_distance_km") (st r) /\
  (forall filters,
      dict_get config "filters" (VDict []) = VDict filters ->
      truthy (dict_get_none filters "max_distance_km") = false ->
      st' r = st r) /\
  (forall filters hc,
      dict_get config "filters" (VDict []) = VDict filters ->
      dict_get filters "home_coordinates" (VDict []) = VDict hc ->
      truthy (dict_get_none hc "lat") && truthy (dict_get_none hc "lon") = false ->
      st' r = st r) /\
  (forall filters,
      dict_get config "filters" (VDict []) = VDict filters ->
      (forall hc, dict_get filters "home_coordinates" (VDict []) <> VDict hc) ->
      st' r = st r) /\
  (r ∉ formations -> st' r = st r).
Proof.
  intros st'. pose proof (apply_filters_writes formations config st r) as Hst.
  fold st' in Hst. split; [exact Hst|].
  split; [|split; [|split; [|split; [|split]]]].
  - intros k Hk. destruct Hst as [->|(filters & hc & km & _ & _ & _ & _ & _ & ->)];
      [reflexivity|].
    apply dict_lookup_setitem_ne. congruence.
  - destruct Hst as [->|(filters & hc & km & _ & _ & _ & _ & _ & ->)];
      [reflexivity|].
    apply dict_setitem_others.
  - intros filters Hcfg Hmax.
    destruct Hst as [H|(filters' & hc & km & Hcfg' & _ & Hon & _)]; [exact H|].
    rewrite Hcfg in Hcfg'. injection Hcfg' as <-.
    rewrite Hmax in Hon. discriminate.
  - intros filters hc Hcfg Hhc Hoff.
    destruct Hst as [H|(filters' & hc' & km & Hcfg' & Hhc' & Hon & _)]; [exact H|].
    rewrite Hcfg in Hcfg'. injection Hcfg' as <-.
    rewrite Hhc in Hhc'. injection Hhc' as <-.
    rewrite <- andb_assoc, Hoff, andb_false_r in Hon. discriminate.
  - intros filters Hcfg Hhc.
    destruct Hst as [H|(filters' & hc' & km & Hcfg' & Hhc' & _)]; [exact H|].
    rewrite Hcfg in Hcfg'. injection Hcfg' as <-.
    destruct (Hhc hc' Hhc').
  - intros Hout.
    destruct Hst as [H|(filters & hc & km & _ & _ & _ & Hin & _)]; [exact H|].
    destruct (Hout Hin).
Qed.

(** ** Coordinates that are not numbers *)

(** [bool], [int] and [float] are the numbers. *)
Definition numeric (v : value) : bool :=
  match v with
  | VBool _ | VInt _ | VFloat _ => true
  | _ => false
  end.

Definition has_numeric_coordinates (f : dict) : bool :=
  match coords_field f with
  | VDict coords => numeric (resolved_lat coords) && numeric (resolved_lon coords)
  | _ => false
  end.

Lemma as_float_not_numeric (v : value) :
  numeric v = false -> as_float v = Raise TypeError.
Proof. destruct v; simpl; intros H; try discriminate; reflexivity. Qed.

(** A latitude that is not a number stops [calculate_distance] at its
    second [math.radians], before any trigonometry. *)
Lemma calculate_distance_text_latitude (lat1 lon1 lat2 lon2 : value) (x : float) :
  as_float lat1 = Ok x ->
  numeric lat2 = false ->
  calculate_distance lat1 lon1 lat2 lon2 = Raise TypeError.
Proof.
  intros H1 H2. unfold calculate_distance, math_radians.
  rewrite H1, (as_float_not_numeric lat2 H2). reflexivity.
Qed.

End Properties.

(** * Worked examples

    The examples run the program on the example runtime. *)

Definition tab : string := String (ascii_of_N 9) "".

Definition lycee_a : list (string * value) :=
  [("code_uai", VStr "0750655E"); ("libelle_formation", VStr "BTS Commerce");
   ("ville", VStr "Paris"); ("departement", VStr "75")].

Definition lycee_b : list (string * value) :=
  [("libelle_formation", VStr "BUT Informatique");
   ("libelle_etablissement", VStr "IUT de Marne");
   ("ville", VStr "Champs sur Marne"); ("session", VInt 2025);
   ("code_departement", VStr "77")].

(** The same formation as [lycee_b], fetched with other side entries. *)
Definition lycee_b' : list (string * value) :=
  (lycee_b ++ [("statut_etablissement", VStr "Public")])%list.

Example unique_id_lycee_b :
  get_unique_id (RT := test_runtime) lycee_b
  = Ok "composite_2025_but_informatique_iut_de_marne_champs_sur_marne".
Proof. reflexivity. Qed.

Example detect_new_keeps_both :
  detect_new_formations (RT := test_runtime) [lycee_b; lycee_a; lycee_b'] [lycee_a]
  = Ok [lycee_b; lycee_b'].
Proof. vm_compute. reflexivity. Qed.

(** ** Identity *)

Lemma detect_new_formations_spec_witness :
  [lycee_a] <> [] /\
  detect_new_formations (RT := test_runtime) [lycee_b; lycee_a; lycee_b'] [lycee_a]
  = Ok (filter (fun f => get_unique_id (RT := test_runtime) f
                         ∉ get_unique_id (RT := test_runtime) <$> [lycee_a])
          [lycee_b; lycee_a; lycee_b']).
Proof.
  split; [discriminate|].
  apply (detect_new_formations_spec (RT := test_runtime)). discriminate.
Defined.

Lemma get_unique_id_code_only_witness :
  dict_lookup lycee_a "code_uai" = Some (VStr "0750655E") /\
  dict_lookup [("ville", VStr "Lyon"); ("code_uai", VStr "0750655E")] "code_uai"
  = Some (VStr "0750655E") /\
  get_unique_id (RT := test_runtime) lycee_a
  = get_unique_id (RT := test_runtime)
      [("ville", VStr "Lyon"); ("code_uai", VStr "0750655E")].
Proof.
  split; [reflexivity|]. split; [reflexivity|].
  apply (get_unique_id_code_only (RT := test_runtime) lycee_a
           [("ville", VStr "Lyon"); ("code_uai", VStr "0750655E")]
           (VStr "0750655E")); reflexivity.
Defined.

Lemma get_unique_id_composite_witness :
  dict_contains lycee_b "code_uai" = false /\
  get_unique_id (RT := test_runtime) lycee_b
  = Ok (string_map normalize_char (composite_text (RT := test_runtime) lycee_b)).
Proof.
  split; [reflexivity|].
  apply (get_unique_id_composite (RT := test_runtime) lycee_b). reflexivity.
Defined.

(** A tab in a field is whitespace and stays in the key: the key is not
    normalized for whitespace, and the same city written with a tab and
    with a space gives two identifiers. *)
Lemma tab_not_normalized :
  let formation := [("ville", VStr ("Le" ++ tab ++ "Havre"))] in
  dict_contains formation "code_uai" = false /\
  get_unique_id (RT := test_runtime) formation
  = Ok ("composite_unknown_unknown_unknown_le" ++ tab ++ "havre") /\
  ~ whitespace_normalized ("composite_unknown_unknown_unknown_le" ++ tab ++ "havre") /\
  get_unique_id (RT := test_runtime) formation
  <> get_unique_id (RT := test_runtime) [("ville", VStr "Le Havre")].
Proof.
  cbv zeta. split; [reflexivity|]. split; [reflexivity|]. split.
  - intros H. specialize (H (ascii_of_N 9)).
    assert (Hin : In (ascii_of_N 9)
                    (list_ascii_of_string
                       ("composite_unknown_unknown_unknown_le" ++ tab ++ "havre")))
      by (vm_compute; tauto).
    specialize (H Hin). discriminate H.
  - vm_compute. discriminate.
Defined.

(** ** The notification decision *)

Definition quiet_config : list (string * value) :=
  [("email", VDict [("recipient", VStr "a@example.org");
                    ("send_if_no_new", VBool false)])].

Example should_send_quiet_later_run :
  should_send [] quiet_config false = Ok (VBool false).
Proof. reflexivity. Qed.

Example should_send_quiet_first_run :
  should_send [] quiet_config true = Ok (VBool true).
Proof. reflexivity. Qed.

Lemma should_send_spec_witness :
  dict_get quiet_config "email" (VDict [])
  = VDict [("recipient", VStr "a@example.org"); ("send_if_no_new", VBool false)] /\
  exists v,
    should_send [] quiet_config false = Ok v /\
    (truthy v = true <->
       @nil (list (string * value)) <> [] \/
       truthy (dict_get [("recipient", VStr "a@example.org");
                         ("send_if_no_new", VBool false)]
                 "send_if_no_new" (VBool true)) = true \/
       false = true) /\
    (@nil (list (string * value)) = [] ->
     truthy (dict_get [("recipient", VStr "a@example.org");
                       ("send_if_no_new", VBool false)]
               "send_if_no_new" (VBool true)) = false ->
     truthy v = false).
Proof.
  split; [reflexivity|].
  apply (should_send_spec [] quiet_config
           [("recipient", VStr "a@example.org"); ("send_if_no_new", VBool false)]
           false).
  reflexivity.
Defined.

(** ** The department stage *)

Definition paris_only : list (string * value) := [("departements", VList [VStr "75"])].

Definition dept_store : nat -> list (string * value) :=
  fun r =>
    match r with
    | 0%nat => [("departement", VStr "75")]
    | 1%nat => [("departement", VStr "92")]
    | 2%nat => [("departement", VStr "92"); ("code_departement", VStr "75")]
    | _ => []
    end.

(** The specification's scenario, and a record whose two entries differ:
    the second entry admits it. *)
Example departement_filter_scenario :
  departement_filter paris_only dept_store [0; 1; 2; 3]%nat = Ok [0; 2]%nat.
Proof. reflexivity. Qed.

(** When the first entry is in the set the second is not hashed. *)
Example departement_first_match_wins :
  departement_filter paris_only
    (fun _ => [("departement", VStr "75"); ("code_departement", VList [])])
    [0%nat] = Ok [0%nat] /\
  departement_filter paris_only
    (fun _ => [("departement", VStr "92"); ("code_departement", VList [])])
    [0%nat] = Raise TypeError.
Proof. split; reflexivity. Qed.

(** A record whose two entries differ: read with the first present entry
    winning, its department code is 92, which is not in the set; the stage
    keeps the record all the same, for its second entry. *)
Lemma second_entry_admits :
  first_department_code (dept_store 2%nat) = VStr "92" /\
  member [VStr "75"] (first_department_code (dept_store 2%nat)) = false /\
  departement_filter paris_only dept_store [2%nat] = Ok [2%nat].
Proof. repeat split; reflexivity. Defined.

Lemma departement_filter_spec_witness :
  dict_lookup paris_only "departements" = Some (VList [VStr "75"]) /\
  [VStr "75"] <> [] /\
  forallb hashable [VStr "75"] = true /\
  Forall (fun f => departement_readable [VStr "75"] (dept_store f)) [0; 1; 2; 3]%nat /\
  departement_filter paris_only dept_store [0; 1; 2; 3]%nat
  = Ok (filter (fun f => in_departements [VStr "75"] (dept_store f)) [0; 1; 2; 3]%nat).
Proof.
  assert (Hall : Forall (fun f => departement_readable [VStr "75"] (dept_store f))
                   [0; 1; 2; 3]%nat).
  { repeat (apply List.Forall_cons || apply List.Forall_nil);
      (split; [reflexivity|first [left; reflexivity|right; reflexivity]]). }
  split; [reflexivity|]. split; [discriminate|]. split; [reflexivity|].
  split; [exact Hall|].
  apply (proj2 departement_filter_spec paris_only [VStr "75"] dept_store
           [0; 1; 2; 3]%nat eq_refl ltac:(discriminate) eq_refl).
  exact Hall.
Defined.

(** ** The distance stage *)

Definition home : list (string * value) :=
  [("lat", VFloat 48.8534); ("lon", VFloat 2.6381)].

Definition home_filters : list (string * value) :=
  [("max_distance_km", VInt 10); ("home_coordinates", VDict home)].

(** Two kilometres north of the home coordinates. *)
Definition nearby : list (string * value) :=
  [("libelle_formation", VStr "BTS");
   ("coordonnees", VDict [("lat", VFloat 48.8714); ("lon", VFloat 2.6381)])].

(** Fifty kilometres north of them. *)
Definition remote : list (string * value) :=
  [("libelle_formation", VStr "BUT");
   ("coordinates", VDict [("latitude", VFloat 49.3); ("longitude", VFloat 2.6381)])].

(** On the prime meridian: the longitude is zero. *)
Definition meridian : list (string * value) :=
  [("libelle_formation", VStr "CPGE");
   ("coordonnees", VDict [("lat", VFloat 48.8534); ("lon", VFloat 0)])].

(** Coordinates delivered as text. *)
Definition textual : list (string * value) :=
  [("libelle_formation", VStr "DUT");
   ("coordonnees", VDict [("lat", VStr "48.8714"); ("lon", VStr "2.6381")])].

Definition geo_store : nat -> list (string * value) :=
  fun r =>
    match r with
    | 0%nat => remote
    | 1%nat => nearby
    | 2%nat => meridian
    | 3%nat => textual
    | _ => []
    end.

(** The specification's scenario: the remote record is dropped, the nearby
    one is kept and annotated with 2.0. *)
Example apply_filters_distance_scenario :
  let run := apply_filters (RT := test_runtime) [0; 1]%nat
               [("filters", VDict home_filters)] geo_store in
  fst run = Ok [1%nat] /\
  snd run 0%nat = remote /\
  snd run 1%nat = (nearby ++ [("_distance_km", VFloat 2)])%list.
Proof. vm_compute. repeat split; reflexivity. Qed.

Lemma distance_filter_spec_witness :
  dict_get home_filters "home_coordinates" (VDict []) = VDict home /\
  truthy (dict_get_none home_filters "max_distance_km")
    && truthy (dict_get_none home "lat") && truthy (dict_get_none home "lon") = true /\
  Forall (fun f =>
            is_ok (distance_verdict (RT := test_runtime)
                     (dict_get_none home "lat") (dict_get_none home "lon")
                     (dict_get_none home_filters "max_distance_km")
                     (geo_store f)) = true) [0; 1; 2]%nat /\
  exists out st',
    distance_filter (RT := test_runtime) home_filters [0; 1; 2]%nat geo_store
    = (Ok out, st').
Proof.
  assert (Hall : Forall (fun f =>
            is_ok (distance_verdict (RT := test_runtime)
                     (dict_get_none home "lat") (dict_get_none home "lon")
                     (dict_get_none home_filters "max_distance_km")
                     (geo_store f)) = true) [0; 1; 2]%nat).
  { repeat (apply List.Forall_cons || apply List.Forall_nil); reflexivity. }
  split; [reflexivity|]. split; [reflexivity|]. split; [exact Hall|].
  pose proof (distance_filter_spec (RT := test_runtime) home_filters home
                [0; 1; 2]%nat geo_store eq_refl) as Hspec.
  cbv zeta in Hspec. destruct Hspec as (_ & _ & Hactive).
  destruct (Hactive eq_refl) as (_ & _ & _ & Hreturns).
  exact (Hreturns Hall).
Defined.

(** A record whose coordinates are text has no numeric coordinates, yet
    the active stage does not drop it: the distance computation raises
    [TypeError] and the stage returns nothing. *)
Lemma textual_coordinates_raise :
  has_numeric_coordinates textual = false /\
  (exists c, distance_condition home_filters = Ok c /\ truthy c = true) /\
  distance_filter (RT := test_runtime) home_filters [3%nat] geo_store
  = (Raise TypeError, geo_store).
Proof.
  split; [reflexivity|]. split; [eexists; split; reflexivity|]. reflexivity.
Defined.

Lemma zero_coordinates_dropped_witness :
  dict_get home_filters "home_coordinates" (VDict []) = VDict home /\
  truthy (dict_get_none home_filters "max_distance_km")
    && truthy (dict_get_none home "lat") && truthy (dict_get_none home "lon") = true /\
  without_usable_coordinates (geo_store 2%nat) /\
  distance_filter (RT := test_runtime) home_filters [2%nat] geo_store
  = (Ok [], geo_store).
Proof.
  assert (Hzero : without_usable_coordinates (geo_store 2%nat)).
  { right. right. eexists. split; [reflexivity|].
    right. left. split; reflexivity. }
  split; [reflexivity|]. split; [reflexivity|]. split; [exact Hzero|].
  apply (zero_coordinates_dropped (RT := test_runtime) home_filters home
           [2%nat] geo_store 2%nat eq_refl eq_refl Hzero).
Defined.

(** ** The chain *)

Definition full_filters : list (string * value) :=
  [("departements", VList [VStr "75"; VStr "77"]);
   ("types_formation", VList [VStr "BTS"]);
   ("statut", VList []);
   ("keywords_include", VList [VStr "commerce"]);
   ("keywords_exclude", VList [VStr "alternance"]);
   ("max_distance_km", VNone)].

Definition catalogue : nat -> list (string * value) :=
  fun r =>
    match r with
    | 0%nat => [("departement", VStr "75"); ("type_formation", VStr "BTS - Production");
                ("libelle_formation", VStr "BTS Commerce international")]
    | 1%nat => [("departement", VStr "77"); ("filiere", VStr "bts");
                ("libelle_formation", VStr "Commerce en alternance")]
    | 2%nat => [("departement", VStr "93"); ("type_formation", VStr "BTS")]
    | _ => [("code_departement", VStr "75"); ("type_formation", VStr "Licence")]
    end.

Example apply_filters_chain :
  fst (apply_filters (RT := test_runtime) [0; 1; 2; 3]%nat
         [("filters", VDict full_filters)] catalogue) = Ok [0%nat].
Proof. vm_compute. reflexivity. Qed.


(** Home coordinates given as null, with a maximum distance set: the
    parameter is null, yet the distance stage does not hand its input on.
    [home_coords.get("lat")] raises [AttributeError] and the call returns no
    list at all; without the entry, the same maximum leaves the stage off. *)
Definition null_home_filters : list (string * value) :=
  [("max_distance_km", VInt 10); ("home_coordinates", VNone)].


(** With the distance stage active on the remote and the nearby record,
    the record on the meridian, which is not handed in, is not written. *)
Lemma apply_filters_frame_witness :
  (2%nat ∉ [0; 1]%nat) /\
  snd (apply_filters (RT := test_runtime) [0; 1]%nat
         [("filters", VDict home_filters)] geo_store) 2%nat
  = geo_store 2%nat.
Proof.
  assert (Hout : 2%nat ∉ [0; 1]%nat).
  { intros Hin. apply elem_of_cons in Hin as [Hin|Hin]; [discriminate|].
    apply elem_of_cons in Hin as [Hin|Hin]; [discriminate|].
    apply not_elem_of_nil in Hin. exact Hin. }
  split; [exact Hout|].
  destruct (apply_filters_frame (RT := test_runtime) [0; 1]%nat
              [("filters", VDict home_filters)] geo_store 2%nat)
    as (_ & _ & _ & _ & _ & _ & Houtside).
  exact (Houtside Hout).
Defined.

(** * Further properties of the program *)

Section Difference.

Context {RT : Runtime}.

Lemma detect_new_formations_nil_iff (current previous : list dict) :
  previous <> [] ->
  detect_new_formations current previous = Ok [] <->
  Forall (fun f => get_unique_id f ∈ get_unique_id <$> previous) current.
Proof.
  intros Hne. rewrite detect_new_formations_filter by exact Hne.
  split.
  - intros [= Hnil]. apply List.Forall_forall. intros f Hf.
    apply list_elem_of_In in Hf.
    destruct (decide (get_unique_id f ∈ get_unique_id <$> previous)) as [Hin|Hout];
      [exact Hin|].
    assert (Hnew : f ∈ filter (fun f => get_unique_id f ∉ get_unique_id <$> previous)
                         current)
      by (apply list_elem_of_filter; auto).
    rewrite Hnil in Hnew. apply not_elem_of_nil in Hnew. contradiction.
  - intros Hall. f_equal. induction Hall as [|f current Hf Hall IH]; [reflexivity|].
    rewrite filter_cons_False by (intros Hout; exact (Hout Hf)). exact IH.
Qed.

(** X1: with a non-empty previous snapshot, no formation is reported
    exactly when every current record has the identifier of some previous
    record; in particular a snapshot compared with itself reports nothing. *)
Theorem detect_new_formations_nothing_new (current previous : list dict) :
  previous <> [] ->
  (detect_new_formations current previous = Ok [] <->
   Forall (fun f => get_unique_id f ∈ get_unique_id <$> previous) current) /\
  detect_new_formations previous previous = Ok [].
Proof.
  intros Hne. split; [apply detect_new_formations_nil_iff; exact Hne|].
  apply detect_new_formations_nil_iff; [exact Hne|].
  apply List.Forall_forall. intros f Hf. apply list_elem_of_fmap.
  exists f. split; [reflexivity|apply list_elem_of_In; exact Hf].
Qed.

(** X2: the previous snapshot counts through the set of its identifiers
    only: two non-empty previous snapshots with the same identifiers, in
    whatever order and multiplicity, give the same difference. *)
Theorem detect_new_formations_previous_as_set
    (current previous1 previous2 : list dict) :
  previous1 <> [] ->
  previous2 <> [] ->
  (forall id, id ∈ get_unique_id <$> previous1 <-> id ∈ get_unique_id <$> previous2) ->
  detect_new_formations current previous1 = detect_new_formations current previous2.
Proof.
  intros H1 H2 Hsame. rewrite !detect_new_formations_filter by assumption.
  f_equal. apply list_filter_iff. intros f. rewrite Hsame. reflexivity.
Qed.

(** X3: the difference is computed record by record: the difference of a
    concatenation is the concatenation of the differences, whatever the
    previous snapshot (an empty one included). *)
Theorem detect_new_formations_app (current1 current2 previous : list dict) :
  detect_new_formations (current1 ++ current2) previous =
  (new1 <-? detect_new_formations current1 previous;
   new2 <-? detect_new_formations current2 previous;
   Ok (new1 ++ new2)%list)%result.
Proof.
  destruct previous as [|p previous]; [reflexivity|].
  rewrite !detect_new_formations_filter by discriminate.
  cbn [rbind]. rewrite list.filter_app. reflexivity.
Qed.

(** X4: an identifier built from [code_uai] is never the identifier of a
    record without [code_uai]: a record that gains or loses its code between
    two runs changes identity. *)
Theorem get_unique_id_policies_disjoint (f g : dict) :
  dict_contains f "code_uai" = true ->
  dict_contains g "code_uai" = false ->
  get_unique_id f <> get_unique_id g.
Proof.
  intros Hf Hg. unfold get_unique_id. rewrite Hf, Hg.
  unfold dict_contains, dict_getitem in *.
  destruct (dict_lookup f "code_uai") as [code|]; [|discriminate].
  cbn. discriminate.
Qed.

End Difference.

Lemma detect_new_formations_nothing_new_witness :
  [lycee_a; lycee_b] <> [] /\
  detect_new_formations (RT := test_runtime) [lycee_a; lycee_b] [lycee_a; lycee_b]
  = Ok [].
Proof.
  split; [discriminate|].
  apply (detect_new_formations_nothing_new (RT := test_runtime)
           [lycee_a] [lycee_a; lycee_b]). discriminate.
Defined.

Lemma detect_new_formations_previous_as_set_witness :
  [lycee_a; lycee_b] <> [] /\
  [lycee_b'; lycee_a; lycee_a] <> [] /\
  detect_new_formations (RT := test_runtime) [lycee_b] [lycee_a; lycee_b]
  = detect_new_formations (RT := test_runtime) [lycee_b] [lycee_b'; lycee_a; lycee_a].
Proof.
  split; [discriminate|]. split; [discriminate|].
  apply (detect_new_formations_previous_as_set (RT := test_runtime));
    try discriminate.
  intros id. rewrite !list_elem_of_fmap. split; intros (f & -> & Hf).
  - apply elem_of_cons in Hf as [->|Hf].
    + exists lycee_a. split; [reflexivity|]. right. left.
    + apply list_elem_of_singleton in Hf as ->.
      exists lycee_b'. split; [reflexivity|]. left.
  - apply elem_of_cons in Hf as [->|Hf].
    + exists lycee_b. split; [reflexivity|]. right. left.
    + exists lycee_a. split; [|left].
      apply elem_of_cons in Hf as [->|Hf]; [reflexivity|].
      apply list_elem_of_singleton in Hf as ->. reflexivity.
Defined.

Lemma get_unique_id_policies_disjoint_witness :
  dict_contains lycee_a "code_uai" = true /\
  dict_contains lycee_b "code_uai" = false /\
  get_unique_id (RT := test_runtime) lycee_a <> get_unique_id (RT := test_runtime) lycee_b.
Proof.
  split; [reflexivity|]. split; [reflexivity|].
  apply (get_unique_id_policies_disjoint (RT := test_runtime)); reflexivity.
Defined.

(** ** The filter chain on particular configurations *)

Definition default_departements : list value :=
  [VStr "75"; VStr "77"; VStr "93"; VStr "94"].

Lemma filterM_raises {A} (p : A -> result bool) (l : list A) (e : exn) :
  (forall x e', p x = Raise e' -> e' = e) ->
  (exists x, x ∈ l /\ is_ok (p x) = false) ->
  filterM p l = Raise e.
Proof.
  intros Honly. induction l as [|a l IH]; intros (x & Hx & Hbad).
  - apply not_elem_of_nil in Hx. contradiction.
  - cbn [filterM]. destruct (p a) as [b|e'] eqn:Ha; cbn [rbind].
    + apply elem_of_cons in Hx as [->|Hx].
      * rewrite Ha in Hbad. discriminate.
      * rewrite IH by eauto. reflexivity.
    + rewrite (Honly a e' Ha). reflexivity.
Qed.

Lemma py_any_lower_raises {A} (v : value) (g : A -> string -> bool) (l : list A)
    (e : exn) :
  py_any (fun t => (s <-? lower_of v; Ok (g t s))%result) l = Raise e ->
  e = AttributeError.
Proof.
  induction l as [|t l IH]; cbn [py_any]; [discriminate|].
  destruct v; cbn; try (intros [= <-]; reflexivity).
  destruct (g t (str_lower s)); [discriminate|].
  intros H. apply IH. exact H.
Qed.

Lemma py_any_pure {A} (g : A -> bool) (l : list A) :
  py_any (fun x => Ok (g x)) l = Ok (existsb g l).
Proof.
  induction l as [|x l IH]; [reflexivity|].
  cbn [py_any rbind existsb]. destruct (g x); [reflexivity|exact IH].
Qed.

Section Chain.

Context {RT : Runtime}.

(** X5: when no parameter of the filters is truthy, and in particular when
    the configuration has no [filters] entry at all, [apply_filters] returns
    its input as it is and writes nothing, whatever the records hold. *)
Theorem apply_filters_unconfigured (formations : list ref) (config : dict)
    (st : store) :
  (forall filters,
      dict_get config "filters" (VDict []) = VDict filters ->
      (forall k, In k ["departements"; "types_formation"; "statut";
                       "keywords_include"; "keywords_exclude"; "max_distance_km"] ->
                 truthy (dict_get_none filters k) = false) ->
      apply_filters formations config st = (Ok formations, st)) /\
  (dict_lookup config "filters" = None ->
   apply_filters formations config st = (Ok formations, st)).
Proof.
  assert (Hmain : forall filters,
      dict_get config "filters" (VDict []) = VDict filters ->
      (forall k, In k ["departements"; "types_formation"; "statut";
                       "keywords_include"; "keywords_exclude"; "max_distance_km"] ->
                 truthy (dict_get_none filters k) = false) ->
      apply_filters formations config st = (Ok formations, st)).
  { intros filters Hcfg Hoff.
    destruct formations as [|f fs]; [reflexivity|].
    rewrite apply_filters_stages by discriminate. rewrite Hcfg. cbn [as_dict].
    unfold reading_stages.
    rewrite departement_filter_inactive by (apply Hoff; simpl; tauto). cbn [rbind].
    rewrite type_filter_inactive by (apply Hoff; simpl; tauto). cbn [rbind].
    rewrite statut_filter_inactive by (apply Hoff; simpl; tauto). cbn [rbind].
    rewrite include_filter_inactive by (apply Hoff; simpl; tauto). cbn [rbind].
    rewrite exclude_filter_inactive by (apply Hoff; simpl; tauto).
    apply distance_filter_no_max. apply Hoff. simpl. tauto. }
  split; [exact Hmain|].
  intros Hnone. apply (Hmain []).
  - unfold dict_get. rewrite Hnone. reflexivity.
  - intros k _. reflexivity.
Qed.

(** X6: with the default configuration [apply_filters] filters by
    department only, on 75, 77, 93 and 94: the distance stage is off although
    home coordinates are set, so nothing is written, and the call returns
    when the department entries it hashes are hashable; the mail is sent on
    every run. *)
Theorem default_config_behaviour (formations : list ref) (st : store) :
  (forall out st',
      apply_filters formations create_default_config st = (Ok out, st') ->
      out = filter (fun f => in_departements default_departements (st f)) formations
      /\ st' = st) /\
  (Forall (fun f => departement_readable default_departements (st f)) formations ->
   apply_filters formations create_default_config st
   = (Ok (filter (fun f => in_departements default_departements (st f)) formations),
      st)) /\
  (forall filtered_new is_first_run,
      exists v, should_send filtered_new create_default_config is_first_run = Ok v /\
                truthy v = true).
Proof.
  assert (Hrun : apply_filters formations create_default_config st =
                 match filterM
                         (fun f =>
                            (b <-? set_contains default_departements
                                     (dict_get_none (st f) "departement");
                             if b then Ok true
                             else set_contains default_departements
                                    (dict_get_none (st f) "code_departement"))%result)
                         formations with
                 | Ok out => (Ok out, st)
                 | Raise e => (Raise e, st)
                 end).
  { destruct formations as [|f fs]; [reflexivity|].
    rewrite apply_filters_stages by discriminate.
    cbn [create_default_config dict_get dict_lookup String.eqb Ascii.eqb Bool.eqb
           as_dict].
    unfold reading_stages.
    change (departement_filter _ st (f :: fs)) with
      (filterM
         (fun f =>
            (b <-? set_contains default_departements
                     (dict_get_none (st f) "departement");
             if b then Ok true
             else set_contains default_departements
                    (dict_get_none (st f) "code_departement"))%result)
         (f :: fs)).
    destruct (filterM _ (f :: fs)) as [out|e]; reflexivity. }
  split; [|split].
  - intros out st'. rewrite Hrun.
    destruct (filterM _ formations) as [out'|e] eqn:Hf; [|discriminate].
    intros [= <- <-]. split; [|reflexivity].
    eapply filterM_inv_bool; [|exact Hf].
    intros f b _. apply departement_condition_inv.
  - intros Hall. rewrite Hrun.
    rewrite (filterM_bool (fun f => in_departements default_departements (st f)));
      [reflexivity|].
    intros f Hf. apply departement_condition_total.
    rewrite List.Forall_forall in Hall. apply Hall. apply list_elem_of_In. exact Hf.
  - intros filtered_new is_first_run. unfold should_send.
    destruct filtered_new; eexists; split; reflexivity.
Qed.

(** X7: an active type stage raises [AttributeError] as soon as one record
    has under [type_formation] something that is not a string ([None] for a
    null in the catalogue): the entry is lower-cased without a check.  The
    status stage does the same on [statut_etablissement]. *)
Theorem text_stages_raise_on_null :
  (forall (filters : dict) (st : store) (fs : list ref) (types : list string),
      dict_lookup filters "types_formation" = Some (VList (map VStr types)) ->
      types <> [] ->
      (exists f, f ∈ fs /\
                 forall s, dict_get (st f) "type_formation" (VStr "") <> VStr s) ->
      type_filter filters st fs = Raise AttributeError) /\
  (forall (filters : dict) (st : store) (fs : list ref) (statuts : list string),
      dict_lookup filters "statut" = Some (VList (map VStr statuts)) ->
      statuts <> [] ->
      (exists f, f ∈ fs /\
                 forall s, dict_get (st f) "statut_etablissement" (VStr "") <> VStr s) ->
      statut_filter filters st fs = Raise AttributeError).
Proof.
  split.
  - intros filters st fs types Hcfg Hne (f & Hf & Hbad). unfold type_filter.
    rewrite (lookup_get_none _ _ _ Hcfg), (lookup_getitem _ _ _ Hcfg).
    destruct types as [|t types]; [congruence|].
    change (truthy (VList (map VStr (t :: types)))) with true.
    cbn [rbind]. rewrite (lowered_strings (t :: types)). cbn [rbind].
    apply filterM_raises.
    + intros x e H.
      destruct (py_any _ (map str_lower (t :: types))) as [[|]|e1] eqn:H1;
        cbn [rbind] in H.
      * discriminate.
      * eapply py_any_lower_raises. exact H.
      * inversion H; subst. eapply py_any_lower_raises. exact H1.
    + exists f. split; [exact Hf|]. cbn [map py_any].
      destruct (dict_get (st f) "type_formation" (VStr "")) as [| | | |s| |];
        try reflexivity.
      destruct (Hbad s). reflexivity.
  - intros filters st fs statuts Hcfg Hne (f & Hf & Hbad). unfold statut_filter.
    rewrite (lookup_get_none _ _ _ Hcfg), (lookup_getitem _ _ _ Hcfg).
    destruct statuts as [|t statuts]; [congruence|].
    change (truthy (VList (map VStr (t :: statuts)))) with true.
    cbn [rbind]. rewrite (lowered_strings (t :: statuts)). cbn [rbind].
    apply filterM_raises.
    + intros x e. destruct (dict_get (st x) "statut_etablissement" (VStr ""));
        cbn; congruence.
    + exists f. split; [exact Hf|].
      destruct (dict_get (st f) "statut_etablissement" (VStr "")) as [| | | |s| |];
        try reflexivity.
      destruct (Hbad s). reflexivity.
Qed.

End Chain.

(** ** Substrings *)

Lemma prefix_app (a b : string) : String.prefix a (a ++ b) = true.
Proof.
  induction a as [|c a IH]; [destruct b; reflexivity|].
  change (String c a ++ b) with (String c (a ++ b)). cbn [String.prefix].
  destruct (Ascii.ascii_dec c c); [exact IH|contradiction].
Qed.

Lemma prefix_app_r (a b y : string) :
  String.prefix a b = true -> String.prefix a (b ++ y) = true.
Proof.
  revert b. induction a as [|c a IH]; intros b; [destruct (b ++ y); reflexivity|].
  destruct b as [|d b]; [discriminate|].
  change (String d b ++ y) with (String d (b ++ y)). cbn [String.prefix].
  destruct (Ascii.ascii_dec c d); [apply IH|discriminate].
Qed.

Lemma str_contains_app_r (a b y : string) :
  str_contains a b = true -> str_contains a (b ++ y) = true.
Proof.
  induction b as [|d b IH]; intros H.
  - cbn [str_contains] in H. rewrite orb_false_r in H.
    destruct a; [|discriminate]. change ("" ++ y) with y.
    destruct y; reflexivity.
  - change (String d b ++ y) with (String d (b ++ y)).
    cbn [str_contains] in *. apply orb_true_iff in H as [H|H].
    + change (String d (b ++ y)) with (String d b ++ y).
      rewrite (prefix_app_r a (String d b) y H). reflexivity.
    + rewrite (IH H). apply orb_true_r.
Qed.

Lemma str_contains_app_l (a x b : string) :
  str_contains a b = true -> str_contains a (x ++ b) = true.
Proof.
  intros H. induction x as [|c x IH]; [exact H|].
  change (String c x ++ b) with (String c (x ++ b)). cbn [str_contains].
  rewrite IH. apply orb_true_r.
Qed.

Lemma str_contains_middle (a x b y : string) :
  str_contains a b = true -> str_contains a (x ++ b ++ y) = true.
Proof. intros H. apply str_contains_app_l, str_contains_app_r. exact H. Qed.

Lemma string_map_app (f : ascii -> ascii) (a b : string) :
  string_map f (a ++ b) = string_map f a ++ string_map f b.
Proof.
  induction a as [|c a IH]; [reflexivity|].
  change (String c a ++ b) with (String c (a ++ b)). cbn [string_map].
  rewrite IH. reflexivity.
Qed.

Lemma string_app_assoc (a b c : string) : (a ++ b) ++ c = a ++ b ++ c.
Proof.
  induction a as [|d a IH]; [reflexivity|].
  change ((String d a ++ b) ++ c) with (String d ((a ++ b) ++ c)).
  rewrite IH. reflexivity.
Qed.

Lemma string_app_empty (a : string) : a ++ "" = a.
Proof.
  induction a as [|c a IH]; [reflexivity|].
  change (String c a ++ "") with (String c (a ++ "")). rewrite IH. reflexivity.
Qed.

Lemma fold_join_prefix (sep : string) (parts : list string) (acc : string) :
  exists y, fold_left (fun a q => a ++ sep ++ q) parts acc = acc ++ y.
Proof.
  revert acc. induction parts as [|q parts IH]; intros acc; cbn [fold_left].
  - exists "". rewrite string_app_empty. reflexivity.
  - destruct (IH (acc ++ sep ++ q)) as [y ->].
    exists (sep ++ q ++ y). rewrite !string_app_assoc. reflexivity.
Qed.

Lemma fold_join_elem (sep : string) (parts : list string) (acc p : string) :
  In p parts ->
  exists x y, fold_left (fun a q => a ++ sep ++ q) parts acc = x ++ p ++ y.
Proof.
  revert acc. induction parts as [|q parts IH]; intros acc; [intros []|].
  intros [->|Hin]; cbn [fold_left].
  - destruct (fold_join_prefix sep parts (acc ++ sep ++ p)) as [y ->].
    exists (acc ++ sep), y. rewrite !string_app_assoc. reflexivity.
  - apply IH. exact Hin.
Qed.

Lemma str_join_elem (sep : string) (parts : list string) (p : string) :
  In p parts -> exists x y, str_join sep parts = x ++ p ++ y.
Proof.
  destruct parts as [|q parts]; [intros []|]. unfold str_join.
  intros [->|Hin].
  - destruct (fold_join_prefix sep parts p) as [y ->]. exists "", y. reflexivity.
  - apply fold_join_elem. exact Hin.
Qed.

Section Keywords.

Context {RT : Runtime}.

(** The serialized record shows each of its keys, escaped. *)
Lemma json_dumps_shows_key (f : dict) (k : string) (v : value) :
  In (k, v) f -> exists x y, json_dumps f = x ++ json_escape k ++ y.
Proof.
  intros Hin. unfold json_dumps. cbn [json_dumps_value].
  destruct (str_join_elem ", "
              (map (fun kv => let '(k, w) := kv in
                              json_string k ++ ": " ++ json_dumps_value w) f)
              (json_string k ++ ": " ++ json_dumps_value v)) as (x & y & ->).
  { apply (in_map (fun kv => let '(k, w) := kv in
                             json_string k ++ ": " ++ json_dumps_value w) f (k, v)).
    exact Hin. }
  unfold json_string.
  exists ("{" ++ x ++ String dquote ""),
         (String dquote "" ++ ": " ++ json_dumps_value v ++ y ++ "}").
  change (String dquote (json_escape k)) with (String dquote "" ++ json_escape k).
  rewrite !string_app_assoc. reflexivity.
Qed.

(** Some keyword occurs in the lower-cased serialized record. *)
Definition keyword_hit (keywords : list string) (f : dict) : bool :=
  existsb (fun kw => str_contains kw (str_lower (json_dumps f))) keywords.

Lemma any_keyword_hit (keywords : list string) (f : dict) :
  any_keyword keywords f = Ok (keyword_hit keywords f).
Proof. apply py_any_pure. Qed.

Lemma keyword_hit_field_name (keywords : list string) (f : dict) (kw k : string)
    (v : value) :
  In kw keywords ->
  In (k, v) f ->
  str_contains kw (str_lower (json_escape k)) = true ->
  keyword_hit keywords f = true.
Proof.
  intros Hkw Hk Hsub. apply existsb_exists. exists kw. split; [exact Hkw|].
  destruct (json_dumps_shows_key f k v Hk) as (x & y & ->).
  unfold str_lower in *. rewrite !string_map_app.
  apply str_contains_middle. exact Hsub.
Qed.

(** X8: the keyword scan reads the serialized record, keys included: a
    keyword that occurs (case apart) in the name of one of a record's
    entries matches the record whatever the entries hold, so the include
    stage keeps that record and the exclude stage drops it. *)
Theorem keyword_matches_field_name (filters : dict) (st : store) (fs : list ref)
    (keywords : list string) (kw k : string) (v : value) (f : ref) :
  In kw keywords ->
  f ∈ fs ->
  In (k, v) (st f) ->
  str_contains (str_lower kw) (str_lower (json_escape k)) = true ->
  (dict_lookup filters "keywords_include" = Some (VList (map VStr keywords)) ->
   exists out, include_filter filters st fs = Ok out /\ f ∈ out) /\
  (dict_lookup filters "keywords_exclude" = Some (VList (map VStr keywords)) ->
   exists out, exclude_filter filters st fs = Ok out /\ f ∉ out).
Proof.
  intros Hkw Hf Hk Hsub.
  assert (Hne : truthy (VList (map VStr keywords)) = true)
    by (destruct keywords; [destruct Hkw|reflexivity]).
  assert (Hhit : keyword_hit (map str_lower keywords) (st f) = true).
  { apply (keyword_hit_field_name _ _ (str_lower kw) k v); try assumption.
    apply in_map. exact Hkw. }
  split; intros Hcfg.
  - unfold include_filter.
    rewrite (lookup_get_none _ _ _ Hcfg), (lookup_getitem _ _ _ Hcfg), Hne.
    cbn [rbind]. rewrite lowered_strings. cbn [rbind].
    rewrite (filterM_bool (fun g => keyword_hit (map str_lower keywords) (st g)))
      by (intros g _; apply any_keyword_hit).
    eexists. split; [reflexivity|].
    apply list_elem_of_filter. split; [|exact Hf]. rewrite Hhit. exact I.
  - unfold exclude_filter.
    rewrite (lookup_get_none _ _ _ Hcfg), (lookup_getitem _ _ _ Hcfg), Hne.
    cbn [rbind]. rewrite lowered_strings. cbn [rbind].
    rewrite (filterM_bool
               (fun g => negb (keyword_hit (map str_lower keywords) (st g))))
      by (intros g _; rewrite any_keyword_hit; reflexivity).
    eexists. split; [reflexivity|].
    rewrite list_elem_of_filter. rewrite Hhit. intros [[] _].
Qed.

End Keywords.

(** ** The distance stage: partial runs and results *)

Section DistanceRuns.

Context {RT : Runtime}.

Variables home_lat home_lon max_distance : value.

Lemma distance_loop_app (l1 l2 : list ref) (st : store) :
  distance_loop home_lat home_lon max_distance (l1 ++ l2)%list st =
  match distance_loop home_lat home_lon max_distance l1 st with
  | (Ok out1, st1) =>
      match distance_loop home_lat home_lon max_distance l2 st1 with
      | (Ok out2, st2) => (Ok (out1 ++ out2)%list, st2)
      | (Raise e, st2) => (Raise e, st2)
      end
  | (Raise e, st1) => (Raise e, st1)
  end.
Proof.
  revert st. induction l1 as [|f l1 IH]; intros st.
  - cbn [app distance_loop mret].
    destruct (distance_loop home_lat home_lon max_distance l2 st) as [[out2|e] st2];
      reflexivity.
  - change ((f :: l1) ++ l2)%list with (f :: (l1 ++ l2))%list.
    rewrite !loop_cons.
    destruct (distance_step home_lat home_lon max_distance f st) as [[b|e] st0];
      [|reflexivity].
    rewrite IH.
    destruct (distance_loop home_lat home_lon max_distance l1 st0) as [[out1|e] st1];
      [|reflexivity].
    destruct (distance_loop home_lat home_lon max_distance l2 st1) as [[out2|e] st2];
      [|reflexivity].
    destruct b; reflexivity.
Qed.

(** X9: the distance loop is not atomic.  When the computation raises on a
    record, the exception leaves the loop with the records kept before it
    already annotated: the store differs from the initial one exactly on
    those. *)
Theorem distance_loop_raises_midway (before after : list ref) (f : ref)
    (st : store) (e : exn) :
  Forall (fun g => is_ok (distance_verdict home_lat home_lon max_distance (st g))
                   = true) before ->
  distance_verdict home_lat home_lon max_distance (st f) = Raise e ->
  exists st',
    distance_loop home_lat home_lon max_distance (before ++ f :: after)%list st
    = (Raise e, st') /\
    forall r,
      st' r = if decide (r ∈ filter (fun g => is_kept home_lat home_lon max_distance
                                                 (st g)) before)
              then annotated home_lat home_lon max_distance (st r)
              else st r.
Proof.
  intros Hbefore Hf.
  destruct (loop_total home_lat home_lon max_distance before st Hbefore)
    as (out1 & st1 & Hrun).
  destruct (loop_Ok home_lat home_lon max_distance before st st1 out1 Hrun)
    as [Hout Hst].
  exists st1. rewrite distance_loop_app, Hrun, loop_cons.
  assert (Hf1 : distance_verdict home_lat home_lon max_distance (st1 f) = Raise e).
  { rewrite Hst. destruct (decide (f ∈ out1)); [|exact Hf].
    rewrite distance_verdict_annotated. exact Hf. }
  rewrite distance_step_verdict, Hf1. split; [reflexivity|].
  intros r. rewrite Hst, Hout. reflexivity.
Qed.

End DistanceRuns.

Section Annotated.

Context {RT : Runtime}.

(** X10: when [apply_filters] returns with the distance stage active, every
    record of the result carries a float under [_distance_km], and that float
    is the rounded distance the stage computed for it. *)
Theorem apply_filters_result_annotated (formations out : list ref)
    (config filters hc : dict) (st st' : store) :
  dict_get config "filters" (VDict []) = VDict filters ->
  dict_get filters "home_coordinates" (VDict []) = VDict hc ->
  truthy (dict_get_none filters "max_distance_km")
    && truthy (dict_get_none hc "lat") && truthy (dict_get_none hc "lon") = true ->
  apply_filters formations config st = (Ok out, st') ->
  forall f, f ∈ out ->
    exists km,
      distance_verdict (dict_get_none hc "lat") (dict_get_none hc "lon")
        (dict_get_none filters "max_distance_km") (st f) = Ok (Some km) /\
      dict_lookup (st' f) "_distance_km" = Some (VFloat km).
Proof.
  intros Hcfg Hhc Hon Hrun f Hf.
  destruct formations as [|f0 fs].
  - cbn in Hrun. injection Hrun as <- <-. apply not_elem_of_nil in Hf. contradiction.
  - rewrite apply_filters_stages in Hrun by discriminate.
    rewrite Hcfg in Hrun. cbn [as_dict] in Hrun.
    destruct (reading_stages filters st (f0 :: fs)) as [filtered|e]; [|discriminate].
    rewrite (distance_filter_active filters hc filtered st Hhc Hon) in Hrun.
    apply loop_Ok in Hrun as [Hout Hst].
    assert (Hkept : is_kept (dict_get_none hc "lat") (dict_get_none hc "lon")
                      (dict_get_none filters "max_distance_km") (st f) = true).
    { rewrite Hout in Hf. apply list_elem_of_filter in Hf as [Hk _].
      destruct (is_kept _ _ _ (st f)); [reflexivity|destruct Hk]. }
    rewrite Hst, decide_True by exact Hf.
    unfold is_kept in Hkept. unfold annotated.
    destruct (distance_verdict _ _ _ (st f)) as [[km|]|e]; try discriminate.
    exists km. split; [reflexivity|]. apply dict_lookup_setitem_eq.
Qed.

End Annotated.

(** ** One page, with retries *)

(** The failures the [except] clauses of [fetch_page] catch. *)
Definition caught (a : attempt) : Prop :=
  match a with
  | Fails _ Timeout | Fails _ RequestError => True
  | _ => False
  end.

(** The pauses of the retry back-off: the integer arguments of [sleep]. *)
Definition backoffs (seconds : list value) : list value :=
  List.filter (fun v => match v with VInt _ => true | _ => false end) seconds.

(** The world after a failed pass: the pause before [json()] has been
    taken when the failure is late. *)
Definition late_pause (late : bool) (w : world) : world :=
  if late then add_pause w (VFloat REQUEST_DELAY) else w.

Lemma requests_late_pause (late : bool) (w : world) :
  requests (late_pause late w) = requests w.
Proof. destruct late; reflexivity. Qed.

Lemma responses_late_pause (late : bool) (w : world) :
  responses (late_pause late w) = responses w.
Proof. destruct late; reflexivity. Qed.

Lemma pauses_late_pause (late : bool) (w : world) :
  pauses (late_pause late w)
  = (pauses w ++ if late then [VFloat REQUEST_DELAY] else [])%list.
Proof. destruct late; cbn; [reflexivity|rewrite app_nil_r; reflexivity]. Qed.

Lemma fetch_attempts_cons (attempt : Z) (rest : list Z) (offset limit : Z)
    (year : value) (w : world) :
  fetch_attempts (attempt :: rest) offset limit year w =
  let w1 := add_request w (year, offset, limit) in
  match responses w (length (requests w)) with
  | Answer body => (Ok body, add_pause w1 (VFloat REQUEST_DELAY))
  | Fails late (Unexpected e) => (Raise e, late_pause late w1)
  | Fails late _ =>
      if attempt <? 2
      then fetch_attempts rest offset limit year
             (add_pause (late_pause late w1) (VInt (2 ^ attempt)))
      else (Ok VNone, late_pause late w1)
  end.
Proof.
  cbn [fetch_attempts]. change (MAX_RETRIES - 1) with 2.
  unfold io_bind, http_get, sleep, io_ret, io_raise, late_pause.
  destruct (responses w (length (requests w))) as [body|late why];
    [reflexivity|].
  destruct late, why; try reflexivity; destruct (attempt <? 2); reflexivity.
Qed.

Lemma fetch_page_attempts (offset limit : Z) (year : value) :
  fetch_page offset limit year = fetch_attempts [0; 1; 2] offset limit year.
Proof. reflexivity. Qed.

Ltac next_attempt w i H :=
  rewrite fetch_attempts_cons; cbv zeta;
  repeat (progress (cbn [add_request add_pause responses requests pauses];
                    rewrite ?requests_late_pause, ?responses_late_pause,
                      ?length_app));
  cbn [length];
  destruct (responses w i) as [?body|?late [| |?e]] eqn:H.

Ltac world_facts :=
  cbn [fst snd repeat Nat.sub];
  repeat (progress (cbn [fst snd add_request add_pause responses requests pauses];
                    rewrite ?requests_late_pause, ?responses_late_pause));
  rewrite <- ?app_assoc; cbn [app].

(** X11: [fetch_page] makes one, two or three requests, all with the same
    parameters; each request before the last one made has failed with a
    timeout or a request error; the last one made decides: its answer is
    returned, an exception of another kind is raised, and a third caught
    failure gives [None]. *)
Theorem fetch_page_retries (offset limit : Z) (year : value) (w : world) :
  let n := length (requests w) in
  let r := fetch_page offset limit year w in
  exists made : nat,
    (1 <= made <= 3)%nat /\
    requests (snd r) = (requests w ++ repeat (year, offset, limit) made)%list /\
    responses (snd r) = responses w /\
    (forall j, (j < made - 1)%nat -> caught (responses w (n + j))) /\
    match responses w (n + (made - 1)) with
    | Answer body => fst r = Ok body
    | Fails _ (Unexpected e) => fst r = Raise e
    | Fails _ _ => fst r = Ok VNone /\ made = 3%nat
    end.
Proof.
  intros n r. subst r. rewrite fetch_page_attempts.
  next_attempt w (length (requests w)) H0.
  1, 4: exists 1%nat; world_facts; rewrite Nat.add_0_r; fold n in H0; rewrite H0;
    (repeat split; try lia; try reflexivity); intros j Hj; lia.
  all: cbn [Z.ltb Z.compare]; next_attempt w (length (requests w) + 1)%nat H1.
  all: try (exists 2%nat; world_facts; fold n in H0, H1;
            rewrite H1;
            (repeat split; try lia; try reflexivity);
            intros j Hj; assert (j = 0%nat) as -> by lia;
            rewrite Nat.add_0_r, H0; exact I).
  all: cbn [Z.ltb Z.compare Pos.compare Pos.compare_cont];
    next_attempt w (length (requests w) + 1 + 1)%nat H2.
  all: exists 3%nat; world_facts; fold n in H0, H1, H2;
    rewrite <- ?Nat.add_assoc in H2; cbn [Nat.add] in H2; rewrite H2;
    cbn [Z.ltb Z.compare Pos.compare Pos.compare_cont fst snd];
    world_facts;
    (repeat split; try lia; try reflexivity);
    intros j Hj; assert (j = 0 \/ j = 1)%nat as [-> | ->] by lia;
    [rewrite Nat.add_0_r, H0|rewrite H1]; exact I.
Qed.

Ltac pause_facts :=
  repeat (progress (cbn [fst snd add_request add_pause pauses];
                    rewrite ?pauses_late_pause));
  rewrite <- ?app_assoc;
  change (2 ^ 0) with 1; change (2 ^ 1) with 2.

Ltac pause_leaf :=
  eexists; split; [pause_facts; reflexivity|];
  repeat match goal with late : bool |- _ => destruct late end;
  cbn; repeat split; auto;
  try (intros; discriminate);
  try (intros [= ->]; right; eexists; eassumption);
  try (intros ? [= <-] ?; first [reflexivity | contradiction]).

(** X12: the pauses of [fetch_page].  Between two requests it waits 1 and
    then 2 seconds; a page given up (the result is [None] and no request
    was answered with null) has waited 1 and 2 seconds; a page that is
    answered ends on the delay of half a second. *)
Theorem fetch_page_pauses (offset limit : Z) (year : value) (w : world) :
  let r := fetch_page offset limit year w in
  exists extra,
    pauses (snd r) = (pauses w ++ extra)%list /\
    (backoffs extra = [] \/ backoffs extra = [VInt 1] \/
     backoffs extra = [VInt 1; VInt 2]) /\
    (fst r = Ok VNone ->
     backoffs extra = [VInt 1; VInt 2] \/ exists i, responses w i = Answer VNone) /\
    (forall body, fst r = Ok body -> body <> VNone ->
                  list.last extra = Some (VFloat REQUEST_DELAY)).
Proof.
  intros r. subst r. rewrite fetch_page_attempts.
  next_attempt w (length (requests w)) H0.
  1, 4: pause_leaf.
  all: cbn [Z.ltb Z.compare]; next_attempt w (length (requests w) + 1)%nat H1.
  1, 4, 5, 8: pause_leaf.
  all: cbn [Z.ltb Z.compare Pos.compare Pos.compare_cont];
    next_attempt w (length (requests w) + 1 + 1)%nat H2.
  all: cbn [Z.ltb Z.compare Pos.compare Pos.compare_cont]; pause_leaf.
Qed.

(** ** All the pages of a year *)

Lemma fetch_year_eq (year : value) (offset : Z) (all_formations : list value)
    (w : world) :
  fetch_year year offset all_formations w =
  match fetch_page offset RECORDS_PER_PAGE year w with
  | (Raise e, w') => (Raise e, w')
  | (Ok response, w') =>
      match read_page response with
      | Raise e => (Raise e, w')
      | Ok Break => (Ok all_formations, w')
      | Ok (Extend records) =>
          if Z_gt_dec (offset + RECORDS_PER_PAGE) 100000
          then (Ok (all_formations ++ records)%list, w')
          else fetch_year year (offset + RECORDS_PER_PAGE)
                 (all_formations ++ records)%list w'
      end
  end.
Proof.
  simp fetch_year.
  destruct (fetch_page offset RECORDS_PER_PAGE year w) as [[response|e] w'];
    cbn; [|reflexivity].
  destruct (read_page response) as [[|records]|e]; cbn; try reflexivity.
  destruct (Z_gt_dec (offset + RECORDS_PER_PAGE) 100000); reflexivity.
Qed.

(** What [fetch_page] leaves in the world and where its result comes from. *)
Lemma fetch_page_outcome (offset limit : Z) (year : value) (w : world) :
  let r := fetch_page offset limit year w in
  responses (snd r) = responses w /\
  (exists made : nat,
      (1 <= made <= 3)%nat /\
      requests (snd r) = (requests w ++ repeat (year, offset, limit) made)%list) /\
  match fst r with
  | Ok body => body = VNone \/ exists i, responses w i = Answer body
  | Raise e => exists i late, responses w i = Fails late (Unexpected e)
  end.
Proof.
  intros r. subst r. rewrite fetch_page_attempts.
  next_attempt w (length (requests w)) H0.
  1, 4: world_facts; split; [reflexivity|]; split; [exists 1%nat; split; [lia|reflexivity]|];
    eauto.
  all: cbn [Z.ltb Z.compare]; next_attempt w (length (requests w) + 1)%nat H1.
  1, 4, 5, 8: world_facts; split; [reflexivity|];
    split; [exists 2%nat; split; [lia|reflexivity]|]; eauto.
  all: cbn [Z.ltb Z.compare Pos.compare Pos.compare_cont];
    next_attempt w (length (requests w) + 1 + 1)%nat H2.
  all: cbn [Z.ltb Z.compare Pos.compare Pos.compare_cont]; world_facts;
    split; [reflexivity|]; split; [exists 3%nat; split; [lia|reflexivity]|]; eauto.
Qed.

(** The requests for the pages of [year] from [offset] on. *)
Definition page_request (year : value) (offset : Z) (request : value * Z * Z)
  : Prop :=
  exists o, request = (year, o, RECORDS_PER_PAGE) /\
            offset <= o <= 100000 /\ o mod 100 = 0.

(** The number of pages from [offset] to the safety limit. *)
Definition pages_left (offset : Z) : Z := (100000 - offset) / 100 + 1.

(** Every answer holds at most a page of records. *)
Definition page_size_respected (w : world) : Prop :=
  forall i body records,
    responses w i = Answer body ->
    read_page body = Ok (Extend records) ->
    (Z.of_nat (length records) <= RECORDS_PER_PAGE).

(** The records the network serves: the members of the [results] of some
    answer. *)
Definition served (w : world) (f : value) : Prop :=
  exists i body records,
    responses w i = Answer body /\
    read_page body = Ok (Extend records) /\
    In f records.

(** The network only fails in the ways [fetch_page] catches, and every
    answer is a mapping whose [results] can be iterated. *)
Definition tame (w : world) : Prop :=
  forall i,
    match responses w i with
    | Answer body => is_ok (read_page body) = true
    | Fails _ (Unexpected _) => False
    | Fails _ _ => True
    end.

Lemma page_request_weaken (year : value) (offset offset' : Z)
    (request : value * Z * Z) :
  offset <= offset' -> page_request year offset' request ->
  page_request year offset request.
Proof. intros Hle (o & -> & Ho & Hm). exists o. repeat split; try lia. Qed.

Lemma repeat_Forall {A} (P : A -> Prop) (x : A) (n : nat) :
  P x -> Forall P (repeat x n).
Proof. intros Hx. induction n; constructor; assumption. Qed.

Lemma fetch_year_invariant (year : value) (m : nat) :
  forall (offset : Z) (all_formations : list value) (w : world),
    0 <= offset <= 100000 ->
    offset mod 100 = 0 ->
    Z.to_nat ((100000 - offset) / 100) = m ->
    let r := fetch_year year offset all_formations w in
    responses (snd r) = responses w /\
    (exists extra,
        requests (snd r) = (requests w ++ extra)%list /\
        Forall (page_request year offset) extra /\
        1 <= Z.of_nat (length extra) <= 3 * pages_left offset) /\
    (forall l, fst r = Ok l ->
       exists more,
         l = (all_formations ++ more)%list /\
         Forall (served w) more /\
         (page_size_respected w ->
          Z.of_nat (length more) <= RECORDS_PER_PAGE * pages_left offset)) /\
    (tame w -> is_ok (fst r) = true).
Proof.
  induction m as [|m IH]; intros offset all_formations w Hoff Hmod Hm r; subst r;
    rewrite fetch_year_eq;
    destruct (fetch_page_outcome offset RECORDS_PER_PAGE year w)
      as (Hresp & (made & Hmade & Hreq) & Hres);
    destruct (fetch_page offset RECORDS_PER_PAGE year w) as [[response|e] w'];
    cbn [fst snd] in *;
    assert (Hpages : 1 <= pages_left offset) by (unfold pages_left; Z.div_mod_to_equations; lia);
    assert (Hextra : Forall (page_request year offset)
                       (repeat (year, offset, RECORDS_PER_PAGE) made))
      by (apply repeat_Forall; exists offset; repeat split; lia).
  (* the induction step and the base case share all the cases but the
     recursive call *)
  all: try (destruct (read_page response) as [[|records]|e] eqn:Hread;
            [| |]; cbn [fst snd]).
  all: try (split; [exact Hresp|]; split;
            [exists (repeat (year, offset, RECORDS_PER_PAGE) made);
             split; [exact Hreq|]; split; [exact Hextra|];
             rewrite repeat_length; lia|]).
  all: try match goal with
    | |- context [Z_gt_dec ?a ?b] => destruct (Z_gt_dec a b) as [Hgt|Hle]
    end; cbn [fst snd].
  all: try (split; [exact Hresp|]; split;
            [exists (repeat (year, offset, RECORDS_PER_PAGE) made);
             split; [exact Hreq|]; split; [exact Hextra|];
             rewrite repeat_length; lia|]).
  all: try (split;
    [ intros l [= <-]; first
        [ exists []; split; [rewrite app_nil_r; reflexivity|];
          split; [constructor|];
          intros _; cbn; unfold RECORDS_PER_PAGE; lia
        | exists records; split; [reflexivity|];
          destruct Hres as [-> | [i Hi]]; [discriminate|];
          split; [apply List.Forall_forall; intros f Hf;
                  exists i, response, records; auto|];
          intros Hsize;
          pose proof (Hsize i response records Hi Hread);
          unfold RECORDS_PER_PAGE in *;
          lia ]
    | intros Htame; try reflexivity ]).
  all: try (split; [intros l [=]|]; intros Htame).
  all: try (destruct Hres as [-> | [i Hi]]; [discriminate|];
            specialize (Htame i); rewrite Hi, Hread in Htame; discriminate).
  all: try (destruct Hres as (i & late & Hi); specialize (Htame i);
            rewrite Hi in Htame; contradiction).
  - (* no page left, yet the loop goes on: impossible *)
    exfalso. unfold RECORDS_PER_PAGE in *.
    Z.div_mod_to_equations. lia.
  - (* the recursive call *)
    unfold RECORDS_PER_PAGE in Hle.
    assert (Hm' : Z.to_nat ((100000 - (offset + RECORDS_PER_PAGE)) / 100) = m).
    { unfold RECORDS_PER_PAGE.
      replace (100000 - (offset + 100)) with ((100000 - offset) + (-1) * 100) by lia.
      rewrite Z.div_add by lia. lia. }
    assert (Hmod' : (offset + RECORDS_PER_PAGE) mod 100 = 0).
    { unfold RECORDS_PER_PAGE.
      replace (offset + 100) with (offset + 1 * 100) by lia.
      rewrite Z.mod_add by lia. exact Hmod. }
    assert (Hleft : pages_left (offset + RECORDS_PER_PAGE) = pages_left offset - 1).
    { unfold pages_left, RECORDS_PER_PAGE.
      replace (100000 - (offset + 100)) with ((100000 - offset) + (-1) * 100) by lia.
      rewrite Z.div_add by lia. lia. }
    destruct (IH (offset + RECORDS_PER_PAGE) (all_formations ++ records)%list w'
                ltac:(unfold RECORDS_PER_PAGE; lia) Hmod' Hm')
      as (Hresp' & (extra & Hreq' & Hall' & Hlen') & Hlist' & Htame').
    destruct Hres as [-> | [i Hi]]; [discriminate|].
    split; [rewrite Hresp'; exact Hresp|]. split; [|split].
    + exists (repeat (year, offset, RECORDS_PER_PAGE) made ++ extra)%list.
      split; [rewrite Hreq', Hreq, app_assoc; reflexivity|]. split.
      * apply Forall_app. split; [exact Hextra|].
        eapply List.Forall_impl; [|exact Hall'].
        intros q. apply page_request_weaken. unfold RECORDS_PER_PAGE. lia.
      * rewrite length_app, repeat_length, Hleft in *. lia.
    + intros l Hl. destruct (Hlist' l Hl) as (more & -> & Hserved & Hmore).
      exists (records ++ more)%list. split; [rewrite app_assoc; reflexivity|].
      split.
      { apply Forall_app. split.
        - apply List.Forall_forall. intros f Hf. exists i, response, records. auto.
        - eapply List.Forall_impl; [|exact Hserved].
          intros f (j & b & rs & Hj & Hb & Hin). exists j, b, rs.
          rewrite <- Hresp. auto. }
      intros Hsize. rewrite length_app.
      assert (Hsize' : page_size_respected w').
      { intros j b rs. rewrite Hresp. apply Hsize. }
      specialize (Hmore Hsize'). pose proof (Hsize i response records Hi Hread).
      rewrite Hleft in Hmore. unfold RECORDS_PER_PAGE in *. lia.
    + intros Htame. apply Htame'. intros j. rewrite Hresp. apply Htame.
Qed.

(** ** All the years *)

(** The requests made for one year: at least one, at most three for each
    of the 1001 pages up to the safety limit, all of them for that year,
    for a page of [RECORDS_PER_PAGE] records at an offset that is a
    multiple of 100 between 0 and 100000. *)
Definition year_requests (year : value) (made : list (value * Z * Z)) : Prop :=
  (1 <= length made <= 3003)%nat /\ Forall (page_request year 0) made.

Lemma fetch_years_cons (year : value) (rest all_formations : list value)
    (w : world) :
  fetch_years (year :: rest) all_formations w =
  match fetch_year year 0 all_formations w with
  | (Ok all_formations, w') => fetch_years rest all_formations w'
  | (Raise e, w') => (Raise e, w')
  end.
Proof. reflexivity. Qed.

Lemma page_size_respected_ext (w w' : world) :
  responses w' = responses w -> page_size_respected w -> page_size_respected w'.
Proof. intros Hresp Hsize i body records. rewrite Hresp. apply Hsize. Qed.

Lemma tame_ext (w w' : world) :
  responses w' = responses w -> tame w -> tame w'.
Proof. intros Hresp Htame i. rewrite Hresp. apply Htame. Qed.

Lemma served_ext (w w' : world) (f : value) :
  responses w' = responses w -> served w' f -> served w f.
Proof.
  intros Hresp (i & body & records & Hi & Hread & Hin).
  exists i, body, records. rewrite <- Hresp. auto.
Qed.

Lemma fetch_years_invariant (years : list value) :
  forall (all_formations : list value) (w : world),
    let r := fetch_years years all_formations w in
    responses (snd r) = responses w /\
    (exists made : list (list (value * Z * Z)),
        requests (snd r) = (requests w ++ concat made)%list /\
        (length made <= length years)%nat /\
        (is_ok (fst r) = true -> length made = length years) /\
        Forall2 year_requests (take (length made) years) made) /\
    (forall l, fst r = Ok l ->
       exists more,
         l = (all_formations ++ more)%list /\
         Forall (served w) more /\
         (page_size_respected w ->
          Z.of_nat (length more) <= 100100 * Z.of_nat (length years))) /\
    (tame w -> is_ok (fst r) = true).
Proof.
  induction years as [|year rest IH]; intros all_formations w r; subst r.
  - cbn [fetch_years io_ret fst snd]. split; [reflexivity|]. split; [|split].
    + exists []. cbn. rewrite app_nil_r. repeat split; auto.
    + intros l [= <-]. exists []. rewrite app_nil_r.
      split; [reflexivity|]. split; [constructor|]. intros _. cbn. lia.
    + reflexivity.
  - rewrite fetch_years_cons.
    destruct (fetch_year_invariant year _ 0 all_formations w
                ltac:(lia) eq_refl eq_refl)
      as (Hresp & (extra & Hreq & Hall & Hlen) & Hlist & Htame).
    change (pages_left 0) with 1001 in *.
    assert (Hyear : year_requests year extra) by (split; [lia|exact Hall]).
    destruct (fetch_year year 0 all_formations w) as [[all'|e] w'];
      cbn [fst snd] in *.
    + destruct (IH all' w')
        as (Hresp' & (made & Hreq' & Hlen' & Hok' & Hall') & Hlist' & Htame').
      split; [rewrite Hresp'; exact Hresp|]. split; [|split].
      * exists (extra :: made). cbn [concat length take].
        split; [rewrite Hreq', Hreq, app_assoc; reflexivity|].
        split; [lia|]. split; [intros Hok; rewrite (Hok' Hok); reflexivity|].
        constructor; assumption.
      * intros l Hl. destruct (Hlist' l Hl) as (more' & -> & Hserved' & Hmore').
        destruct (Hlist all' eq_refl) as (more & -> & Hserved & Hmore).
        exists (more ++ more')%list. split; [rewrite app_assoc; reflexivity|].
        split.
        { apply Forall_app. split; [exact Hserved|].
          eapply List.Forall_impl; [|exact Hserved'].
          intros f. apply served_ext. exact Hresp. }
        intros Hsize. specialize (Hmore Hsize).
        specialize (Hmore' (page_size_respected_ext _ _ Hresp Hsize)).
        rewrite length_app. cbn [length]. unfold RECORDS_PER_PAGE in *. lia.
      * intros Ht. apply Htame'. apply (tame_ext _ _ Hresp Ht).
    + split; [exact Hresp|]. split; [|split].
      * exists [extra]. cbn [concat length take]. rewrite app_nil_r.
        split; [exact Hreq|]. split; [lia|]. split; [discriminate|].
        constructor; [assumption|]. cbn. constructor.
      * intros l [=].
      * intros Ht. specialize (Htame Ht). discriminate.
Qed.

Lemma fetch_all_formations_list (years : list value) (w : world) :
  fetch_all_formations (VList years) w = fetch_years years [] w.
Proof. reflexivity. Qed.

(** X13: the requests of [fetch_all_formations].  The years are fetched in
    the order of the list; each year fetched gets between 1 and 3003
    requests, each for a page of 100 records at an offset that is a multiple
    of 100 between 0 and 100000; when the function returns, every year of
    the list has been requested at least once (a year given up after three
    failures does not stop the years that follow). *)
Theorem fetch_all_formations_requests (years : list value) (w : world) :
  let r := fetch_all_formations (VList years) w in
  exists made : list (list (value * Z * Z)),
    requests (snd r) = (requests w ++ concat made)%list /\
    (length made <= length years)%nat /\
    (is_ok (fst r) = true -> length made = length years) /\
    Forall2 year_requests (take (length made) years) made.
Proof.
  intros r. subst r. rewrite fetch_all_formations_list.
  exact (proj1 (proj2 (fetch_years_invariant years [] w))).
Qed.

(** X14: what [fetch_all_formations] returns holds at most 100100 records
    for each year when no answer holds more than a page of records. *)
Theorem fetch_all_formations_bounded (years : list value) (w : world) :
  page_size_respected w ->
  match fst (fetch_all_formations (VList years) w) with
  | Ok all_formations =>
      Z.of_nat (length all_formations) <= 100100 * Z.of_nat (length years)
  | Raise _ => True
  end.
Proof.
  intros Hsize. rewrite fetch_all_formations_list.
  destruct (fetch_years_invariant years [] w) as (_ & _ & Hlist & _).
  cbv zeta in Hlist.
  destruct (fst (fetch_years years [] w)) as [l|e]; [|exact I].
  destruct (Hlist l eq_refl) as (more & -> & _ & Hmore).
  cbn [app]. exact (Hmore Hsize).
Qed.

(** X15: network failures never make [fetch_all_formations] raise.  When
    every request either times out, fails with a request error or is
    answered by a mapping whose [results] can be iterated, the function
    returns a list: failures only shorten it. *)
Theorem fetch_all_formations_returns (years : list value) (w : world) :
  tame w ->
  exists all_formations,
    fst (fetch_all_formations (VList years) w) = Ok all_formations.
Proof.
  intros Htame. rewrite fetch_all_formations_list.
  destruct (fetch_years_invariant years [] w) as (_ & _ & _ & Hok).
  cbv zeta in Hok. specialize (Hok Htame).
  destruct (fst (fetch_years years [] w)) as [l|e]; [eauto|discriminate].
Qed.

(** X16: every record [fetch_all_formations] returns is a member of the
    [results] of an answer of the network, and the answers are not
    consumed: the outcomes of the requests to come are left as they were. *)
Theorem fetch_all_formations_served (years : list value) (w : world) :
  let r := fetch_all_formations (VList years) w in
  responses (snd r) = responses w /\
  match fst r with
  | Ok all_formations => Forall (served w) all_formations
  | Raise _ => True
  end.
Proof.
  intros r. subst r. rewrite fetch_all_formations_list.
  destruct (fetch_years_invariant years [] w) as (Hresp & _ & Hlist & _).
  cbv zeta in Hresp, Hlist. split; [exact Hresp|].
  destruct (fst (fetch_years years [] w)) as [l|e]; [|exact I].
  destruct (Hlist l eq_refl) as (more & -> & Hserved & _). exact Hserved.
Qed.

(** ** Worked examples for the further properties *)

(** The keyword [Ville] is found in every record that has a [ville] entry,
    whatever the town. *)
Lemma keyword_matches_field_name_witness :
  In "Ville" ["Ville"] /\
  In ("ville", VStr "Paris") lycee_a /\
  str_contains (str_lower "Ville") (str_lower (json_escape "ville")) = true /\
  (exists out,
      include_filter (RT := test_runtime)
        [("keywords_include", VList [VStr "Ville"])] (fun _ => lycee_a) [0%nat]
      = Ok out /\ 0%nat ∈ out) /\
  (exists out,
      exclude_filter (RT := test_runtime)
        [("keywords_exclude", VList [VStr "Ville"])] (fun _ => lycee_a) [0%nat]
      = Ok out /\ 0%nat ∉ out).
Proof.
  assert (Hkw : In "Ville" ["Ville"]) by (left; reflexivity).
  assert (Hk : In ("ville", VStr "Paris") lycee_a)
    by (right; right; left; reflexivity).
  assert (Hf : 0%nat ∈ [0%nat]) by left.
  split; [exact Hkw|]. split; [exact Hk|]. split; [reflexivity|]. split.
  - exact (proj1 (keyword_matches_field_name (RT := test_runtime)
                    [("keywords_include", VList [VStr "Ville"])]
                    (fun _ => lycee_a) [0%nat] ["Ville"] "Ville" "ville"
                    (VStr "Paris") 0%nat Hkw Hf Hk eq_refl) eq_refl).
  - exact (proj2 (keyword_matches_field_name (RT := test_runtime)
                    [("keywords_exclude", VList [VStr "Ville"])]
                    (fun _ => lycee_a) [0%nat] ["Ville"] "Ville" "ville"
                    (VStr "Paris") 0%nat Hkw Hf Hk eq_refl) eq_refl).
Defined.

(** The nearby record is annotated, then the record with textual
    coordinates raises: the annotation stays. *)
Lemma distance_loop_raises_midway_witness :
  Forall (fun g => is_ok (distance_verdict (RT := test_runtime)
                            (VFloat 48.8534) (VFloat 2.6381) (VInt 10)
                            (geo_store g)) = true) [1%nat] /\
  distance_verdict (RT := test_runtime) (VFloat 48.8534) (VFloat 2.6381) (VInt 10)
    (geo_store 3%nat) = Raise TypeError /\
  exists st',
    distance_loop (RT := test_runtime) (VFloat 48.8534) (VFloat 2.6381) (VInt 10)
      [1; 3; 0]%nat geo_store = (Raise TypeError, st') /\
    st' 1%nat = (nearby ++ [("_distance_km", VFloat 2)])%list /\
    st' 0%nat = remote.
Proof.
  assert (Hbefore : Forall (fun g => is_ok (distance_verdict (RT := test_runtime)
                            (VFloat 48.8534) (VFloat 2.6381) (VInt 10)
                            (geo_store g)) = true) [1%nat])
    by (apply List.Forall_cons; [reflexivity|apply List.Forall_nil]).
  split; [exact Hbefore|]. split; [reflexivity|].
  destruct (distance_loop_raises_midway (RT := test_runtime)
              (VFloat 48.8534) (VFloat 2.6381) (VInt 10)
              [1%nat] [0%nat] 3%nat geo_store TypeError Hbefore eq_refl)
    as (st' & Hrun & Hst).
  exists st'. split; [exact Hrun|].
  split; rewrite Hst; vm_compute; reflexivity.
Defined.

Lemma apply_filters_result_annotated_witness :
  dict_get [("filters", VDict home_filters)] "filters" (VDict []) = VDict home_filters /\
  dict_get home_filters "home_coordinates" (VDict []) = VDict home /\
  fst (apply_filters (RT := test_runtime) [0; 1; 2]%nat
         [("filters", VDict home_filters)] geo_store) = Ok [1%nat] /\
  exists km,
    distance_verdict (RT := test_runtime) (dict_get_none home "lat")
      (dict_get_none home "lon") (dict_get_none home_filters "max_distance_km")
      (geo_store 1%nat) = Ok (Some km) /\
    dict_lookup
      (snd (apply_filters (RT := test_runtime) [0; 1; 2]%nat
              [("filters", VDict home_filters)] geo_store) 1%nat)
      "_distance_km" = Some (VFloat km).
Proof.
  assert (Hfst : fst (apply_filters (RT := test_runtime) [0; 1; 2]%nat
                        [("filters", VDict home_filters)] geo_store) = Ok [1%nat])
    by (vm_compute; reflexivity).
  split; [reflexivity|]. split; [reflexivity|]. split; [exact Hfst|].
  apply (apply_filters_result_annotated (RT := test_runtime) [0; 1; 2]%nat [1%nat]
           [("filters", VDict home_filters)] home_filters home geo_store
           (snd (apply_filters (RT := test_runtime) [0; 1; 2]%nat
                   [("filters", VDict home_filters)] geo_store))
           eq_refl eq_refl eq_refl).
  - rewrite <- Hfst. apply surjective_pairing.
  - left.
Defined.

(** A network that answers the first page with two records, times out on
    the second, answers the retry with one more record and then answers
    with mappings that hold no record. *)
Definition slow_network : world :=
  {| responses := fun i =>
       match i with
       | 0%nat => Answer (VDict [("total_count", VInt 3);
                                 ("results", VList [VDict lycee_a; VDict lycee_b])])
       | 1%nat => Fails false Timeout
       | 2%nat => Answer (VDict [("results", VList [VDict lycee_b'])])
       | _ => Answer (VDict [("total_count", VInt 3); ("results", VList [])])
       end;
     requests := [];
     pauses := [] |}.

Lemma slow_network_page_size : page_size_respected slow_network.
Proof.
  intros i body records Hi Hread.
  destruct i as [|[|[|i]]]; cbn in Hi; try discriminate;
    injection Hi as <-; cbn in Hread; try discriminate;
    injection Hread as <-; cbn; unfold RECORDS_PER_PAGE; lia.
Qed.

Lemma slow_network_tame : tame slow_network.
Proof. intros i. destruct i as [|[|[|i]]]; cbn; auto. Qed.

Example fetch_all_formations_slow_network :
  let r := fetch_all_formations (VList [VStr "2025"]) slow_network in
  fst r = Ok [VDict lycee_a; VDict lycee_b; VDict lycee_b'] /\
  requests (snd r) = [(VStr "2025", 0, 100); (VStr "2025", 100, 100);
                      (VStr "2025", 100, 100); (VStr "2025", 200, 100)] /\
  pauses (snd r) = [VFloat 0.5; VInt 1; VFloat 0.5; VFloat 0.5].
Proof.
  cbv zeta. rewrite fetch_all_formations_list. cbn [fetch_years]. unfold io_bind.
  rewrite fetch_year_eq.
  set (p := fetch_page 0 RECORDS_PER_PAGE (VStr "2025") slow_network).
  vm_compute in p. subst p. cbv beta iota.
  set (q := read_page _). vm_compute in q. subst q. cbv beta iota.
  destruct (Z_gt_dec _ _) as [Hgt|_]; [vm_compute in Hgt; discriminate|].
  rewrite fetch_year_eq.
  set (p := fetch_page _ _ _ _).
  vm_compute in p. subst p. cbv beta iota.
  set (q := read_page _). vm_compute in q. subst q. cbv beta iota.
  destruct (Z_gt_dec _ _) as [Hgt|_]; [vm_compute in Hgt; discriminate|].
  rewrite fetch_year_eq.
  set (p := fetch_page _ _ _ _).
  vm_compute in p. subst p. cbv beta iota.
  set (q := read_page _). vm_compute in q. subst q. cbv beta iota.
  cbn. repeat split; reflexivity.
Qed.

Lemma fetch_all_formations_bounded_witness :
  page_size_respected slow_network /\
  match fst (fetch_all_formations (VList [VStr "2025"]) slow_network) with
  | Ok all_formations => Z.of_nat (length all_formations) <= 100100 * 1
  | Raise _ => True
  end.
Proof.
  split; [exact slow_network_page_size|].
  apply (fetch_all_formations_bounded [VStr "2025"] slow_network).
  exact slow_network_page_size.
Defined.

Lemma fetch_all_formations_returns_witness :
  tame slow_network /\
  exists all_formations,
    fst (fetch_all_formations (VList [VStr "2025"]) slow_network)
    = Ok all_formations.
Proof.
  split; [exact slow_network_tame|].
  apply (fetch_all_formations_returns [VStr "2025"] slow_network).
  exact slow_network_tame.
Defined.
(** A configuration without a [filters] entry leaves the records and the
    store alone, even records the stages could not read. *)
Lemma apply_filters_unconfigured_witness :
  dict_lookup quiet_config "filters" = None /\
  apply_filters (RT := test_runtime) [0; 1; 2; 3]%nat quiet_config geo_store
  = (Ok [0; 1; 2; 3]%nat, geo_store).
Proof.
  split; [reflexivity|].
  exact (proj2 (apply_filters_unconfigured (RT := test_runtime)
                  [0; 1; 2; 3]%nat quiet_config geo_store) eq_refl).
Defined.

(** The default configuration keeps the records of 75, found under either
    of the two entries, and drops those of 92. *)
Lemma default_config_behaviour_witness :
  Forall (fun f => departement_readable default_departements (dept_store f))
    [0; 1; 2; 3]%nat /\
  apply_filters (RT := test_runtime) [0; 1; 2; 3]%nat create_default_config dept_store
  = (Ok [0; 2]%nat, dept_store).
Proof.
  assert (Hall : Forall (fun f => departement_readable default_departements
                                    (dept_store f)) [0; 1; 2; 3]%nat).
  { repeat (apply List.Forall_cons || apply List.Forall_nil);
      (split; [reflexivity|]); first [left; reflexivity|right; reflexivity]. }
  split; [exact Hall|].
  exact (proj1 (proj2 (default_config_behaviour (RT := test_runtime)
                         [0; 1; 2; 3]%nat dept_store)) Hall).
Defined.

(** A catalogue record whose [type_formation] is null. *)
Definition untyped : list (string * value) :=
  [("libelle_formation", VStr "BTS Commerce"); ("type_formation", VNone);
   ("statut_etablissement", VNone)].

Lemma text_stages_raise_on_null_witness :
  type_filter [("types_formation", VList [VStr "BTS"])]
    (fun r => match r with 0%nat => lycee_a | _ => untyped end) [0; 1]%nat
  = Raise AttributeError /\
  statut_filter [("statut", VList [VStr "public"])]
    (fun r => match r with 0%nat => lycee_a | _ => untyped end) [0; 1]%nat
  = Raise AttributeError.
Proof.
  split.
  - apply (proj1 (text_stages_raise_on_null)
             [("types_formation", VList [VStr "BTS"])]
             (fun r => match r with 0%nat => lycee_a | _ => untyped end)
             [0; 1]%nat ["BTS"] eq_refl); [discriminate|].
    exists 1%nat. split; [right; left|]. intros s. discriminate.
  - apply (proj2 (text_stages_raise_on_null)
             [("statut", VList [VStr "public"])]
             (fun r => match r with 0%nat => lycee_a | _ => untyped end)
             [0; 1]%nat ["public"] eq_refl); [discriminate|].
    exists 1%nat. split; [right; left|]. intros s. discriminate.
Defined.

(** ** The report of the filtered records *)

Section ReportDistance.

Context {RT : Runtime}.

(** X17: the records [apply_filters] returns with the distance stage
    active are all shown with their distance: [format_formation_html] ends
    their card with the distance paragraph, which holds the text of the
    rounded distance the stage computed, a distance of 0.0 included (the
    test is [is not None]). *)
Theorem format_formation_html_shows_distance (formations out : list ref)
    (config filters hc : dict) (st st' : store) :
  dict_get config "filters" (VDict []) = VDict filters ->
  dict_get filters "home_coordinates" (VDict []) = VDict hc ->
  truthy (dict_get_none filters "max_distance_km")
    && truthy (dict_get_none hc "lat") && truthy (dict_get_none hc "lon") = true ->
  apply_filters formations config st = (Ok out, st') ->
  forall f, f ∈ out ->
    exists km head,
      distance_verdict (dict_get_none hc "lat") (dict_get_none hc "lon")
        (dict_get_none filters "max_distance_km") (st f) = Ok (Some km) /\
      format_formation_html (st' f)
      = head ++ "<p " ++ attr "style" "margin: 5px 0;"
             ++ "><strong>Distance:</strong> " ++ float_repr km
             ++ " km</p></div>".
Proof.
  intros Hcfg Hhc Hon Hrun f Hf.
  destruct formations as [|f0 fs].
  { cbn in Hrun. injection Hrun as <- <-. apply not_elem_of_nil in Hf. contradiction. }
  rewrite apply_filters_stages in Hrun by discriminate.
  rewrite Hcfg in Hrun. cbn [as_dict] in Hrun.
  destruct (reading_stages filters st (f0 :: fs)) as [filtered|e]; [|discriminate].
  rewrite (distance_filter_active filters hc filtered st Hhc Hon) in Hrun.
  apply loop_Ok in Hrun as [Hout Hst].
  assert (Hkept : is_kept (dict_get_none hc "lat") (dict_get_none hc "lon")
                    (dict_get_none filters "max_distance_km") (st f) = true).
  { rewrite Hout in Hf. apply list_elem_of_filter in Hf as [Hk _].
    destruct (is_kept _ _ _ (st f)); [reflexivity|destruct Hk]. }
  unfold is_kept in Hkept.
  destruct (distance_verdict _ _ _ (st f)) as [[km|]|e] eqn:Hv; try discriminate.
  exists km. eexists. split; [reflexivity|].
  unfold format_formation_html. cbv zeta.
  assert (Hkm : dict_get_none (st' f) "_distance_km" = VFloat km).
  { rewrite Hst, decide_True by exact Hf. unfold annotated. rewrite Hv.
    unfold dict_get_none, dict_get. rewrite dict_lookup_setitem_eq. reflexivity. }
  rewrite Hkm. cbn [py_str py_repr].
  etransitivity; [apply string_app_assoc|].
  apply (f_equal (String.append _)).
  rewrite !string_app_assoc. reflexivity.
Qed.

End ReportDistance.

Lemma format_formation_html_shows_distance_witness :
  dict_get [("filters", VDict home_filters)] "filters" (VDict []) = VDict home_filters /\
  dict_get home_filters "home_coordinates" (VDict []) = VDict home /\
  fst (apply_filters (RT := test_runtime) [0; 1; 2]%nat
         [("filters", VDict home_filters)] geo_store) = Ok [1%nat] /\
  exists km head,
    distance_verdict (RT := test_runtime) (dict_get_none home "lat")
      (dict_get_none home "lon") (dict_get_none home_filters "max_distance_km")
      (geo_store 1%nat) = Ok (Some km) /\
    format_formation_html (RT := test_runtime)
      (snd (apply_filters (RT := test_runtime) [0; 1; 2]%nat
              [("filters", VDict home_filters)] geo_store) 1%nat)
    = head ++ "<p " ++ attr "style" "margin: 5px 0;"
           ++ "><strong>Distance:</strong> "
           ++ float_repr (Runtime := test_runtime) km ++ " km</p></div>".
Proof.
  assert (Hfst : fst (apply_filters (RT := test_runtime) [0; 1; 2]%nat
                        [("filters", VDict home_filters)] geo_store) = Ok [1%nat])
    by (vm_compute; reflexivity).
  split; [reflexivity|]. split; [reflexivity|]. split; [exact Hfst|].
  apply (format_formation_html_shows_distance (RT := test_runtime)
           [0; 1; 2]%nat [1%nat]
           [("filters", VDict home_filters)] home_filters home geo_store
           (snd (apply_filters (RT := test_runtime) [0; 1; 2]%nat
                   [("filters", VDict home_filters)] geo_store))
           eq_refl eq_refl eq_refl).
  - rewrite <- Hfst. apply surjective_pairing.
  - left.
Defined.

(** ** Coordinates that are not numbers: the whole stage *)

Section NonNumeric.

Context {RT : Runtime}.

Lemma as_float_numeric (v : value) (x : float) :
  as_float v = Ok x -> numeric v = true.
Proof. destruct v; cbn; intros H; try discriminate; reflexivity. Qed.

Lemma py_sub_numeric (a b v : value) :
  py_sub a b = Ok v -> numeric a = true /\ numeric b = true.
Proof. destruct a, b; cbn; intros H; try discriminate; split; reflexivity. Qed.

(** [calculate_distance] returns on numbers only. *)
Lemma calculate_distance_numeric (lat1 lon1 lat2 lon2 : value) (d : float) :
  calculate_distance lat1 lon1 lat2 lon2 = Ok d ->
  numeric lat1 = true /\ numeric lon1 = true /\
  numeric lat2 = true /\ numeric lon2 = true.
Proof.
  unfold calculate_distance, math_radians. intros H.
  destruct (as_float lat1) as [x1|e] eqn:H1; cbn [rbind] in H; [|discriminate].
  destruct (as_float lat2) as [x2|e] eqn:H2; cbn [rbind] in H; [|discriminate].
  destruct (py_sub lat2 lat1) as [dlat|e]; cbn [rbind] in H; [|discriminate].
  destruct (as_float dlat) as [x3|e]; cbn [rbind] in H; [|discriminate].
  destruct (py_sub lon2 lon1) as [dlon|e] eqn:H4; cbn [rbind] in H; [|discriminate].
  apply py_sub_numeric in H4 as [Hlon2 Hlon1].
  apply as_float_numeric in H1, H2. auto.
Qed.

Lemma distance_verdict_numeric (home_lat home_lon max_distance : value) (f : dict)
    (lat lon : value) :
  resolved_coordinates f = Some (lat, lon) ->
  is_ok (distance_verdict home_lat home_lon max_distance f) = true ->
  numeric lat = true /\ numeric lon = true.
Proof.
  unfold distance_verdict. intros ->.
  destruct (calculate_distance home_lat home_lon lat lon) as [d|e] eqn:Hd;
    [|discriminate].
  intros _. apply calculate_distance_numeric in Hd. tauto.
Qed.

(** When the loop returns, the body has returned on every record. *)
Lemma loop_returns_verdicts (home_lat home_lon max_distance : value)
    (fs : list ref) :
  forall (st st' : store) (out : list ref),
    distance_loop home_lat home_lon max_distance fs st = (Ok out, st') ->
    Forall (fun f => is_ok (distance_verdict home_lat home_lon max_distance (st f))
                     = true) fs.
Proof.
  induction fs as [|f fs IH]; intros st st' out Hrun; [constructor|].
  rewrite loop_cons in Hrun.
  pose proof (step_store home_lat home_lon max_distance f st) as Hstore.
  rewrite distance_step_verdict in Hrun, Hstore.
  destruct (distance_verdict home_lat home_lon max_distance (st f))
    as [verdict|e] eqn:Hv; [|destruct e; discriminate].
  constructor; [rewrite Hv; reflexivity|].
  set (st1 := match verdict with
              | Some km => <[f:=dict_setitem (st f) "_distance_km" (VFloat km)]> st
              | None => st
              end).
  assert (Hst1 : forall r, st1 r = st r \/
                           st1 r = annotated home_lat home_lon max_distance (st r)).
  { intros r. specialize (Hstore r). destruct verdict; exact Hstore. }
  assert (Hrest : exists out1 st2,
             distance_loop home_lat home_lon max_distance fs st1 = (Ok out1, st2)).
  { destruct verdict; subst st1;
      destruct (distance_loop home_lat home_lon max_distance fs _) as [[out1|e] st2];
      try discriminate; eauto. }
  destruct Hrest as (out1 & st2 & Hrest).
  generalize (IH st1 st2 out1 Hrest). apply List.Forall_impl.
  intros g Hg. destruct (Hst1 g) as [Heq|Heq]; rewrite Heq in Hg; [exact Hg|].
  rewrite distance_verdict_annotated in Hg. exact Hg.
Qed.

(** X18: one record whose resolved coordinates are truthy but not both
    numbers (coordinates delivered as text, say) is enough for the active
    distance stage to raise: the stage then returns no list at all, whatever
    the other records are. *)
Theorem non_numeric_coordinates_raise (filters hc : dict) (fs : list ref)
    (st : store) (f : ref) (lat lon : value) :
  dict_get filters "home_coordinates" (VDict []) = VDict hc ->
  truthy (dict_get_none filters "max_distance_km")
    && truthy (dict_get_none hc "lat") && truthy (dict_get_none hc "lon") = true ->
  f ∈ fs ->
  resolved_coordinates (st f) = Some (lat, lon) ->
  numeric lat && numeric lon = false ->
  exists e st', distance_filter filters fs st = (Raise e, st').
Proof.
  intros Hhc Hon Hf Hres Hnum.
  rewrite (distance_filter_active filters hc fs st Hhc Hon).
  destruct (distance_loop _ _ _ fs st) as [[out|e] st'] eqn:Hrun; [|eauto].
  apply loop_returns_verdicts in Hrun.
  rewrite List.Forall_forall in Hrun.
  specialize (Hrun f (proj1 (list_elem_of_In _ _) Hf)).
  destruct (distance_verdict_numeric _ _ _ _ lat lon Hres Hrun) as [Hlat Hlon].
  rewrite Hlat, Hlon in Hnum. discriminate.
Qed.

End NonNumeric.

Lemma non_numeric_coordinates_raise_witness :
  dict_get home_filters "home_coordinates" (VDict []) = VDict home /\
  3%nat ∈ [1; 3; 0]%nat /\
  resolved_coordinates (geo_store 3%nat) = Some (VStr "48.8714", VStr "2.6381") /\
  exists e st',
    distance_filter (RT := test_runtime) home_filters [1; 3; 0]%nat geo_store
    = (Raise e, st').
Proof.
  assert (Hin : 3%nat ∈ [1; 3; 0]%nat) by (right; left).
  split; [reflexivity|]. split; [exact Hin|]. split; [reflexivity|].
  exact (non_numeric_coordinates_raise (RT := test_runtime) home_filters home
           [1; 3; 0]%nat geo_store 3%nat (VStr "48.8714") (VStr "2.6381")
           eq_refl eq_refl Hin eq_refl eq_refl).
Defined.

(** ** The chain, record by record *)

(** The condition of a comprehension as a truth value: an exception is not
    a yes. *)
Definition holds (m : result bool) : bool :=
  match m with Ok b => b | Raise _ => false end.

Lemma filterM_holds {A} (c : A -> result bool) (l out : list A) :
  filterM c l = Ok out -> out = filter (fun x => holds (c x)) l.
Proof.
  apply (filterM_inv_bool (fun x => holds (c x))). intros x b _ ->. reflexivity.
Qed.

Lemma filter_all {A} (l : list A) : l = filter (fun _ => true) l.
Proof.
  induction l as [|x l IH]; [reflexivity|].
  rewrite filter_cons_True by exact I. f_equal. exact IH.
Qed.

Lemma filter_filter_bool {A} (a b : A -> bool) (l : list A) :
  filter (fun x => b x) (filter (fun x => a x) l) = filter (fun x => a x && b x) l.
Proof.
  rewrite list_filter_filter. apply list_filter_iff. intros x.
  destruct (a x), (b x); cbn; tauto.
Qed.

Section Pointwise.

Context {RT : Runtime}.

(** A stage decides record by record: whether it keeps a record depends on
    the configuration and on what the record holds, not on the list. *)
Definition pointwise (stage : store -> list ref -> result (list ref)) : Prop :=
  exists keep : dict -> bool,
    forall st fs out,
      stage st fs = Ok out -> out = filter (fun f => keep (st f)) fs.

Ltac stage_off :=
  exists (fun _ => true); intros st fs out H;
  first [discriminate H | injection H as <-; apply filter_all].

Lemma departement_filter_pointwise (filters : dict) :
  pointwise (departement_filter filters).
Proof.
  unfold pointwise, departement_filter.
  destruct (truthy (dict_get_none filters "departements")); [|stage_off].
  destruct (dict_getitem filters "departements") as [v|e]; cbn [rbind]; [|stage_off].
  destruct (py_set v) as [depts|e]; cbn [rbind]; [|stage_off].
  exists (fun d =>
            holds (b <-? set_contains depts (dict_get_none d "departement");
                   if b then Ok true
                   else set_contains depts (dict_get_none d "code_departement"))%result).
  intros st fs out. apply filterM_holds.
Qed.

Lemma type_filter_pointwise (filters : dict) : pointwise (type_filter filters).
Proof.
  unfold pointwise, type_filter.
  destruct (truthy (dict_get_none filters "types_formation")); [|stage_off].
  destruct (dict_getitem filters "types_formation") as [v|e]; cbn [rbind];
    [|stage_off].
  destruct (lowered v) as [types|e]; cbn [rbind]; [|stage_off].
  exists (fun d =>
            holds (b <-? py_any (fun t =>
                                   s <-? lower_of (dict_get d "type_formation" (VStr ""));
                                   Ok (str_contains t s)) types;
                   if b then Ok true
                   else py_any (fun t =>
                                  s <-? lower_of (dict_get d "filiere" (VStr ""));
                                  Ok (str_contains t s)) types)%result).
  intros st fs out. apply filterM_holds.
Qed.

Lemma statut_filter_pointwise (filters : dict) : pointwise (statut_filter filters).
Proof.
  unfold pointwise, statut_filter.
  destruct (truthy (dict_get_none filters "statut")); [|stage_off].
  destruct (dict_getitem filters "statut") as [v|e]; cbn [rbind]; [|stage_off].
  destruct (lowered v) as [statuts|e]; cbn [rbind]; [|stage_off].
  exists (fun d =>
            holds (s <-? lower_of (dict_get d "statut_etablissement" (VStr ""));
                   Ok (existsb (String.eqb s) statuts))%result).
  intros st fs out. apply filterM_holds.
Qed.

Lemma include_filter_pointwise (filters : dict) : pointwise (include_filter filters).
Proof.
  unfold pointwise, include_filter.
  destruct (truthy (dict_get_none filters "keywords_include")); [|stage_off].
  destruct (dict_getitem filters "keywords_include") as [v|e]; cbn [rbind];
    [|stage_off].
  destruct (lowered v) as [keywords|e]; cbn [rbind]; [|stage_off].
  exists (fun d => holds (any_keyword keywords d)).
  intros st fs out. apply filterM_holds.
Qed.

Lemma exclude_filter_pointwise (filters : dict) : pointwise (exclude_filter filters).
Proof.
  unfold pointwise, exclude_filter.
  destruct (truthy (dict_get_none filters "keywords_exclude")); [|stage_off].
  destruct (dict_getitem filters "keywords_exclude") as [v|e]; cbn [rbind];
    [|stage_off].
  destruct (lowered v) as [keywords|e]; cbn [rbind]; [|stage_off].
  exists (fun d => holds (b <-? any_keyword keywords d; Ok (negb b))%result).
  intros st fs out. apply filterM_holds.
Qed.

Lemma distance_filter_pointwise (filters : dict) :
  exists keep : dict -> bool,
    forall st st' fs out,
      distance_filter filters fs st = (Ok out, st') ->
      out = filter (fun f => keep (st f)) fs.
Proof.
  destruct (truthy (dict_get_none filters "max_distance_km")) eqn:Hmax.
  2: { exists (fun _ => true). intros st st' fs out.
       rewrite distance_filter_no_max by exact Hmax.
       intros [= <- _]. apply filter_all. }
  destruct (dict_get filters "home_coordinates" (VDict [])) as [| | | | | |hc] eqn:Hhc.
  1-6: exists (fun _ => true); intros st st' fs out;
       unfold distance_filter, distance_condition, mbind, lift;
       rewrite Hmax, Hhc; cbn; discriminate.
  destruct (truthy (dict_get_none filters "max_distance_km")
            && truthy (dict_get_none hc "lat") && truthy (dict_get_none hc "lon"))
    eqn:Hon.
  - exists (is_kept (dict_get_none hc "lat") (dict_get_none hc "lon")
              (dict_get_none filters "max_distance_km")).
    intros st st' fs out. rewrite (distance_filter_active filters hc fs st Hhc Hon).
    intros Hrun. apply loop_Ok in Hrun as [Hout _]. exact Hout.
  - exists (fun _ => true). intros st st' fs out.
    rewrite (distance_filter_inactive filters hc fs st Hhc Hon).
    intros [= <- _]. apply filter_all.
Qed.

(** X19: [apply_filters] decides record by record.  For each
    configuration there is a condition on what a record holds such that,
    whenever the call returns, its result is the input filtered by this
    condition, in the order of the input: whether a formation is kept does
    not depend on the other formations, on its place in the list or on the
    number of times it occurs. *)
Theorem apply_filters_pointwise (config : dict) :
  exists keep : dict -> bool,
    forall (formations out : list ref) (st st' : store),
      apply_filters formations config st = (Ok out, st') ->
      out = filter (fun f => keep (st f)) formations.
Proof.
  destruct (as_dict (dict_get config "filters" (VDict []))) as [filters|e] eqn:Hcfg.
  2: { exists (fun _ => true). intros [|f fs] out st st' Hrun.
       - cbn in Hrun. injection Hrun as <- _. reflexivity.
       - rewrite apply_filters_stages, Hcfg in Hrun by discriminate.
         discriminate. }
  destruct (departement_filter_pointwise filters) as [q1 H1].
  destruct (type_filter_pointwise filters) as [q2 H2].
  destruct (statut_filter_pointwise filters) as [q3 H3].
  destruct (include_filter_pointwise filters) as [q4 H4].
  destruct (exclude_filter_pointwise filters) as [q5 H5].
  destruct (distance_filter_pointwise filters) as [q6 H6].
  exists (fun d => q1 d && q2 d && q3 d && q4 d && q5 d && q6 d).
  intros [|f fs] out st st' Hrun.
  { cbn in Hrun. injection Hrun as <- _. reflexivity. }
  rewrite apply_filters_stages, Hcfg in Hrun by discriminate.
  unfold reading_stages in Hrun.
  destruct (departement_filter filters st (f :: fs)) as [f1|e] eqn:E1;
    cbn [rbind] in Hrun; [|discriminate].
  destruct (type_filter filters st f1) as [f2|e] eqn:E2;
    cbn [rbind] in Hrun; [|discriminate].
  destruct (statut_filter filters st f2) as [f3|e] eqn:E3;
    cbn [rbind] in Hrun; [|discriminate].
  destruct (include_filter filters st f3) as [f4|e] eqn:E4;
    cbn [rbind] in Hrun; [|discriminate].
  destruct (exclude_filter filters st f4) as [f5|e] eqn:E5; [|discriminate].
  apply H1 in E1. apply H2 in E2. apply H3 in E3. apply H4 in E4. apply H5 in E5.
  apply H6 in Hrun. subst f1 f2 f3 f4 f5 out.
  rewrite (filter_filter_bool (fun g => q1 (st g))).
  rewrite (filter_filter_bool (fun g => q1 (st g) && q2 (st g))).
  rewrite (filter_filter_bool (fun g => q1 (st g) && q2 (st g) && q3 (st g))).
  rewrite (filter_filter_bool
             (fun g => q1 (st g) && q2 (st g) && q3 (st g) && q4 (st g))).
  rewrite (filter_filter_bool
             (fun g => q1 (st g) && q2 (st g) && q3 (st g) && q4 (st g) && q5 (st g))).
  reflexivity.
Qed.

End Pointwise.

Lemma apply_filters_pointwise_witness :
  exists keep : list (string * value) -> bool,
    fst (apply_filters (RT := test_runtime) [0; 1; 2; 3]%nat
           [("filters", VDict full_filters)] catalogue) = Ok [0%nat] /\
    [0%nat] = filter (fun f => keep (catalogue f)) [0; 1; 2; 3]%nat.
Proof.
  assert (Hfst : fst (apply_filters (RT := test_runtime) [0; 1; 2; 3]%nat
                        [("filters", VDict full_filters)] catalogue) = Ok [0%nat])
    by (vm_compute; reflexivity).
  destruct (apply_filters_pointwise (RT := test_runtime)
              [("filters", VDict full_filters)]) as [keep Hkeep].
  exists keep. split; [exact Hfst|].
  apply (Hkeep [0; 1; 2; 3]%nat [0%nat] catalogue
           (snd (apply_filters (RT := test_runtime) [0; 1; 2; 3]%nat
                   [("filters", VDict full_filters)] catalogue))).
  rewrite <- Hfst. apply surjective_pairing.
Defined.
